(** * The chat server's connection manager (demo-chat/server)

    A shallow embedding of [models.py] and [websocket_handler.py]: the
    six dictionaries of [ConnectionManager] as finite maps, the handlers
    as programs of a small state / output / exception monad, and the
    properties of the session manager proved over all runs. The HTTP
    queries and the WebSocket endpoint of [main.py] are embedded over
    the same store, and the tokenization loop of [check_vocab.py] as a
    function of the vocabulary and the text. *)

From Stdlib Require Import ZArith Ascii String List.
From stdpp Require Import base option list gmap strings pretty fin_maps.


(** ** Python strings

    A [str] is modelled by the [string] of its UTF-8 bytes, which keeps
    equality, emptiness and concatenation. [str.upper] and [str.strip]
    depend on the Unicode tables of the interpreter: they are not
    defined here but taken from the environment (see [Env]). What they
    do to ASCII text is defined here: on ASCII text [str.upper] maps
    [a-z] to [A-Z] and [str.strip] removes from both ends the
    characters for which [str.isspace] holds, 9-13 and 28-32. *)

Module Py.

Definition truthy (s : string) : bool :=
  match s with EmptyString => false | String _ _ => true end.

Definition opt_truthy (o : option string) : bool :=
  match o with Some s => truthy s | None => false end.

(** Text of code points below 128 only. *)
Definition is_ascii (s : string) : bool :=
  forallb (λ a, (nat_of_ascii a <? 128)%nat) (list_ascii_of_string s).

Definition ascii_isspace (a : ascii) : bool :=
  let n := nat_of_ascii a in
  ((9 <=? n)%nat && (n <=? 13)%nat) || ((28 <=? n)%nat && (n <=? 32)%nat).

Definition is_lower (a : ascii) : bool :=
  let n := nat_of_ascii a in (97 <=? n)%nat && (n <=? 122)%nat.

Definition is_upper (a : ascii) : bool :=
  let n := nat_of_ascii a in (65 <=? n)%nat && (n <=? 90)%nat.

Definition is_digit (a : ascii) : bool :=
  let n := nat_of_ascii a in (48 <=? n)%nat && (n <=? 57)%nat.

Definition upper_char (a : ascii) : ascii :=
  if is_lower a then ascii_of_nat (nat_of_ascii a - 32) else a.

(** [str.upper] on ASCII text *)
Fixpoint ascii_upper (s : string) : string :=
  match s with
  | EmptyString => EmptyString
  | String a s' => String (upper_char a) (ascii_upper s')
  end.

Fixpoint ascii_lstrip (s : string) : string :=
  match s with
  | EmptyString => EmptyString
  | String a s' => if ascii_isspace a then ascii_lstrip s' else s
  end.

(** A character is kept when it is not white space or when something
    is kept after it. *)
Fixpoint ascii_rstrip (s : string) : string :=
  match s with
  | EmptyString => EmptyString
  | String a s' =>
      match ascii_rstrip s' with
      | EmptyString =>
          if ascii_isspace a then EmptyString else String a EmptyString
      | r => String a r
      end
  end.

(** [str.strip] on ASCII text *)
Definition ascii_strip (s : string) : string := ascii_rstrip (ascii_lstrip s).

(** [l[-n:]] for [0 < n]: the last [n] elements, all of [l] when it is
    shorter. *)
Definition last_n {A} (n : nat) (l : list A) : list A :=
  drop (length l - n) l.

(** [list.remove(x)]: the first occurrence goes (the callers test
    [x in l] first, so the [ValueError] of a missing [x] is not raised). *)
Fixpoint list_remove (x : string) (l : list string) : list string :=
  match l with
  | [] => []
  | y :: l' => if decide (y = x) then l' else y :: list_remove x l'
  end.

(** [repr] of a string of printable characters without quotes or
    backslashes, which is what [str(KeyError(k))] shows for an id. *)
Definition repr (s : string) : string := "'" +:+ s +:+ "'".

(** [dict.get(key, default)] *)
Definition dict_get {V} (d : gmap string V) (k : string) (dflt : V) : V :=
  default dflt (d !! k).

End Py.

(** ** models.py *)

(** [datetime] values are opaque instants. *)
Definition datetime := Z.

(** A live transport handle. *)
Definition WebSocket := nat.

Inductive MessageType :=
  | CREATE_ROOM | JOIN_ROOM | LEAVE_ROOM | SEND_MESSAGE | UPDATE_PROFILE
  | GET_ROOM_INFO | PING
  | CONNECTED | ROOM_CREATED | ROOM_JOINED | USER_JOINED | USER_LEFT
  | NEW_MESSAGE | ROOM_INFO | PROFILE_UPDATED | ERROR | PONG.

(** [MessageType] is a [str] enumeration: each member is its value. *)
Definition MessageType_value (t : MessageType) : string :=
  match t with
  | CREATE_ROOM => "CREATE_ROOM" | JOIN_ROOM => "JOIN_ROOM"
  | LEAVE_ROOM => "LEAVE_ROOM" | SEND_MESSAGE => "SEND_MESSAGE"
  | UPDATE_PROFILE => "UPDATE_PROFILE" | GET_ROOM_INFO => "GET_ROOM_INFO"
  | PING => "PING" | CONNECTED => "CONNECTED" | ROOM_CREATED => "ROOM_CREATED"
  | ROOM_JOINED => "ROOM_JOINED" | USER_JOINED => "USER_JOINED"
  | USER_LEFT => "USER_LEFT" | NEW_MESSAGE => "NEW_MESSAGE"
  | ROOM_INFO => "ROOM_INFO" | PROFILE_UPDATED => "PROFILE_UPDATED"
  | ERROR => "ERROR" | PONG => "PONG"
  end.

Module Member.
Record t := mk {
  id : string; name : string; language : string;
  is_host : bool; joined_at : datetime }.
End Member.

Module Message.
Record t := mk {
  id : string; room_id : string; sender_id : string;
  sender_name : string; text : string; source_lang : string;
  timestamp : datetime }.
End Message.

Module Room.
Record t := mk {
  id : string; code : string; name : string; host_id : string;
  created_at : datetime }.
End Room.

Module User.
Record t := mk {
  id : string; name : string; language : string;
  room_id : option string }.

(** [User(id=user_id)] *)
Definition new (user_id : string) : t := mk user_id "Anonymous" "en" None.

Definition set_name (v : string) (u : t) : t :=
  mk (id u) v (language u) (room_id u).
Definition set_language (v : string) (u : t) : t :=
  mk (id u) (name u) v (room_id u).
Definition set_room_id (v : option string) (u : t) : t :=
  mk (id u) (name u) (language u) v.
End User.

(** The alphabet of [generate_room_code]:
    [string.ascii_uppercase + string.digits]. *)
Definition code_alphabet : list ascii :=
  list_ascii_of_string "ABCDEFGHIJKLMNOPQRSTUVWXYZ0123456789".

(** [random.choices(population, k=k)]: [k] independent draws; [draw j]
    is the index the generator picks at its [j]-th call. *)
Definition random_choices (population : list ascii) (k : nat)
    (draw : nat → nat) (from : nat) : list ascii :=
  map (λ j, nth (draw j mod length population) population "A"%char)
      (seq from k).

Definition generate_room_code (draw : nat → nat) (from : nat) : string :=
  string_of_list_ascii (random_choices code_alphabet 6 draw from).

(** ** Outbound events: the dictionaries handed to [send_json]

    [to_dict] copies the fields of a model one by one, so an event
    carries the records themselves. *)
Inductive ServerMsg :=
  | Connected (userId : string)
  | RoomCreated (roomId roomCode : string) (room : Room.t)
      (members : list Member.t)
  | RoomJoined (room : Room.t) (members : list Member.t)
      (messages : list Message.t)
  | UserJoined (user : Member.t) (isUpdate : bool)
  | UserLeft (userId userName : string)
  | NewMessage (message : Message.t)
  | RoomInfo (room : Room.t) (members : list Member.t)
  | ProfileUpdated (user : Member.t)
  | ErrorResponse (code message : string)
  | Pong.

(** One [send_json]: the user whose socket is written and the event. *)
Definition Send := (string * ServerMsg)%type.

(** An inbound request: the decoded JSON object, with string fields. *)
Abbreviation Request := (gmap string string).

(** ** websocket_handler.py: the state *)

Record ConnectionManager := mkManager {
  active_connections : gmap string WebSocket;   (* user_id -> WebSocket *)
  users : gmap string User.t;                   (* user_id -> User *)
  rooms : gmap string Room.t;                   (* room_id -> Room *)
  room_codes : gmap string string;              (* room_code -> room_id *)
  room_members : gmap string (list string);     (* room_id -> [user_id] *)
  room_messages : gmap string (list Message.t)  (* room_id -> [Message] *)
}.

(** [ConnectionManager()] *)
Definition new_manager : ConnectionManager := mkManager ∅ ∅ ∅ ∅ ∅ ∅.

Definition upd_active_connections f (m : ConnectionManager) :=
  mkManager (f (active_connections m)) (users m) (rooms m) (room_codes m)
    (room_members m) (room_messages m).
Definition upd_users f (m : ConnectionManager) :=
  mkManager (active_connections m) (f (users m)) (rooms m) (room_codes m)
    (room_members m) (room_messages m).
Definition upd_rooms f (m : ConnectionManager) :=
  mkManager (active_connections m) (users m) (f (rooms m)) (room_codes m)
    (room_members m) (room_messages m).
Definition upd_room_codes f (m : ConnectionManager) :=
  mkManager (active_connections m) (users m) (rooms m) (f (room_codes m))
    (room_members m) (room_messages m).
Definition upd_room_members f (m : ConnectionManager) :=
  mkManager (active_connections m) (users m) (rooms m) (room_codes m)
    (f (room_members m)) (room_messages m).
Definition upd_room_messages f (m : ConnectionManager) :=
  mkManager (active_connections m) (users m) (rooms m) (room_codes m)
    (room_members m) (f (room_messages m)).

(** What the program takes from outside: [uuid.uuid4], the indices
    [random.choices] picks and [datetime.now], each as the sequence of
    the values its successive calls return, and the two [str] methods
    of the interpreter, [str.upper] and [str.strip]. *)
Record Env := mkEnv {
  uuid4 : nat → string;
  draw : nat → nat;
  now : nat → datetime;
  str_upper : string → string;
  str_strip : string → string
}.

(** The manager together with the number of calls made so far to each
    of the three sources. *)
Record World := mkWorld {
  manager : ConnectionManager;
  uuid_calls : nat;
  draw_calls : nat;
  clock_calls : nat
}.

Definition init_world : World := mkWorld new_manager 0 0 0.

(** ** Programs: state, the events sent, and exceptions *)

Inductive Exn := KeyError (key : string).

(** [str(e)] *)
Definition Exn_str (e : Exn) : string :=
  match e with KeyError k => Py.repr k end.

Inductive Outcome (A : Type) :=
  | Returned (a : A)
  | Raised (e : Exn).
Arguments Returned {A} a.
Arguments Raised {A} e.

Definition M (A : Type) : Type := World → World * list Send * Outcome A.

Global Instance M_ret : MRet M := λ A a w, (w, [], Returned a).

Global Instance M_bind : MBind M := λ A B f m w,
  match m w with
  | (w1, out1, Returned a) =>
      match f a w1 with (w2, out2, r) => (w2, out1 ++ out2, r) end
  | (w1, out1, Raised e) => (w1, out1, Raised e)
  end.

Definition world_of {A} (r : World * list Send * Outcome A) : World := r.1.1.
Definition sent_of {A} (r : World * list Send * Outcome A) : list Send := r.1.2.
Definition outcome_of {A} (r : World * list Send * Outcome A) : Outcome A := r.2.

(** The result [r] of a continuation, after [out] was sent. *)
Definition after {A} (out : list Send) (r : World * list Send * Outcome A)
    : World * list Send * Outcome A :=
  match r with (w, out', o) => (w, out ++ out', o) end.
Arguments after {A} out !r /.

Definition gets {A} (f : ConnectionManager → A) : M A :=
  λ w, (w, [], Returned (f (manager w))).

Definition modify (f : ConnectionManager → ConnectionManager) : M unit :=
  λ w, (mkWorld (f (manager w)) (uuid_calls w) (draw_calls w) (clock_calls w),
        [], Returned tt).

Definition raise {A} (e : Exn) : M A := λ w, (w, [], Raised e).

Definition emit (s : Send) : M unit := λ w, (w, [s], Returned tt).

Definition pass : M unit := mret tt.

Definition when (b : bool) (m : M unit) : M unit := if b then m else pass.

(** [try: m except Exception as e: h e] *)
Definition try_except (m : M unit) (h : Exn → M unit) : M unit := λ w,
  match m w with
  | (w1, out1, Raised e) =>
      match h e w1 with (w2, out2, r) => (w2, out1 ++ out2, r) end
  | r => r
  end.

(** [for x in l: body x] *)
Fixpoint for_each {A} (l : list A) (body : A → M unit) : M unit :=
  match l with
  | [] => pass
  | x :: l' => body x;; for_each l' body
  end.

(** A loop that appends to a result list. *)
Fixpoint collect {A B} (l : list A) (body : A → M (option B)) : M (list B) :=
  match l with
  | [] => mret []
  | x :: l' =>
      o ← body x;
      rest ← collect l' body;
      mret (match o with Some b => b :: rest | None => rest end)
  end.

Section Server.

Context (env : Env).

(** [generate_id()] *)
Definition generate_id : M string := λ w,
  (mkWorld (manager w) (S (uuid_calls w)) (draw_calls w) (clock_calls w),
   [], Returned (uuid4 env (uuid_calls w))).

(** [generate_room_code()], six draws *)
Definition fresh_room_code : M string := λ w,
  (mkWorld (manager w) (uuid_calls w) (6 + draw_calls w) (clock_calls w),
   [], Returned (generate_room_code (draw env) (draw_calls w))).

(** [datetime.now()] *)
Definition datetime_now : M datetime := λ w,
  (mkWorld (manager w) (uuid_calls w) (draw_calls w) (S (clock_calls w)),
   [], Returned (now env (clock_calls w))).

(** [User.to_member] *)
Definition to_member (user : User.t) (is_host : bool) : M Member.t :=
  joined_at ← datetime_now;
  mret (Member.mk (User.id user) (User.name user) (User.language user)
          is_host joined_at).

(** [Room(name=..., host_id=...)]: the default factories run in the
    order of the fields. *)
Definition Room_new (name host_id : string) : M Room.t :=
  id ← generate_id;
  code ← fresh_room_code;
  created_at ← datetime_now;
  mret (Room.mk id code name host_id created_at).

(** [Message(room_id=..., ...)] *)
Definition Message_new (room_id sender_id sender_name text source_lang : string)
    : M Message.t :=
  id ← generate_id;
  timestamp ← datetime_now;
  mret (Message.mk id room_id sender_id sender_name text source_lang timestamp).

(** [user.attr = v] on the object registered under [user_id] *)
Definition user_assign (user_id : string) (f : User.t → User.t) : M unit :=
  modify (upd_users (alter f user_id)).

(** [send_personal_message]: a failing [send_json] is logged and
    skipped, so the call never raises. *)
Definition send_personal_message (message : ServerMsg) (user_id : string)
    : M unit :=
  conns ← gets active_connections;
  match conns !! user_id with
  | Some _ => emit (user_id, message)
  | None => pass
  end.

Definition excluded (exclude_user : option string) (member_id : string) : bool :=
  Py.opt_truthy exclude_user && bool_decide (exclude_user = Some member_id).

Definition broadcast_to_room (message : ServerMsg) (room_id : string)
    (exclude_user : option string) : M unit :=
  members ← gets room_members;
  match members !! room_id with
  | None => pass
  | Some l =>
      for_each l (λ member_id,
        if excluded exclude_user member_id then pass
        else send_personal_message message member_id)
  end.

Definition _send_error (user_id code message : string) : M unit :=
  send_personal_message (ErrorResponse code message) user_id.

Definition connect (websocket : WebSocket) : M string :=
  user_id ← generate_id;
  let user := User.new user_id in
  modify (upd_active_connections <[user_id := websocket]>);;
  modify (upd_users <[user_id := user]>);;
  send_personal_message (Connected user_id) user_id;;
  mret user_id.

Definition _cleanup_room (room_id : string) : M unit :=
  room ← gets (λ m, rooms m !! room_id);
  match room with
  | Some room => modify (upd_room_codes (delete (Room.code room)))
  | None => pass
  end;;
  modify (upd_rooms (delete room_id));;
  modify (upd_room_members (delete room_id));;
  modify (upd_room_messages (delete room_id)).

Definition _leave_room (user_id : string) : M unit :=
  user ← gets (λ m, users m !! user_id);
  match user with
  | None => pass
  | Some user =>
    match User.room_id user with
    | None => pass
    | Some room_id =>
      if negb (Py.truthy room_id) then pass else
      room ← gets (λ m, rooms m !! room_id);
      (* Remove from room members *)
      members ← gets (λ m, room_members m !! room_id);
      match members with
      | Some l =>
          when (bool_decide (user_id ∈ l))
            (modify (upd_room_members <[room_id := Py.list_remove user_id l]>))
      | None => pass
      end;;
      (* Broadcast to remaining members *)
      match room with
      | Some _ =>
          broadcast_to_room (UserLeft user_id (User.name user)) room_id None
      | None => pass
      end;;
      (* Clear user's room *)
      user_assign user_id (User.set_room_id None);;
      (* Clean up empty room *)
      members ← gets (λ m, room_members m !! room_id);
      match members with
      | Some [] => _cleanup_room room_id
      | _ => pass
      end
    end
  end.

Definition disconnect (user_id : string) : M unit :=
  user ← gets (λ m, users m !! user_id);
  match user with
  | None => pass
  | Some user =>
      when (Py.opt_truthy (User.room_id user)) (_leave_room user_id);;
      modify (upd_active_connections (delete user_id));;
      modify (upd_users (delete user_id))
  end.

(** The host-tagged member list built by JOIN_ROOM and GET_ROOM_INFO. *)
Definition member_list (room : Room.t) (l : list string) : M (list Member.t) :=
  collect l (λ member_id,
    member_user ← gets (λ m, users m !! member_id);
    match member_user with
    | Some member_user =>
        let is_host := bool_decide (member_id = Room.host_id room) in
        member ← to_member member_user is_host;
        mret (Some member)
    | None => mret None
    end).

(** [self.room_members[room_id]], which raises when the key is absent *)
Definition room_members_at (room_id : string) : M (list string) :=
  members ← gets (λ m, room_members m !! room_id);
  match members with
  | Some l => mret l
  | None => raise (KeyError room_id)
  end.

Definition _handle_create_room (user_id : string) (data : Request) : M unit :=
  user ← gets (λ m, users m !! user_id);
  match user with
  | None => pass
  | Some user =>
      (* Leave current room if any *)
      when (Py.opt_truthy (User.room_id user)) (_leave_room user_id);;
      (* Parse payload *)
      let room_name := Py.dict_get data "roomName" "New Room" in
      let host_name := Py.dict_get data "hostName" "Host" in
      let language := Py.dict_get data "language" "en" in
      (* Update user *)
      user_assign user_id (User.set_name host_name);;
      user_assign user_id (User.set_language language);;
      (* Create room *)
      room ← Room_new room_name user_id;
      modify (upd_rooms <[Room.id room := room]>);;
      modify (upd_room_codes <[Room.code room := Room.id room]>);;
      modify (upd_room_members <[Room.id room := [user_id]]>);;
      modify (upd_room_messages <[Room.id room := []]>);;
      (* Update user's room *)
      user_assign user_id (User.set_room_id (Some (Room.id room)));;
      (* Send response *)
      user ← gets (λ m, users m !! user_id);
      match user with
      | None => pass
      | Some user =>
          member ← to_member user true;
          send_personal_message
            (RoomCreated (Room.id room) (Room.code room) room [member]) user_id
      end
  end.

Definition _handle_join_room (user_id : string) (data : Request) : M unit :=
  user ← gets (λ m, users m !! user_id);
  match user with
  | None => pass
  | Some user =>
      let room_code := str_upper env (Py.dict_get data "roomCode" "") in
      let user_name := Py.dict_get data "userName" "Guest" in
      let language := Py.dict_get data "language" "en" in
      (* Find room *)
      room_id ← gets (λ m, room_codes m !! room_code);
      all_rooms ← gets rooms;
      match room_id ≫= (λ room_id,
              if Py.truthy room_id
              then pair room_id <$> all_rooms !! room_id else None) with
      | None => _send_error user_id "INVALID_ROOM_CODE" "Room not found"
      | Some (room_id, room) =>
          (* Leave current room if any *)
          when (Py.opt_truthy (User.room_id user)) (_leave_room user_id);;
          (* Update user *)
          user_assign user_id (User.set_name user_name);;
          user_assign user_id (User.set_language language);;
          user_assign user_id (User.set_room_id (Some room_id));;
          (* Add to room *)
          l ← room_members_at room_id;
          when (negb (bool_decide (user_id ∈ l)))
            (modify (upd_room_members <[room_id := l ++ [user_id]]>));;
          (* Get member list *)
          l ← room_members_at room_id;
          members ← member_list room l;
          (* Get recent messages *)
          recent_messages ← gets (λ m,
            Py.last_n 50 (Py.dict_get (room_messages m) room_id []));
          (* Send response to joining user *)
          send_personal_message (RoomJoined room members recent_messages)
            user_id;;
          (* Broadcast to other members *)
          user ← gets (λ m, users m !! user_id);
          match user with
          | None => pass
          | Some user =>
              member ← to_member user false;
              broadcast_to_room (UserJoined member false) room_id
                (Some user_id)
          end
      end
  end.

Definition _handle_leave_room (user_id : string) : M unit :=
  _leave_room user_id.

Definition _handle_send_message (user_id : string) (data : Request) : M unit :=
  user ← gets (λ m, users m !! user_id);
  match user with
  | None => pass
  | Some user =>
      match User.room_id user with
      | Some room_id =>
          if negb (Py.truthy room_id)
          then _send_error user_id "NOT_IN_ROOM" "You must join a room first"
          else
            let text := str_strip env (Py.dict_get data "text" "") in
            if negb (Py.truthy text) then pass else
            (* Create message *)
            message ← Message_new room_id user_id (User.name user) text
                        (User.language user);
            (* Store message *)
            history ← gets (λ m, room_messages m !! room_id);
            match history with
            | Some h =>
                let h := h ++ [message] in
                (* Keep only last 100 messages *)
                let h := if bool_decide (100 < length h)
                         then Py.last_n 100 h else h in
                modify (upd_room_messages <[room_id := h]>)
            | None => pass
            end;;
            (* Broadcast to all members (including sender) *)
            broadcast_to_room (NewMessage message) room_id None
      | None => _send_error user_id "NOT_IN_ROOM" "You must join a room first"
      end
  end.

Definition _handle_update_profile (user_id : string) (data : Request)
    : M unit :=
  user ← gets (λ m, users m !! user_id);
  match user with
  | None => pass
  | Some user =>
      let name := data !! "name" in
      let language := data !! "language" in
      let old_name := User.name user in
      match name with
      | Some n => when (Py.truthy n) (user_assign user_id (User.set_name n))
      | None => pass
      end;;
      match language with
      | Some l => when (Py.truthy l) (user_assign user_id (User.set_language l))
      | None => pass
      end;;
      (* Notify user *)
      user ← gets (λ m, users m !! user_id);
      match user with
      | None => pass
      | Some user =>
          member ← to_member user false;
          send_personal_message (ProfileUpdated member) user_id;;
          (* If in room, notify others about name change *)
          match User.room_id user, name with
          | Some room_id, Some n =>
              if Py.truthy room_id && Py.truthy n
                 && negb (bool_decide (n = old_name))
              then
                member ← to_member user false;
                broadcast_to_room (UserJoined member true) room_id
                  (Some user_id)
              else pass
          | _, _ => pass
          end
      end
  end.

Definition _handle_get_room_info (user_id : string) : M unit :=
  user ← gets (λ m, users m !! user_id);
  match user ≫= (λ user,
          room_id ← User.room_id user;
          if Py.truthy room_id then Some room_id else None) with
  | None => _send_error user_id "NOT_IN_ROOM" "You are not in a room"
  | Some room_id =>
      room ← gets (λ m, rooms m !! room_id);
      match room with
      | None => _send_error user_id "ROOM_NOT_FOUND" "Room not found"
      | Some room =>
          l ← gets (λ m, Py.dict_get (room_members m) room_id []);
          members ← member_list room l;
          send_personal_message (RoomInfo room members) user_id
      end
  end.

(** [f"{msg_type}"] for the value of [data.get("type")] *)
Definition format_type (msg_type : option string) : string :=
  match msg_type with Some s => s | None => "None" end.

(** [msg_type == MessageType.X] *)
Definition is_type (msg_type : option string) (t : MessageType) : bool :=
  bool_decide (msg_type = Some (MessageType_value t)).

Definition handle_message (user_id : string) (data : Request) : M unit :=
  let msg_type := data !! "type" in
  try_except
    (if is_type msg_type CREATE_ROOM then _handle_create_room user_id data
     else if is_type msg_type JOIN_ROOM then _handle_join_room user_id data
     else if is_type msg_type LEAVE_ROOM then _handle_leave_room user_id
     else if is_type msg_type SEND_MESSAGE then
       _handle_send_message user_id data
     else if is_type msg_type UPDATE_PROFILE then
       _handle_update_profile user_id data
     else if is_type msg_type GET_ROOM_INFO then _handle_get_room_info user_id
     else if is_type msg_type PING then send_personal_message Pong user_id
     else _send_error user_id "INVALID_MESSAGE_TYPE"
            ("Unknown message type: " +:+ format_type msg_type))
    (λ e, _send_error user_id "INTERNAL_ERROR" (Exn_str e)).

(** ** Runs

    What the transport layer asks of the manager: a socket is accepted,
    a session ends, or a decoded request arrives on a session. *)
Inductive Event :=
  | Connect (websocket : WebSocket)
  | Disconnect (user_id : string)
  | Incoming (user_id : string) (data : Request).

Definition step (ev : Event) : M unit :=
  match ev with
  | Connect websocket => connect websocket;; pass
  | Disconnect user_id => disconnect user_id
  | Incoming user_id data => handle_message user_id data
  end.

Fixpoint run (evs : list Event) (w : World) : World * list Send :=
  match evs with
  | [] => (w, [])
  | ev :: evs' =>
      let r := step ev w in
      let r' := run evs' (world_of r) in
      (r'.1, sent_of r ++ r'.2)
  end.

End Server.

(** ** main.py: the HTTP queries and the WebSocket endpoint

    The queries read the module's [manager]; a response is the returned
    dictionary or an [HTTPException]. *)

Module Health.
Record t := mk { status : string; connections : nat; rooms : nat }.
End Health.

Module RoomPublic.
Record t := mk {
  name : string; code : string; memberCount : nat; createdAt : datetime }.
End RoomPublic.

Module Stats.
Record t := mk {
  activeConnections : nat; activeRooms : nat; totalMessages : nat }.
End Stats.

Inductive Response (A : Type) :=
  | Ok (body : A)
  | HTTPException (status_code : nat) (detail : string).
Arguments Ok {A} body.
Arguments HTTPException {A} status_code detail.

(** [GET /api/health] *)
Definition health_check (m : ConnectionManager) : Health.t :=
  Health.mk "healthy" (size (active_connections m)) (size (rooms m)).

(** [GET /api/rooms/{room_code}]; [createdAt] stands for the ISO text
    of the instant. *)
Definition get_room_info (env : Env) (m : ConnectionManager)
    (room_code : string) : Response RoomPublic.t :=
  let room_code := str_upper env room_code in
  match room_codes m !! room_code with
  | None => HTTPException 404 "Room not found"
  | Some room_id =>
      if negb (Py.truthy room_id) then HTTPException 404 "Room not found"
      else
        match rooms m !! room_id with
        | None => HTTPException 404 "Room not found"
        | Some room =>
            let member_count :=
              length (Py.dict_get (room_members m) room_id []) in
            Ok (RoomPublic.mk (Room.name room) (Room.code room) member_count
                  (Room.created_at room))
        end
  end.

(** [GET /api/stats] *)
Definition get_stats (m : ConnectionManager) : Stats.t :=
  Stats.mk (size (active_connections m)) (size (rooms m))
    (sum_list (length <$> (map_to_list (room_messages m)).*2)).

(** What [receive_text] and [json.loads] yield on a session: a JSON
    object with string fields, a JSON value that is not an object, text
    that is not JSON, or the end of the connection
    ([WebSocketDisconnect]). *)
Inductive Received :=
  | Object (message : Request)
  | NotAnObject
  | NotJson
  | Closed.

(** The loop of [websocket_endpoint] over the frames that arrive, up to
    the frame at which it is left. Both [except] clauses of the endpoint
    call [disconnect]: the one for [WebSocketDisconnect], and the one
    for any other exception, which a value that is not an object
    reaches, since [handle_message] asks [.get] of it before its own
    [try]. When [frames] is used up the session is waiting in
    [receive_text]. *)
Fixpoint receive_loop (env : Env) (user_id : string) (frames : list Received)
    : M unit :=
  match frames with
  | [] => pass
  | Object message :: frames' =>
      handle_message env user_id message;;
      receive_loop env user_id frames'
  | NotJson :: frames' =>
      send_personal_message
        (ErrorResponse "INVALID_JSON" "Invalid JSON format") user_id;;
      receive_loop env user_id frames'
  | NotAnObject :: _ => disconnect user_id
  | Closed :: _ => disconnect user_id
  end.

Definition websocket_endpoint (env : Env) (websocket : WebSocket)
    (frames : list Received) : M unit :=
  user_id ← connect env websocket;
  try_except (receive_loop env user_id frames) (λ e, disconnect user_id).

(** ** check_vocab.py: the simulated tokenization

    The script reads the vocabulary [v] from a file and runs the same
    loop on two texts; the loop is modelled for any vocabulary and any
    text. A [str] is the sequence of its code points. *)

Module CheckVocab.

Abbreviation str := (list N).

(** [v]: token text to token id *)
Abbreviation Vocab := (gmap str Z).

(** ['<unk>'] *)
Definition unk : str := [60; 117; 110; 107; 62]%N.

(** The word-boundary marker, U+2581. *)
Definition marker : N := 9601%N.

(** [s[i:j]] for [0 <= i <= j] *)
Definition slice (s : str) (i j : nat) : str := take (j - i) (drop i s).

(** [for length in range(max_len, 0, -1)], from [length] down: the
    first [length] whose substring is in [v], with the token appended
    for it; [None] when the loop ends without [break]. *)
Fixpoint longest (v : Vocab) (normalized : str) (i length : nat)
    : option (nat * (str * Z)) :=
  match length with
  | 0 => None
  | S shorter =>
      let substr := slice normalized i (i + length) in
      match v !! substr with
      | Some id => Some (length, (substr, id))
      | None => longest v normalized i shorter
      end
  end.

(** [while i < len(normalized)], for at most [fuel] iterations. *)
Fixpoint loop (fuel : nat) (v : Vocab) (normalized : str) (i : nat)
    (tokens : list (str * Z)) : option (list (str * Z)) :=
  match fuel with
  | 0 => None
  | S fuel' =>
      if bool_decide (i < length normalized) then
        let max_len := 20 `min` (length normalized - i) in
        match longest v normalized i max_len with
        | Some (len, token) =>
            loop fuel' v normalized (i + len) (tokens ++ [token])
        | None =>
            loop fuel' v normalized (i + 1) (tokens ++ [(unk, 3%Z)])
        end
      else Some tokens
  end.

(** The tokens printed for [text]. *)
Definition tokenize (v : Vocab) (text : str) : option (list (str * Z)) :=
  let normalized := marker :: text in
  loop (S (length normalized)) v normalized 0 [].

(** The prefix of [k] characters of [s] is in [v] with [id], and no
    longer prefix of at most 20 characters is. *)
Definition longest_prefix (v : Vocab) (s : str) (k : nat) (id : Z) : Prop :=
  1 ≤ k ≤ 20 ∧ k ≤ length s ∧ v !! take k s = Some id
  ∧ ∀ k', k < k' → k' ≤ 20 → k' ≤ length s → v !! take k' s = None.

(** No prefix of [s] of 1 to 20 characters is in [v]. *)
Definition no_prefix (v : Vocab) (s : str) : Prop :=
  ∀ k, 1 ≤ k → k ≤ 20 → k ≤ length s → v !! take k s = None.

(** Greedy longest-match: the tokens of [s] are the longest prefix in
    the vocabulary and the tokens of what follows it, or the unknown
    token and the tokens of what follows the first character. *)
Inductive greedy (v : Vocab) : str → list (str * Z) → Prop :=
  | greedy_end : greedy v [] []
  | greedy_match s k id rest :
      longest_prefix v s k id → greedy v (drop k s) rest →
      greedy v s ((take k s, id) :: rest)
  | greedy_unk s rest :
      s ≠ [] → no_prefix v s → greedy v (drop 1 s) rest →
      greedy v s ((unk, 3%Z) :: rest).

(** A vocabulary for two words of two letters, the marker and each of
    the letters a, b, c. *)
Definition demo_vocab : Vocab :=
  list_to_map
    [([marker], 5%Z); ([97%N], 10%Z); ([98%N], 11%Z); ([99%N], 12%Z);
     ([marker; 97%N], 20%Z); ([98%N; 99%N], 21%Z)].

End CheckVocab.

(** ** Properties of environments and states *)

(** [uuid.uuid4] never repeats a value and never returns the empty
    string: the identifiers are unique by construction. *)
Record good_env (env : Env) : Prop := {
  uuid4_inj : ∀ i j, uuid4 env i = uuid4 env j → i = j;
  uuid4_nonempty : ∀ i, uuid4 env i ≠ ""
}.

(** What [str.upper] and [str.strip] do to ASCII text, whatever the
    Unicode tables of the interpreter. *)
Record ascii_builtins (env : Env) : Prop := {
  upper_ascii : ∀ s,
    Py.is_ascii s = true → str_upper env s = Py.ascii_upper s;
  strip_ascii : ∀ s,
    Py.is_ascii s = true → str_strip env s = Py.ascii_strip s
}.

(** [x] was returned by one of the first [n] calls to [generate_id]. *)
Definition generated (env : Env) (n : nat) (x : string) : Prop :=
  ∃ j, j < n ∧ x = uuid4 env j.

(** Six characters, each an upper-case letter or a digit. *)
Definition code_ok (s : string) : bool :=
  bool_decide (String.length s = 6)
  && forallb (λ a, Py.is_upper a || Py.is_digit a) (list_ascii_of_string s).

(** The worlds a run of the server goes through. *)
Definition reachable (env : Env) (w : World) : Prop :=
  ∃ evs, w = (run env evs init_world).1.

(** What holds of the store in every reachable world, [n] being the
    number of identifiers generated so far. *)
Record Consistent (env : Env) (n : nat) (m : ConnectionManager) : Prop := {
  inv_conn : ∀ u,
    is_Some (users m !! u) ↔ is_Some (active_connections m !! u);
  inv_user_id : ∀ u usr, users m !! u = Some usr → User.id usr = u;
  inv_user_gen : ∀ u, is_Some (users m !! u) → generated env n u;
  inv_room_gen : ∀ rid, is_Some (rooms m !! rid) → generated env n rid;
  inv_cur_gen : ∀ u usr rid,
    users m !! u = Some usr → User.room_id usr = Some rid →
    generated env n rid;
  inv_room : ∀ rid r,
    rooms m !! rid = Some r →
    Room.id r = rid ∧ code_ok (Room.code r) = true;
  inv_members_dom : ∀ rid,
    is_Some (rooms m !! rid) ↔ is_Some (room_members m !! rid);
  inv_messages_dom : ∀ rid,
    is_Some (rooms m !! rid) ↔ is_Some (room_messages m !! rid);
  inv_codes : ∀ k rid,
    room_codes m !! k = Some rid →
    ∃ r, rooms m !! rid = Some r ∧ Room.code r = k;
  inv_members : ∀ rid l,
    room_members m !! rid = Some l →
    l ≠ [] ∧ NoDup l ∧
    ∀ u, u ∈ l →
      ∃ usr, users m !! u = Some usr ∧ User.room_id usr = Some rid;
  inv_current : ∀ u usr rid l,
    users m !! u = Some usr → User.room_id usr = Some rid →
    room_members m !! rid = Some l → u ∈ l;
  inv_history : ∀ rid h, room_messages m !! rid = Some h → length h ≤ 100
}.

Definition Inv (env : Env) (w : World) : Prop :=
  Consistent env (uuid_calls w) (manager w).

(** The invariant of the data model: a user is listed by a room exactly
    when that room is the user's current room. *)
Definition membership_consistent (m : ConnectionManager) : Prop :=
  ∀ u usr rid,
    users m !! u = Some usr →
    (User.room_id usr = Some rid
     ↔ ∃ l, room_members m !! rid = Some l ∧ u ∈ l).

Definition in_one_room_at_most (m : ConnectionManager) : Prop :=
  ∀ u r1 r2 l1 l2,
    room_members m !! r1 = Some l1 → room_members m !! r2 = Some l2 →
    u ∈ l1 → u ∈ l2 → r1 = r2.

(** No two live rooms have the same code. *)
Definition codes_distinct (m : ConnectionManager) : Prop :=
  ∀ r1 r2 a b,
    rooms m !! r1 = Some a → rooms m !! r2 = Some b →
    Room.code a = Room.code b → r1 = r2.

(** The code of every live room resolves to that room: no mapping of a
    live room was overwritten or removed. *)
Definition codes_resolve (m : ConnectionManager) : Prop :=
  ∀ rid r, rooms m !! rid = Some r → room_codes m !! Room.code r = Some rid.

(** The code the next [Room(...)] gets. *)
Definition next_code (env : Env) (w : World) : string :=
  generate_room_code (draw env) (draw_calls w).

(** The event does not generate the code of a room that is live when it
    arrives (only CREATE_ROOM generates codes). *)
Definition no_collision (env : Env) (w : World) (ev : Event) : Prop :=
  match ev with
  | Incoming user_id data =>
      is_type (data !! "type") CREATE_ROOM = true →
      ∀ rid r, rooms (manager w) !! rid = Some r →
               Room.code r ≠ next_code env w
  | _ => True
  end.

Fixpoint collision_free (env : Env) (evs : list Event) (w : World) : Prop :=
  match evs with
  | [] => True
  | ev :: evs' =>
      no_collision env w ev
      ∧ collision_free env evs' (world_of (step env ev w))
  end.

(** The session registry of [m'] is that of [m]: the same sockets, the
    same registered users. *)
Definition session_kept (m m' : ConnectionManager) : Prop :=
  active_connections m' = active_connections m
  ∧ ∀ u, is_Some (users m' !! u) ↔ is_Some (users m !! u).

(** [a] and [b] are the same character, or one is the lower-case form
    (a-z, 32 above) of the other. *)
Definition same_letter (a b : ascii) : bool :=
  bool_decide (a = b)
  || (Py.is_lower a && bool_decide (nat_of_ascii b = nat_of_ascii a - 32))
  || (Py.is_lower b && bool_decide (nat_of_ascii a = nat_of_ascii b - 32)).

(** Two strings that differ only in letter case. *)
Fixpoint same_ignoring_case (s1 s2 : string) : bool :=
  match s1, s2 with
  | EmptyString, EmptyString => true
  | String a s1', String b s2' => same_letter a b && same_ignoring_case s1' s2'
  | _, _ => false
  end.

(** A program that leaves the socket registry as it is and writes only
    to sockets registered in it. *)
Definition writes_to_registered {A} (p : M A) : Prop :=
  ∀ w,
    active_connections (manager (world_of (p w)))
    = active_connections (manager w)
    ∧ ∀ s, s ∈ sent_of (p w) →
           is_Some (active_connections (manager w) !! s.1).

(** The store but for the room histories: what a stored message leaves
    untouched. *)
Definition same_but_messages (m m' : ConnectionManager) : Prop :=
  active_connections m' = active_connections m
  ∧ users m' = users m ∧ rooms m' = rooms m
  ∧ room_codes m' = room_codes m ∧ room_members m' = room_members m.

(** The rooms of [w'] are rooms of [w], unchanged, or have the
    identifier generated next in [w]. *)
Definition rooms_kept (env : Env) (w w' : World) : Prop :=
  uuid_calls w ≤ uuid_calls w'
  ∧ ∀ rid r', rooms (manager w') !! rid = Some r' →
      rooms (manager w) !! rid = Some r' ∨ rid = uuid4 env (uuid_calls w).

(** The frames at which the loop of [websocket_endpoint] ends. *)
Definition ends_session (frame : Received) : bool :=
  match frame with
  | Closed | NotAnObject => true
  | Object _ | NotJson => false
  end.

(** What a connected session asks of the manager: one request per JSON
    object received, and the disconnection at the frame that ends the
    loop. *)
Fixpoint events_of (user_id : string) (frames : list Received) : list Event :=
  match frames with
  | [] => []
  | Object message :: frames' =>
      Incoming user_id message :: events_of user_id frames'
  | NotJson :: frames' => events_of user_id frames'
  | NotAnObject :: _ | Closed :: _ => [Disconnect user_id]
  end.

(** ** The handlers' effect on the store, in direct style

    These restate what the programs above do to the manager and which
    events they send; the proofs below show that the programs compute
    exactly these. *)

Definition set_manager (w : World) (m : ConnectionManager) : World :=
  mkWorld m (uuid_calls w) (draw_calls w) (clock_calls w).

Definition set_clock (w : World) (c : nat) : World :=
  mkWorld (manager w) (uuid_calls w) (draw_calls w) c.

(** The members of [l] a broadcast reaches: not the excluded one, and
    with a registered socket. *)
Definition recipients (m : ConnectionManager) (l : list string)
    (exclude_user : option string) : list string :=
  filter (λ u, excluded exclude_user u = false
               ∧ is_Some (active_connections m !! u)) l.

Definition to_all (message : ServerMsg) (l : list string) : list Send :=
  (λ u, (u, message)) <$> l.

(** What [send_personal_message] sends in the store [m]. *)
Definition unicast (m : ConnectionManager) (user_id : string)
    (message : ServerMsg) : list Send :=
  if bool_decide (is_Some (active_connections m !! user_id))
  then [(user_id, message)] else [].

Definition cleanup_mgr (room_id : string) (m : ConnectionManager)
    : ConnectionManager :=
  let m1 := match rooms m !! room_id with
            | Some room => upd_room_codes (delete (Room.code room)) m
            | None => m
            end in
  upd_room_messages (delete room_id)
    (upd_room_members (delete room_id) (upd_rooms (delete room_id) m1)).

(** The store once [user_id] is taken out of the list of [room_id]. *)
Definition remove_member (user_id room_id : string) (m : ConnectionManager)
    : ConnectionManager :=
  match room_members m !! room_id with
  | Some l =>
      if bool_decide (user_id ∈ l)
      then upd_room_members <[room_id := Py.list_remove user_id l]> m
      else m
  | None => m
  end.

Definition clear_room (user_id : string) (m : ConnectionManager)
    : ConnectionManager :=
  upd_users (alter (User.set_room_id None) user_id) m.

Definition cleanup_if_empty (room_id : string) (m : ConnectionManager)
    : ConnectionManager :=
  match room_members m !! room_id with
  | Some [] => cleanup_mgr room_id m
  | _ => m
  end.

(** The room [_leave_room] acts on: the truthy [room_id] of a
    registered user. *)
Definition current_room (m : ConnectionManager) (user_id : string)
    : option string :=
  user ← users m !! user_id;
  room_id ← User.room_id user;
  if Py.truthy room_id then Some room_id else None.

Definition leave_mgr (user_id : string) (m : ConnectionManager)
    : ConnectionManager :=
  match current_room m user_id with
  | Some room_id =>
      cleanup_if_empty room_id
        (clear_room user_id (remove_member user_id room_id m))
  | None => m
  end.

Definition leave_sends (user_id : string) (m : ConnectionManager)
    : list Send :=
  match current_room m user_id, users m !! user_id with
  | Some room_id, Some user =>
      let m1 := remove_member user_id room_id m in
      match rooms m !! room_id with
      | Some _ =>
          to_all (UserLeft user_id (User.name user))
            (recipients m1 (default [] (room_members m1 !! room_id)) None)
      | None => []
      end
  | _, _ => []
  end.

(** CREATE_ROOM for a registered user *)
Definition created_room (env : Env) (w : World) (user_id : string)
    (data : Request) : Room.t :=
  Room.mk (uuid4 env (uuid_calls w))
    (generate_room_code (draw env) (draw_calls w))
    (Py.dict_get data "roomName" "New Room") user_id
    (now env (clock_calls w)).

Definition rename_user (user_id name language : string)
    (m : ConnectionManager) : ConnectionManager :=
  upd_users (alter (User.set_language language) user_id)
    (upd_users (alter (User.set_name name) user_id) m).

Definition create_mgr (env : Env) (w : World) (user_id : string)
    (data : Request) : ConnectionManager :=
  let room := created_room env w user_id data in
  upd_users (alter (User.set_room_id (Some (Room.id room))) user_id)
    (upd_room_messages <[Room.id room := []]>
       (upd_room_members <[Room.id room := [user_id]]>
          (upd_room_codes <[Room.code room := Room.id room]>
             (upd_rooms <[Room.id room := room]>
                (rename_user user_id
                   (Py.dict_get data "hostName" "Host")
                   (Py.dict_get data "language" "en")
                   (leave_mgr user_id (manager w))))))).

Definition create_sends (env : Env) (w : World) (user_id : string)
    (data : Request) : list Send :=
  let room := created_room env w user_id data in
  let m := create_mgr env w user_id data in
  leave_sends user_id (manager w) ++
  match users m !! user_id with
  | Some user =>
      unicast m user_id
        (RoomCreated (Room.id room) (Room.code room) room
           [Member.mk (User.id user) (User.name user) (User.language user)
              true (now env (S (clock_calls w)))])
  | None => []
  end.

(** JOIN_ROOM: the room the supplied code resolves to. *)
Definition join_target (env : Env) (m : ConnectionManager) (data : Request)
    : option (string * Room.t) :=
  room_id ← room_codes m !! str_upper env (Py.dict_get data "roomCode" "");
  if Py.truthy room_id then pair room_id <$> rooms m !! room_id else None.

(** The store when the joiner's profile and room are set. *)
Definition join_mgr0 (user_id : string) (data : Request) (room_id : string)
    (m : ConnectionManager) : ConnectionManager :=
  upd_users (alter (User.set_room_id (Some room_id)) user_id)
    (rename_user user_id (Py.dict_get data "userName" "Guest")
       (Py.dict_get data "language" "en") (leave_mgr user_id m)).

(** The store when the joiner is in the list. *)
Definition join_mgr (user_id : string) (data : Request) (room_id : string)
    (m : ConnectionManager) : ConnectionManager :=
  let m1 := join_mgr0 user_id data room_id m in
  match room_members m1 !! room_id with
  | Some l =>
      if bool_decide (user_id ∈ l) then m1
      else upd_room_members <[room_id := l ++ [user_id]]> m1
  | None => m1
  end.

(** The list [member_list] builds from the clock reading [c] on: one
    entry per registered member, in the order of [l]. *)
Fixpoint member_entries (env : Env) (m : ConnectionManager)
    (host_id : string) (l : list string) (c : nat) : list Member.t :=
  match l with
  | [] => []
  | member_id :: l' =>
      match users m !! member_id with
      | Some user =>
          Member.mk (User.id user) (User.name user) (User.language user)
            (bool_decide (member_id = host_id)) (now env c)
          :: member_entries env m host_id l' (S c)
      | None => member_entries env m host_id l' c
      end
  end.

(** The entry of [l]'s member [u] as the store [m] has it. *)
Definition entry_of (m : ConnectionManager) (host_id : string) (u : string)
    (e : Member.t) : Prop :=
  ∃ usr,
    users m !! u = Some usr
    ∧ Member.id e = u ∧ Member.name e = User.name usr
    ∧ Member.language e = User.language usr
    ∧ Member.is_host e = bool_decide (u = host_id).

(** SEND_MESSAGE: the message built and the history after it. *)
Definition sent_message (env : Env) (w : World) (user_id : string)
    (user : User.t) (room_id : string) (data : Request) : Message.t :=
  Message.mk (uuid4 env (uuid_calls w)) room_id user_id (User.name user)
    (str_strip env (Py.dict_get data "text" "")) (User.language user)
    (now env (clock_calls w)).

Definition push_message (message : Message.t) (h : list Message.t)
    : list Message.t :=
  let h := h ++ [message] in
  if bool_decide (100 < length h) then Py.last_n 100 h else h.

Definition store_message (room_id : string) (message : Message.t)
    (m : ConnectionManager) : ConnectionManager :=
  match room_messages m !! room_id with
  | Some h => upd_room_messages <[room_id := push_message message h]> m
  | None => m
  end.

(** CREATE_ROOM and JOIN_ROOM: [v] is what the handler takes for the
    field [k], the value supplied, whatever it is, or [dflt] when the
    request has no field [k]. *)
Definition field_value (data : Request) (k dflt v : string) : Prop :=
  match data !! k with
  | Some supplied => v = supplied
  | None => v = dflt
  end.

(** UPDATE_PROFILE: a field that is present and not empty is assigned. *)
Definition assigned (field : option string) : option string :=
  match field with
  | Some v => if Py.truthy v then Some v else None
  | None => None
  end.

Definition profile_mgr (user_id : string) (data : Request)
    (m : ConnectionManager) : ConnectionManager :=
  let m1 := match assigned (data !! "name") with
            | Some n => upd_users (alter (User.set_name n) user_id) m
            | None => m
            end in
  match assigned (data !! "language") with
  | Some l => upd_users (alter (User.set_language l) user_id) m1
  | None => m1
  end.

(** Whether UPDATE_PROFILE tells the room: the user has a room, a name
    is assigned and it differs from the old one. *)
Definition name_changed (old_name : string) (data : Request) : bool :=
  match assigned (data !! "name") with
  | Some n => negb (bool_decide (n = old_name))
  | None => false
  end.


(** ** Concrete environments, requests and runs *)

Definition demo_uuid4 (n : nat) : string := "u" +:+ pretty n.

(** An environment whose generator always picks index 0: every room
    code is AAAAAA. *)
Definition env_same_code : Env :=
  mkEnv demo_uuid4 (λ _, 0) Z.of_nat Py.ascii_upper Py.ascii_strip.

(** An environment whose draws are 0, 1, 2, ...: the codes are ABCDEF,
    GHIJKL, ... *)
Definition env_fresh_codes : Env :=
  mkEnv demo_uuid4 (λ j, j) Z.of_nat Py.ascii_upper Py.ascii_strip.

Definition request (fields : list (string * string)) : Request :=
  list_to_map fields.

Definition create_plain : Request := request [("type", "CREATE_ROOM")].

Definition create_trip : Request :=
  request [("type", "CREATE_ROOM"); ("roomName", "Trip"); ("hostName", "Ann")].

Definition create_blank_host : Request :=
  request [("type", "CREATE_ROOM"); ("hostName", "")].

Definition join_own_room : Request :=
  request [("type", "JOIN_ROOM"); ("roomCode", "AAAAAA")].

Definition say_hi : Request :=
  request [("type", "SEND_MESSAGE"); ("text", "hi")].

Definition empty_name : Request :=
  request [("type", "UPDATE_PROFILE"); ("name", "")].

(** One session that creates a room: the user is u0, the room u1 with
    code AAAAAA. *)
Definition solo_room : list Event :=
  [Connect 1;
   Incoming "u0" (request [("type", "CREATE_ROOM"); ("roomName", "Trip");
                           ("hostName", "Ann")])].

(** The same user then asks to join the room it is alone in. *)
Definition rejoin_own_room : list Event :=
  solo_room ++
  [Incoming "u0" (request [("type", "JOIN_ROOM"); ("roomCode", "AAAAAA")])].

(** Two sessions in one room: users u0 (host) and u2, room u1. *)
Definition two_in_room : list Event :=
  solo_room ++
  [Connect 2;
   Incoming "u2" (request [("type", "JOIN_ROOM"); ("roomCode", "aaaaaa");
                           ("userName", "Bo")])].

(** Two sessions that each create a room. *)
Definition two_rooms : list Event :=
  solo_room ++
  [Connect 2;
   Incoming "u2" (request [("type", "CREATE_ROOM"); ("roomName", "Work")])].

(** The creator of the room then says hi: the history of room u1 holds
    one message. *)
Definition solo_with_message : list Event :=
  solo_room ++ [Incoming "u0" say_hi].

(** A second session connects beside the room of u0: user u2. *)
Definition second_connected : list Event := solo_room ++ [Connect 2].

(** Two members, and a message of each in the history of room u1. *)
Definition two_with_messages : list Event :=
  two_in_room ++ [Incoming "u0" say_hi; Incoming "u2" say_hi].

(** A session that has just connected: user u0. *)
Definition world_connected : World :=
  (run env_same_code [Connect 1] init_world).1.

(** The worlds these runs end in. *)
Definition world_solo : World := (run env_same_code solo_room init_world).1.
Definition world_two_in_room : World :=
  (run env_same_code two_in_room init_world).1.
Definition world_rejoined : World :=
  (run env_same_code rejoin_own_room init_world).1.
Definition world_same_code : World :=
  (run env_same_code two_rooms init_world).1.
Definition world_fresh_codes : World :=
  (run env_fresh_codes two_rooms init_world).1.
Definition world_solo_message : World :=
  (run env_same_code solo_with_message init_world).1.
Definition world_second_connected : World :=
  (run env_same_code second_connected init_world).1.
Definition world_two_messages : World :=
  (run env_same_code two_with_messages init_world).1.

(** ** Running programs *)

Lemma bind_run {A B} (m : M A) (f : A → M B) w w1 o1 a :
  m w = (w1, o1, Returned a) → (m ≫= f) w = after o1 (f a w1).
Proof.
  intros H. unfold mbind, M_bind. rewrite H.
  by destruct (f a w1) as [[??]?].
Qed.

Lemma after_nil {A} (r : World * list Send * Outcome A) : after [] r = r.
Proof. by destruct r as [[??]?]. Qed.


Lemma bind_raise {A B} (m : M A) (f : A → M B) w w1 o1 e :
  m w = (w1, o1, Raised e) → (m ≫= f) w = (w1, o1, Raised e).
Proof. intros H. unfold mbind, M_bind. by rewrite H. Qed.

Ltac mstep0 := erewrite bind_run by reflexivity; rewrite ?after_nil; cbn beta.

Lemma send_personal_message_run msg u w :
  send_personal_message msg u w = (w, unicast (manager w) u msg, Returned tt).
Proof.
  unfold send_personal_message, unicast. mstep0.
  destruct (_ !! u) eqn:E.
  - rewrite bool_decide_eq_true_2; eauto.
  - rewrite bool_decide_eq_false_2; [done|]. by intros [??].
Qed.

Lemma for_each_send msg ex l w :
  for_each l (λ member_id,
        if excluded ex member_id then pass
        else send_personal_message msg member_id) w
  = (w, to_all msg (recipients (manager w) l ex), Returned tt).
Proof.
  induction l as [|u l IH]; [done|].
  cbn [for_each]. unfold recipients, to_all. rewrite filter_cons.
  destruct (excluded ex u) eqn:Hex.
  - erewrite bind_run by done. rewrite IH. cbn.
    rewrite decide_False; [done|]. by intros [? _].
  - erewrite bind_run by apply send_personal_message_run. rewrite IH.
    unfold unicast. cbn. case_bool_decide as Hc.
    + rewrite decide_True; done.
    + rewrite decide_False; [done|]. by intros [_ ?].
Qed.

Lemma broadcast_to_room_run msg rid ex w :
  broadcast_to_room msg rid ex w =
  (w, to_all msg (recipients (manager w)
                    (default [] (room_members (manager w) !! rid)) ex),
   Returned tt).
Proof.
  unfold broadcast_to_room. mstep0.
  destruct (room_members (manager w) !! rid) as [l|]; [|done].
  by rewrite for_each_send.
Qed.

Lemma set_manager_id w : set_manager w (manager w) = w.
Proof. by destruct w. Qed.

Lemma cleanup_room_run rid w :
  _cleanup_room rid w = (set_manager w (cleanup_mgr rid (manager w)), [],
                         Returned tt).
Proof.
  unfold _cleanup_room, cleanup_mgr. mstep0.
  erewrite (bind_run _ _ _
    (set_manager w match rooms (manager w) !! rid with
                   | Some room =>
                       upd_room_codes (delete (Room.code room)) (manager w)
                   | None => manager w
                   end) [] tt).
  2:{ destruct (rooms (manager w) !! rid); [done|by rewrite set_manager_id]. }
  rewrite after_nil. by do 2 mstep0.
Qed.

Lemma leave_room_run uid w :
  _leave_room uid w =
  (set_manager w (leave_mgr uid (manager w)), leave_sends uid (manager w),
   Returned tt).
Proof.
  unfold _leave_room, leave_mgr, leave_sends, current_room. mstep0.
  destruct (users (manager w) !! uid) as [user|] eqn:Hu; cbn [mbind option_bind];
    [|by rewrite set_manager_id].
  destruct (User.room_id user) as [rid|] eqn:Hr; cbn [mbind option_bind];
    [|by rewrite set_manager_id].
  destruct (Py.truthy rid) eqn:Ht; cbn [negb]; [|by rewrite set_manager_id].
  do 2 mstep0.
  erewrite (bind_run _ _ _ (set_manager w (remove_member uid rid (manager w)))
              [] tt).
  2:{ unfold remove_member. destruct (room_members (manager w) !! rid) as [l|];
        [|by rewrite set_manager_id].
      unfold when. case_bool_decide; [done|by rewrite set_manager_id]. }
  rewrite after_nil.
  set (m1 := remove_member uid rid (manager w)).
  erewrite (bind_run _ _ _ (set_manager w m1)
              (match rooms (manager w) !! rid with
               | Some _ =>
                   to_all (UserLeft uid (User.name user))
                     (recipients m1 (default [] (room_members m1 !! rid)) None)
               | None => []
               end) tt).
  2:{ destruct (rooms (manager w) !! rid);
        [apply broadcast_to_room_run|reflexivity]. }
  do 2 mstep0. unfold cleanup_if_empty, clear_room.
  cbn [manager set_manager room_members upd_users].
  destruct (room_members m1 !! rid) as [[|x l']|] eqn:Hm;
    rewrite ?cleanup_room_run; unfold pass, mret, M_ret; cbn [after];
    rewrite ?app_nil_r; reflexivity.
Qed.

(** ** Lists *)

Lemma list_remove_elem_of x y l :
  NoDup l → (y ∈ Py.list_remove x l ↔ y ∈ l ∧ y ≠ x).
Proof.
  induction l as [|z l IH]; cbn [Py.list_remove]; intros Hnd.
  - split; [by intros ?%elem_of_nil|by intros [?%elem_of_nil _]].
  - apply NoDup_cons in Hnd as [Hz Hnd]. destruct (decide (z = x)) as [->|Hne].
    + rewrite elem_of_cons. split.
      * intros Hy. split; [by right|]. by intros ->.
      * by intros [[->|?] ?].
    + rewrite !elem_of_cons, IH by done.
      split; [intros [->|[??]]|intros [[->|?] ?]]; tauto.
Qed.

Lemma list_remove_NoDup x l : NoDup l → NoDup (Py.list_remove x l).
Proof.
  induction l as [|z l IH]; cbn [Py.list_remove]; intros Hnd; [done|].
  apply NoDup_cons in Hnd as [Hz Hnd]. destruct (decide (z = x)); [done|].
  apply NoDup_cons. split; [|auto].
  rewrite list_remove_elem_of by done. tauto.
Qed.

Lemma list_remove_nil_inv x l :
  NoDup l → x ∈ l → Py.list_remove x l = [] → l = [x].
Proof.
  intros Hnd Hx Hnil. destruct l as [|z l]; [by apply elem_of_nil in Hx|].
  cbn [Py.list_remove] in Hnil. destruct (decide (z = x)); congruence.
Qed.


Lemma last_n_length {A} n (l : list A) :
  length (Py.last_n n l) = Nat.min n (length l).
Proof. unfold Py.last_n. rewrite length_drop. lia. Qed.


(** ** Preservation of the invariant *)

Ltac mgr_simpl :=
  cbn [manager uuid_calls draw_calls clock_calls users rooms room_codes
       room_members room_messages active_connections upd_users upd_rooms
       upd_room_codes upd_room_members upd_room_messages
       upd_active_connections set_manager set_clock] in *.

Ltac inv_open H :=
  destruct H as [Hconn Hid Hugen Hrgen Hcgen Hroom Hmdom Hhdom Hcodes Hmem
                 Hcur Hhist].

Lemma generated_mono env n n' x : n ≤ n' → generated env n x → generated env n' x.
Proof. intros ? (j & ? & ->). exists j. split; [lia|done]. Qed.

Lemma generated_truthy env n x :
  good_env env → generated env n x → Py.truthy x = true.
Proof.
  intros [_ Hne] (j & _ & ->). specialize (Hne j).
  by destruct (uuid4 env j).
Qed.

Lemma generated_fresh env n : good_env env → ¬ generated env n (uuid4 env n).
Proof. intros [Hinj _] (j & Hj & Heq). apply Hinj in Heq. lia. Qed.

Lemma Consistent_mono env n n' m :
  n ≤ n' → Consistent env n m → Consistent env n' m.
Proof.
  intros Hle H. inv_open H.
  split; try done; eauto using generated_mono.
Qed.

Lemma Consistent_init env : Consistent env 0 new_manager.
Proof.
  split; unfold new_manager; mgr_simpl; intros *;
    rewrite ?lookup_empty; try done; try (by intros [??]);
    split; by intros [??].
Qed.

(** Renaming a user, or changing the language. *)
Lemma Consistent_alter_user env n m uid f :
  (∀ u, User.id (f u) = User.id u) →
  (∀ u, User.room_id (f u) = User.room_id u) →
  Consistent env n m → Consistent env n (upd_users (alter f uid) m).
Proof.
  intros Hfid Hfroom H. inv_open H.
  split; mgr_simpl; try done.
  - intros u. rewrite lookup_alter_is_Some. eauto.
  - intros u usr. rewrite lookup_alter_Some.
    intros [(<- & usr' & ? & ->)|[? ?]]; [rewrite Hfid|]; eauto.
  - intros u. rewrite lookup_alter_is_Some. eauto.
  - intros u usr rid. rewrite lookup_alter_Some.
    intros [(<- & usr' & ? & ->)|[? ?]]; [rewrite Hfroom|]; eauto.
  - intros rid l Hl. destruct (Hmem rid l Hl) as (? & ? & Hall).
    split_and!; try done.
    intros u Hu. destruct (Hall u Hu) as (usr & Husr & ?).
    destruct (decide (uid = u)) as [<-|].
    + exists (f usr). by rewrite lookup_alter_eq, Husr, Hfroom.
    + exists usr. by rewrite lookup_alter_ne.
  - intros u usr rid l. rewrite lookup_alter_Some.
    intros [(<- & usr' & ? & ->)|[? ?]]; [rewrite Hfroom|]; eauto.
Qed.

(** Setting the room of a user no list mentions, to nothing or to a
    room that is not live. *)
Lemma Consistent_set_room_unlisted env n m uid v :
  (∀ r l, room_members m !! r = Some l → uid ∉ l) →
  (∀ rid, v = Some rid → generated env n rid ∧ room_members m !! rid = None) →
  Consistent env n m →
  Consistent env n (upd_users (alter (User.set_room_id v) uid) m).
Proof.
  intros Hun Hv H. inv_open H.
  split; mgr_simpl; try done.
  - intros u. rewrite lookup_alter_is_Some. eauto.
  - intros u usr. rewrite lookup_alter_Some.
    intros [(<- & usr' & ? & ->)|[? ?]]; cbn; eauto.
  - intros u. rewrite lookup_alter_is_Some. eauto.
  - intros u usr rid. rewrite lookup_alter_Some.
    intros [(<- & usr' & ? & ->)|[? ?]]; cbn; [|by eauto].
    intros Hrid. by apply Hv.
  - intros rid l Hl. destruct (Hmem rid l Hl) as (? & ? & Hall).
    split_and!; try done.
    intros u Hu. destruct (Hall u Hu) as (usr & Husr & ?).
    exists usr. rewrite lookup_alter_ne; [done|].
    intros <-. by eapply Hun.
  - intros u usr rid l. rewrite lookup_alter_Some.
    intros [(<- & usr' & ? & ->)|[? ?]]; cbn; [|by eauto].
    intros Hrid Hl. apply Hv in Hrid as [_ Hnone]. congruence.
Qed.

(** A member leaves and others remain. *)
Lemma Consistent_remove_member env n m uid usr rid l :
  users m !! uid = Some usr → User.room_id usr = Some rid →
  room_members m !! rid = Some l → Py.list_remove uid l ≠ [] →
  Consistent env n m →
  Consistent env n
    (clear_room uid (upd_room_members <[rid := Py.list_remove uid l]> m)).
Proof.
  intros Hu Hr Hl Hrem H. inv_open H.
  destruct (Hmem rid l Hl) as (_ & Hnd & Hall).
  unfold clear_room. split; mgr_simpl; try done.
  - intros u. rewrite lookup_alter_is_Some. eauto.
  - intros u usr'. rewrite lookup_alter_Some.
    intros [(<- & usr'' & ? & ->)|[? ?]]; cbn; eauto.
  - intros u. rewrite lookup_alter_is_Some. eauto.
  - intros u usr' rid'. rewrite lookup_alter_Some.
    intros [(<- & usr'' & ? & ->)|[? ?]]; cbn; [done|eauto].
  - intros rid'. rewrite lookup_insert_is_Some, Hmdom.
    split; [destruct (decide (rid = rid')); tauto|].
    intros [<-|[_ ?]]; [|done]. by rewrite Hl.
  - intros rid' l'. rewrite lookup_insert_Some.
    intros [(<- & <-)|[Hne Hl']].
    + split_and!; [done|by apply list_remove_NoDup|].
      intros u [Hul Hne]%list_remove_elem_of; [|done].
      destruct (Hall u Hul) as (usr' & ? & ?). exists usr'.
      by rewrite lookup_alter_ne.
    + destruct (Hmem rid' l' Hl') as (? & ? & Hall'). split_and!; try done.
      intros u Hu'. destruct (Hall' u Hu') as (usr' & ? & ?). exists usr'.
      rewrite lookup_alter_ne; [done|]. intros <-. congruence.
  - intros u usr' rid' l'. rewrite lookup_alter_Some, lookup_insert_Some.
    intros [(<- & usr'' & ? & ->)|[Hne Hu']]; cbn; [done|].
    intros Hr' [(<- & <-)|[Hne' Hl']]; [|by eauto].
    apply list_remove_elem_of; [done|]. split; [by eauto|done].
Qed.

(** The last member leaves and the room is cleaned up. *)
Lemma Consistent_destroy_room env n m uid usr rid :
  users m !! uid = Some usr → User.room_id usr = Some rid →
  room_members m !! rid = Some [uid] →
  Consistent env n m →
  Consistent env n
    (cleanup_mgr rid (clear_room uid (upd_room_members <[rid := []]> m))).
Proof.
  intros Hu Hr Hl H. inv_open H.
  assert (is_Some (rooms m !! rid)) as [room Hroom_rid].
  { apply Hmdom. by rewrite Hl. }
  unfold cleanup_mgr, clear_room. mgr_simpl. rewrite Hroom_rid.
  split; mgr_simpl; try done.
  - intros u. rewrite lookup_alter_is_Some. eauto.
  - intros u usr'. rewrite lookup_alter_Some.
    intros [(<- & usr'' & ? & ->)|[? ?]]; cbn; eauto.
  - intros u. rewrite lookup_alter_is_Some. eauto.
  - intros rid'. rewrite lookup_delete_is_Some. intros [_ ?]; eauto.
  - intros u usr' rid'. rewrite lookup_alter_Some.
    intros [(<- & usr'' & ? & ->)|[? ?]]; cbn; [done|eauto].
  - intros rid' r. rewrite lookup_delete_Some. intros [_ ?]; eauto.
  - intros rid'. rewrite !lookup_delete_is_Some, lookup_insert_is_Some, Hmdom.
    split; [tauto|]. intros [? [?|[_ ?]]]; done.
  - intros rid'. rewrite !lookup_delete_is_Some, Hhdom. done.
  - intros k rid'. rewrite lookup_delete_Some. intros [Hk Hc].
    destruct (Hcodes k rid' Hc) as (r & Hr' & Hcode). exists r.
    split; [|done]. rewrite lookup_delete_ne; [done|].
    intros <-. congruence.
  - intros rid' l'. rewrite lookup_delete_Some, lookup_insert_Some.
    intros [Hne [[? _]|[_ Hl']]]; [done|].
    destruct (Hmem rid' l' Hl') as (? & ? & Hall'). split_and!; try done.
    intros u Hu'. destruct (Hall' u Hu') as (usr' & ? & ?). exists usr'.
    rewrite lookup_alter_ne; [done|]. intros <-. congruence.
  - intros u usr' rid' l'.
    rewrite lookup_alter_Some, lookup_delete_Some, lookup_insert_Some.
    intros [(<- & usr'' & ? & ->)|[Hne Hu']]; cbn; [done|].
    intros Hr' [Hne' [[? _]|[_ Hl']]]; [done|]. eauto.
  - intros rid' h. rewrite lookup_delete_Some. intros [_ ?]; eauto.
Qed.

Lemma current_room_Some env n m uid usr rid :
  good_env env → Consistent env n m →
  users m !! uid = Some usr → User.room_id usr = Some rid →
  current_room m uid = Some rid.
Proof.
  intros Hg H Hu Hr. unfold current_room. rewrite Hu. cbn. rewrite Hr. cbn.
  erewrite generated_truthy; [done..|]. eapply inv_cur_gen; eauto.
Qed.

Lemma current_room_None_user m uid :
  users m !! uid = None → current_room m uid = None.
Proof. intros Hu. unfold current_room. by rewrite Hu. Qed.

Lemma current_room_None_room m uid usr :
  users m !! uid = Some usr → User.room_id usr = None →
  current_room m uid = None.
Proof. intros Hu Hr. unfold current_room. rewrite Hu. cbn. by rewrite Hr. Qed.

Lemma current_room_inv m uid rid :
  current_room m uid = Some rid →
  ∃ usr, users m !! uid = Some usr ∧ User.room_id usr = Some rid
         ∧ Py.truthy rid = true.
Proof.
  unfold current_room. destruct (users m !! uid) as [usr|]; [|done]. cbn.
  destruct (User.room_id usr) as [r|] eqn:Hr; [|done]. cbn.
  destruct (Py.truthy r) eqn:Ht; [|done]. intros [= <-]. by exists usr.
Qed.

(** The three ways a leave goes for a user with a current room. *)
Lemma leave_mgr_cases env n m uid usr rid :
  good_env env → Consistent env n m →
  users m !! uid = Some usr → User.room_id usr = Some rid →
  (room_members m !! rid = None ∧ rooms m !! rid = None
   ∧ leave_mgr uid m = clear_room uid m)
  ∨ (∃ l, room_members m !! rid = Some l ∧ uid ∈ l
          ∧ Py.list_remove uid l ≠ []
          ∧ leave_mgr uid m =
            clear_room uid
              (upd_room_members <[rid := Py.list_remove uid l]> m))
  ∨ (room_members m !! rid = Some [uid]
     ∧ leave_mgr uid m =
       cleanup_mgr rid (clear_room uid (upd_room_members <[rid := []]> m))).
Proof.
  intros Hg H Hu Hr. unfold leave_mgr.
  erewrite current_room_Some by done.
  unfold cleanup_if_empty, remove_member.
  destruct (room_members m !! rid) as [l|] eqn:Hl.
  - assert (uid ∈ l) as Hin by (eapply inv_current; eauto).
    rewrite bool_decide_eq_true_2 by done.
    change (room_members (clear_room uid ?x)) with (room_members x).
    mgr_simpl. rewrite lookup_insert_eq.
    destruct (Py.list_remove uid l) as [|x l'] eqn:Hrem.
    + right; right. apply list_remove_nil_inv in Hrem as ->; [done| |done].
      by eapply inv_members.
    + right; left. exists l. by rewrite Hrem.
  - left. change (room_members (clear_room uid ?x)) with (room_members x).
    rewrite Hl. split_and!; [done| |done].
    destruct (rooms m !! rid) eqn:Hroom; [|done].
    assert (is_Some (room_members m !! rid)) as [??]; [|congruence].
    eapply inv_members_dom; eauto.
Qed.

Lemma leave_mgr_noop m uid : current_room m uid = None → leave_mgr uid m = m.
Proof. intros H. unfold leave_mgr. by rewrite H. Qed.

Lemma unlisted_when_no_room env n m uid usr :
  Consistent env n m → users m !! uid = Some usr →
  User.room_id usr = None →
  ∀ r l, room_members m !! r = Some l → uid ∉ l.
Proof.
  intros H Hu Hr r l Hl Hin.
  destruct (inv_members _ _ _ H r l Hl) as (_ & _ & Hall).
  destruct (Hall uid Hin) as (usr' & ? & ?). congruence.
Qed.

Lemma Consistent_leave env n m uid :
  good_env env → Consistent env n m → Consistent env n (leave_mgr uid m).
Proof.
  intros Hg H.
  destruct (current_room m uid) as [rid|] eqn:Hcur;
    [|by rewrite leave_mgr_noop].
  apply current_room_inv in Hcur as (usr & Hu & Hr & _).
  destruct (leave_mgr_cases env n m uid usr rid Hg H Hu Hr)
    as [(Hnone & _ & ->)|[(l & Hl & Hin & Hrem & ->)|(Hl & ->)]].
  - apply Consistent_set_room_unlisted; [|done|done].
    intros r l Hl Hin.
    destruct (inv_members _ _ _ H r l Hl) as (_ & _ & Hall).
    destruct (Hall uid Hin) as (usr' & ? & ?). congruence.
  - by eapply Consistent_remove_member.
  - by eapply Consistent_destroy_room.
Qed.

(** A user without a room opens a new one. *)
Lemma Consistent_create env n m uid usr room :
  good_env env →
  users m !! uid = Some usr → User.room_id usr = None →
  Room.id room = uuid4 env n → code_ok (Room.code room) = true →
  Consistent env n m →
  Consistent env (S n)
    (upd_users (alter (User.set_room_id (Some (Room.id room))) uid)
       (upd_room_messages <[Room.id room := []]>
          (upd_room_members <[Room.id room := [uid]]>
             (upd_room_codes <[Room.code room := Room.id room]>
                (upd_rooms <[Room.id room := room]> m))))).
Proof.
  intros Hg Hu Hr Hid' Hcode H.
  pose proof (unlisted_when_no_room _ _ _ _ _ H Hu Hr) as Hun.
  pose proof (generated_fresh env n Hg) as Hfresh.
  inv_open H. rewrite Hid'. set (new := uuid4 env n) in *.
  assert (rooms m !! new = None) as Hnew.
  { destruct (rooms m !! new) eqn:E; [|done]. destruct Hfresh; eauto. }
  assert (generated env (S n) new) as Hgen by (exists n; split; [lia|done]).
  split; mgr_simpl.
  - intros u. rewrite lookup_alter_is_Some. eauto.
  - intros u usr'. rewrite lookup_alter_Some.
    intros [(<- & usr'' & ? & ->)|[? ?]]; cbn; eauto.
  - intros u. rewrite lookup_alter_is_Some. eauto using generated_mono.
  - intros rid. rewrite lookup_insert_is_Some.
    intros [<-|[_ ?]]; eauto using generated_mono.
  - intros u usr' rid. rewrite lookup_alter_Some.
    intros [(<- & usr'' & ? & ->)|[? ?]]; cbn;
      [by intros [= <-]|eauto using generated_mono].
  - intros rid r. rewrite lookup_insert_Some.
    intros [(<- & <-)|[_ ?]]; eauto.
  - intros rid. rewrite !lookup_insert_is_Some, Hmdom. done.
  - intros rid. rewrite !lookup_insert_is_Some, Hhdom. done.
  - intros k rid. rewrite lookup_insert_Some.
    intros [(<- & <-)|[Hne Hk]].
    + exists room. by rewrite lookup_insert_eq.
    + destruct (Hcodes k rid Hk) as (r & Hrid & ?). exists r.
      split; [|done]. rewrite lookup_insert_ne; [done|].
      intros <-. congruence.
  - intros rid l. rewrite lookup_insert_Some.
    intros [(<- & <-)|[Hne Hl]].
    + split_and!; [done|apply NoDup_singleton|].
      intros u ->%list_elem_of_singleton. exists (User.set_room_id (Some new) usr).
      by rewrite lookup_alter_eq, Hu.
    + destruct (Hmem rid l Hl) as (? & ? & Hall). split_and!; try done.
      intros u Hin. destruct (Hall u Hin) as (usr' & ? & ?). exists usr'.
      rewrite lookup_alter_ne; [done|]. intros <-. by eapply Hun.
  - intros u usr' rid l. rewrite lookup_alter_Some, lookup_insert_Some.
    intros [(<- & usr'' & ? & ->)|[Hne Hu']]; cbn.
    + intros [= <-] [(_ & <-)|[? _]]; [|done]. apply list_elem_of_singleton; done.
    + intros Hr' [(<- & <-)|[Hne' Hl]]; [|by eauto].
      destruct Hfresh. eauto.
  - intros rid h. rewrite lookup_insert_Some.
    intros [(<- & <-)|[_ ?]]; [cbn; lia|eauto].
Qed.

(** A user without a room enters a live one. *)
Lemma Consistent_join env n m uid usr rid l :
  users m !! uid = Some usr → User.room_id usr = None →
  room_members m !! rid = Some l →
  Consistent env n m →
  Consistent env n
    (upd_room_members <[rid := l ++ [uid]]>
       (upd_users (alter (User.set_room_id (Some rid)) uid) m)).
Proof.
  intros Hu Hr Hl H.
  pose proof (unlisted_when_no_room _ _ _ _ _ H Hu Hr) as Hun.
  inv_open H.
  destruct (Hmem rid l Hl) as (Hne & Hnd & Hall).
  split; mgr_simpl; try done.
  - intros u. rewrite lookup_alter_is_Some. eauto.
  - intros u usr'. rewrite lookup_alter_Some.
    intros [(<- & usr'' & ? & ->)|[? ?]]; cbn; eauto.
  - intros u. rewrite lookup_alter_is_Some. eauto.
  - intros u usr' rid'. rewrite lookup_alter_Some.
    intros [(<- & usr'' & ? & ->)|[? ?]]; cbn; [|by eauto].
    intros [= <-]. apply Hrgen, Hmdom. by rewrite Hl.
  - intros rid'. rewrite lookup_insert_is_Some, Hmdom.
    split; [destruct (decide (rid = rid')); tauto|].
    intros [<-|[_ ?]]; [|done]. by rewrite Hl.
  - intros rid' l'. rewrite lookup_insert_Some.
    intros [(<- & <-)|[Hne' Hl']].
    + split_and!.
      * by destruct l.
      * apply NoDup_app. split_and!; [done| |apply NoDup_singleton].
        intros u Hin ->%list_elem_of_singleton. by eapply Hun.
      * intros u [Hin| ->%list_elem_of_singleton]%elem_of_app.
        -- destruct (Hall u Hin) as (usr' & ? & ?). exists usr'.
           rewrite lookup_alter_ne; [done|]. intros <-. by eapply Hun.
        -- exists (User.set_room_id (Some rid) usr).
           by rewrite lookup_alter_eq, Hu.
    + destruct (Hmem rid' l' Hl') as (? & ? & Hall'). split_and!; try done.
      intros u Hin. destruct (Hall' u Hin) as (usr' & ? & ?). exists usr'.
      rewrite lookup_alter_ne; [done|]. intros <-. by eapply Hun.
  - intros u usr' rid' l'. rewrite lookup_alter_Some, lookup_insert_Some.
    intros [(<- & usr'' & ? & ->)|[Hne' Hu']]; cbn.
    + intros [= <-] [(_ & <-)|[? _]]; [|done].
      apply elem_of_app. right. by apply list_elem_of_singleton.
    + intros Hr' [(<- & <-)|[Hne'' Hl']]; [|by eauto].
      apply elem_of_app. left. eauto.
Qed.

(** A message is stored. *)
Lemma Consistent_store env n m rid h :
  is_Some (room_messages m !! rid) → length h ≤ 100 →
  Consistent env n m →
  Consistent env (S n) (upd_room_messages <[rid := h]> m).
Proof.
  intros Hold Hlen H. apply (Consistent_mono env n (S n)) in H; [|lia].
  inv_open H. split; mgr_simpl; try done.
  - intros rid'. rewrite lookup_insert_is_Some, Hhdom.
    split; [destruct (decide (rid = rid')); tauto|].
    intros [<-|[_ ?]]; done.
  - intros rid' h'. rewrite lookup_insert_Some.
    intros [(<- & <-)|[_ ?]]; eauto.
Qed.

(** A session opens. *)
Lemma Consistent_connect env n m websocket :
  good_env env → Consistent env n m →
  Consistent env (S n)
    (upd_users <[uuid4 env n := User.new (uuid4 env n)]>
       (upd_active_connections <[uuid4 env n := websocket]> m)).
Proof.
  intros Hg H. pose proof (generated_fresh env n Hg) as Hfresh.
  inv_open H. set (new := uuid4 env n) in *.
  assert (users m !! new = None) as Hnew.
  { destruct (users m !! new) eqn:E; [|done]. destruct Hfresh; eauto. }
  assert (generated env (S n) new) as Hgen by (exists n; split; [lia|done]).
  split; mgr_simpl; eauto using generated_mono.
  - intros u. rewrite !lookup_insert_is_Some, Hconn. done.
  - intros u usr. rewrite lookup_insert_Some.
    intros [(<- & <-)|[_ ?]]; eauto.
  - intros u. rewrite lookup_insert_is_Some.
    intros [<-|[_ ?]]; eauto using generated_mono.
  - intros u usr rid. rewrite lookup_insert_Some.
    intros [(<- & <-)|[_ ?]]; [done|eauto using generated_mono].
  - intros rid l Hl. destruct (Hmem rid l Hl) as (? & ? & Hall).
    split_and!; try done. intros u Hin.
    destruct (Hall u Hin) as (usr & Husr & ?). exists usr.
    rewrite lookup_insert_ne; [done|]. intros <-. congruence.
  - intros u usr rid l. rewrite lookup_insert_Some.
    intros [(<- & <-)|[_ ?]]; [done|eauto].
Qed.

(** A session without a room closes. *)
Lemma Consistent_disconnect env n m uid :
  (∀ r l, room_members m !! r = Some l → uid ∉ l) →
  Consistent env n m →
  Consistent env n
    (upd_users (delete uid) (upd_active_connections (delete uid) m)).
Proof.
  intros Hun H. inv_open H. split; mgr_simpl; try done.
  - intros u. rewrite !lookup_delete_is_Some, Hconn. done.
  - intros u usr. rewrite lookup_delete_Some. intros [_ ?]; eauto.
  - intros u. rewrite lookup_delete_is_Some. intros [_ ?]; eauto.
  - intros u usr rid. rewrite lookup_delete_Some. intros [_ ?]; eauto.
  - intros rid l Hl. destruct (Hmem rid l Hl) as (? & ? & Hall).
    split_and!; try done. intros u Hin.
    destruct (Hall u Hin) as (usr & Husr & ?). exists usr.
    rewrite lookup_delete_ne; [done|]. intros <-. by eapply Hun.
  - intros u usr rid l. rewrite lookup_delete_Some. intros [_ ?]; eauto.
Qed.

(** ** What each handler computes *)

Ltac wsimpl :=
  cbn [manager uuid_calls draw_calls clock_calls set_manager set_clock
       Room.id Room.code Room.name Room.host_id Room.created_at].

Ltac mstep :=
  erewrite bind_run by
    first [ reflexivity
          | apply leave_room_run
          | apply send_personal_message_run
          | apply broadcast_to_room_run ];
  rewrite ?after_nil; wsimpl.

Ltac mdone :=
  unfold pass, mret, M_ret;
  rewrite ?send_personal_message_run, ?broadcast_to_room_run;
  cbn [after app]; rewrite ?app_nil_r.

Lemma leave_mgr_not_truthy m uid usr :
  users m !! uid = Some usr → Py.opt_truthy (User.room_id usr) = false →
  current_room m uid = None.
Proof.
  intros Hu Ht. unfold current_room. rewrite Hu. cbn.
  destruct (User.room_id usr) as [r|]; [|done]. cbn in *. by rewrite Ht.
Qed.

Lemma leave_sends_noop m uid : current_room m uid = None → leave_sends uid m = [].
Proof. intros H. unfold leave_sends. by rewrite H. Qed.

(** [if user.room_id: await self._leave_room(user_id)] *)
Lemma leave_if_in_room_run uid usr w :
  users (manager w) !! uid = Some usr →
  when (Py.opt_truthy (User.room_id usr)) (_leave_room uid) w =
  (set_manager w (leave_mgr uid (manager w)), leave_sends uid (manager w),
   Returned tt).
Proof.
  intros Hu. destruct (Py.opt_truthy (User.room_id usr)) eqn:Ht; cbn [when].
  - apply leave_room_run.
  - rewrite leave_mgr_noop, leave_sends_noop, set_manager_id
      by eauto using leave_mgr_not_truthy. done.
Qed.

Lemma leave_mgr_users m uid :
  users (leave_mgr uid m) =
  match current_room m uid with
  | Some _ => alter (User.set_room_id None) uid (users m)
  | None => users m
  end.
Proof.
  unfold leave_mgr, cleanup_if_empty, cleanup_mgr, clear_room, remove_member.
  repeat case_match; reflexivity.
Qed.

Lemma leave_mgr_active_connections m uid :
  active_connections (leave_mgr uid m) = active_connections m.
Proof.
  unfold leave_mgr, cleanup_if_empty, cleanup_mgr, clear_room, remove_member.
  repeat case_match; reflexivity.
Qed.

Lemma leave_mgr_registered m uid u :
  is_Some (users (leave_mgr uid m) !! u) ↔ is_Some (users m !! u).
Proof.
  rewrite leave_mgr_users. destruct (current_room m uid); [|done].
  apply lookup_alter_is_Some.
Qed.

Lemma create_room_unregistered env uid data w :
  users (manager w) !! uid = None →
  _handle_create_room env uid data w = (w, [], Returned tt).
Proof. intros Hu. unfold _handle_create_room. mstep. by rewrite Hu. Qed.

Lemma create_room_run env uid data w usr :
  users (manager w) !! uid = Some usr →
  _handle_create_room env uid data w =
  (mkWorld (create_mgr env w uid data) (S (uuid_calls w)) (6 + draw_calls w)
     (2 + clock_calls w),
   create_sends env w uid data, Returned tt).
Proof.
  intros Hu. unfold _handle_create_room. mstep. rewrite Hu.
  erewrite bind_run by (by apply leave_if_in_room_run).
  do 9 mstep.
  unfold create_sends, create_mgr, created_room, rename_user, set_manager.
  mgr_simpl. cbn [Room.id Room.code].
  destruct (alter _ uid _ !! uid) as [user|] eqn:Huser.
  - mstep. mdone. reflexivity.
  - apply eq_None_not_Some in Huser. destruct Huser.
    rewrite !lookup_alter_is_Some. apply leave_mgr_registered. eauto.
Qed.

Lemma member_list_run env room l w :
  ∃ c members,
    member_list env room l w = (set_clock w c, [], Returned members).
Proof.
  unfold member_list.
  match goal with |- context [collect l ?b] => set (body := b) end.
  assert (∀ x w, ∃ c o, body x w = (set_clock w c, [], Returned o)) as Hbody.
  { intros x w'. unfold body. mstep.
    destruct (users (manager w') !! x) as [u|].
    - mstep. eexists _, _. reflexivity.
    - exists (clock_calls w'), None. by destruct w'. }
  clearbody body. revert w.
  induction l as [|x l IH]; intros w; cbn [collect].
  - exists (clock_calls w), []. by destruct w.
  - destruct (Hbody x w) as (c0 & o & Hb).
    erewrite bind_run by apply Hb. rewrite after_nil.
    destruct (IH (set_clock w c0)) as (c & ms & Hc).
    erewrite bind_run by apply Hc. rewrite after_nil.
    eexists _, _. reflexivity.
Qed.

Lemma join_room_unregistered env uid data w :
  users (manager w) !! uid = None →
  _handle_join_room env uid data w = (w, [], Returned tt).
Proof. intros Hu. unfold _handle_join_room. mstep. by rewrite Hu. Qed.

Lemma join_room_invalid env uid data w usr :
  users (manager w) !! uid = Some usr →
  join_target env (manager w) data = None →
  _handle_join_room env uid data w =
  (w, unicast (manager w) uid
        (ErrorResponse "INVALID_ROOM_CODE" "Room not found"),
   Returned tt).
Proof.
  intros Hu Ht. unfold _handle_join_room. mstep. rewrite Hu.
  do 2 mstep. unfold join_target in Ht. rewrite Ht.
  apply send_personal_message_run.
Qed.

Lemma join_room_raises env uid data w usr rid room :
  users (manager w) !! uid = Some usr →
  join_target env (manager w) data = Some (rid, room) →
  room_members (join_mgr0 uid data rid (manager w)) !! rid = None →
  _handle_join_room env uid data w =
  (set_manager w (join_mgr0 uid data rid (manager w)),
   leave_sends uid (manager w), Raised (KeyError rid)).
Proof.
  intros Hu Ht Hl. unfold _handle_join_room. mstep. rewrite Hu.
  do 2 mstep. unfold join_target in Ht. rewrite Ht.
  erewrite bind_run by (by apply leave_if_in_room_run).
  do 3 mstep. unfold join_mgr0, rename_user in Hl.
  erewrite bind_raise.
  2:{ unfold room_members_at. mstep. rewrite Hl. reflexivity. }
  cbn [after]. by rewrite app_nil_r.
Qed.

Lemma join_mgr_registered uid data rid m u :
  is_Some (users (join_mgr uid data rid m) !! u) ↔ is_Some (users m !! u).
Proof.
  unfold join_mgr, join_mgr0, rename_user.
  repeat case_match; mgr_simpl;
    by rewrite !lookup_alter_is_Some, leave_mgr_registered.
Qed.

Lemma join_room_run env uid data w usr rid room l :
  users (manager w) !! uid = Some usr →
  join_target env (manager w) data = Some (rid, room) →
  room_members (join_mgr0 uid data rid (manager w)) !! rid = Some l →
  let m2 := join_mgr uid data rid (manager w) in
  ∃ members member c,
    _handle_join_room env uid data w =
    (mkWorld m2 (uuid_calls w) (draw_calls w) c,
     leave_sends uid (manager w) ++
     unicast m2 uid
       (RoomJoined room members
          (Py.last_n 50 (Py.dict_get (room_messages m2) rid []))) ++
     to_all (UserJoined member false)
       (recipients m2 (default [] (room_members m2 !! rid)) (Some uid)),
     Returned tt).
Proof.
  intros Hu Ht Hl m2.
  assert (is_Some (users m2 !! uid)) as [user Huser].
  { apply join_mgr_registered. eauto. }
  unfold _handle_join_room. mstep. rewrite Hu.
  do 2 mstep. unfold join_target in Ht. rewrite Ht.
  erewrite bind_run by (by apply leave_if_in_room_run).
  do 3 mstep.
  assert (Hm2 : m2 = join_mgr uid data rid (manager w)) by done.
  clearbody m2. unfold join_mgr in Hm2. rewrite Hl in Hm2.
  unfold join_mgr0, rename_user in Hl, Hm2.
  erewrite bind_run.
  2:{ unfold room_members_at. mstep. rewrite Hl. reflexivity. }
  rewrite after_nil. wsimpl.
  erewrite (bind_run _ _ _ (set_manager w m2) [] tt).
  2:{ rewrite Hm2. by destruct (bool_decide (uid ∈ l)). }
  rewrite after_nil.
  assert (Hl2 : ∃ l2, room_members m2 !! rid = Some l2).
  { rewrite Hm2. destruct (bool_decide (uid ∈ l)); mgr_simpl;
      [|rewrite lookup_insert_eq]; eauto. }
  destruct Hl2 as [l2 Hl2].
  erewrite bind_run.
  2:{ unfold room_members_at. mstep. rewrite Hl2. reflexivity. }
  rewrite after_nil.
  destruct (member_list_run env room l2 (set_manager w m2))
    as (c & members & Hml).
  erewrite bind_run by apply Hml. rewrite after_nil.
  do 3 mstep. rewrite Huser. mstep. mdone. wsimpl.
  rewrite Hl2. cbn [default]. eexists _, _, _. reflexivity.
Qed.

Lemma send_message_unregistered env uid data w :
  users (manager w) !! uid = None →
  _handle_send_message env uid data w = (w, [], Returned tt).
Proof. intros Hu. unfold _handle_send_message. mstep. by rewrite Hu. Qed.

Lemma send_message_not_in_room env uid data w usr :
  users (manager w) !! uid = Some usr →
  current_room (manager w) uid = None →
  _handle_send_message env uid data w =
  (w, unicast (manager w) uid
        (ErrorResponse "NOT_IN_ROOM" "You must join a room first"),
   Returned tt).
Proof.
  intros Hu Hc. unfold _handle_send_message. mstep. rewrite Hu.
  unfold current_room in Hc. rewrite Hu in Hc. cbn in Hc.
  destruct (User.room_id usr) as [rid|]; cbn in Hc;
    [destruct (Py.truthy rid); [done|]|]; apply send_personal_message_run.
Qed.

Lemma send_message_blank env uid data w rid :
  current_room (manager w) uid = Some rid →
  str_strip env (Py.dict_get data "text" "") = "" →
  _handle_send_message env uid data w = (w, [], Returned tt).
Proof.
  intros (usr & Hu & Hr & Ht)%current_room_inv Hblank.
  unfold _handle_send_message. mstep. rewrite Hu, Hr, Ht.
  cbn [negb]. by rewrite Hblank.
Qed.

Lemma send_message_run env uid data w usr rid :
  users (manager w) !! uid = Some usr →
  current_room (manager w) uid = Some rid →
  str_strip env (Py.dict_get data "text" "") ≠ "" →
  let message := sent_message env w uid usr rid data in
  let m' := store_message rid message (manager w) in
  _handle_send_message env uid data w =
  (mkWorld m' (S (uuid_calls w)) (draw_calls w) (S (clock_calls w)),
   to_all (NewMessage message)
     (recipients m' (default [] (room_members m' !! rid)) None),
   Returned tt).
Proof.
  intros Hu (usr' & Hu' & Hr & Ht)%current_room_inv Hblank message m'.
  assert (usr' = usr) as -> by congruence.
  unfold _handle_send_message. mstep. rewrite Hu, Hr, Ht.
  cbn [negb].
  destruct (str_strip env (Py.dict_get data "text" "")) as [|a s] eqn:Hs; [done|].
  cbn [Py.truthy negb]. do 2 mstep.
  assert (message = sent_message env w uid usr rid data) as Hmsg by done.
  unfold sent_message in Hmsg. rewrite Hs in Hmsg. rewrite <- Hmsg.
  erewrite (bind_run _ _ _
    (mkWorld m' (S (uuid_calls w)) (draw_calls w) (S (clock_calls w))) [] tt).
  2:{ subst m'. unfold store_message.
      destruct (room_messages (manager w) !! rid); reflexivity. }
  rewrite after_nil. mdone. reflexivity.
Qed.

Lemma update_profile_unregistered env uid data w :
  users (manager w) !! uid = None →
  _handle_update_profile env uid data w = (w, [], Returned tt).
Proof. intros Hu. unfold _handle_update_profile. mstep. by rewrite Hu. Qed.

Lemma profile_mgr_lookup uid data m usr :
  users m !! uid = Some usr →
  users (profile_mgr uid data m) !! uid =
  Some (User.mk (User.id usr)
          (default (User.name usr) (assigned (data !! "name")))
          (default (User.language usr) (assigned (data !! "language")))
          (User.room_id usr)).
Proof.
  intros Hu. unfold profile_mgr.
  destruct (assigned (data !! "name")), (assigned (data !! "language"));
    mgr_simpl; rewrite ?lookup_alter_eq, ?Hu; cbn; by destruct usr.
Qed.

Lemma profile_mgr_others uid data m :
  active_connections (profile_mgr uid data m) = active_connections m
  ∧ rooms (profile_mgr uid data m) = rooms m
  ∧ room_codes (profile_mgr uid data m) = room_codes m
  ∧ room_members (profile_mgr uid data m) = room_members m
  ∧ room_messages (profile_mgr uid data m) = room_messages m
  ∧ ∀ u, u ≠ uid → users (profile_mgr uid data m) !! u = users m !! u.
Proof.
  unfold profile_mgr.
  destruct (assigned (data !! "name")), (assigned (data !! "language"));
    mgr_simpl; split_and!; try done; intros u Hne;
    by rewrite ?lookup_alter_ne.
Qed.

Lemma update_profile_run env uid data w usr :
  users (manager w) !! uid = Some usr →
  let m' := profile_mgr uid data (manager w) in
  let member t :=
    Member.mk (User.id usr)
      (default (User.name usr) (assigned (data !! "name")))
      (default (User.language usr) (assigned (data !! "language")))
      false (now env t) in
  ∃ c,
    _handle_update_profile env uid data w =
    (mkWorld m' (uuid_calls w) (draw_calls w) c,
     unicast m' uid (ProfileUpdated (member (clock_calls w))) ++
     match current_room (manager w) uid with
     | Some rid =>
         if name_changed (User.name usr) data
         then to_all (UserJoined (member (S (clock_calls w))) true)
                (recipients m' (default [] (room_members m' !! rid))
                   (Some uid))
         else []
     | None => []
     end,
     Returned tt).
Proof.
  intros Hu m' member. unfold _handle_update_profile. mstep. rewrite Hu.
  erewrite (bind_run _ _ _
    (set_manager w (match assigned (data !! "name") with
            | Some n => upd_users (alter (User.set_name n) uid) (manager w)
            | None => manager w
            end)) [] tt).
  2:{ unfold assigned. destruct (data !! "name") as [n|];
        [destruct (Py.truthy n)|]; cbn [when]; by rewrite ?set_manager_id. }
  rewrite after_nil.
  erewrite (bind_run _ _ _ (set_manager w m') [] tt).
  2:{ subst m'. unfold profile_mgr, assigned.
      destruct (data !! "language") as [l|];
        [destruct (Py.truthy l)|]; cbn [when]; reflexivity. }
  rewrite after_nil. mstep.
  pose proof (profile_mgr_lookup uid data _ _ Hu) as Hu'. fold m' in Hu'.
  rewrite Hu'. do 2 mstep.
  cbn [User.id User.name User.language User.room_id].
  fold (member (clock_calls w)).
  unfold current_room. rewrite Hu. cbn [mbind option_bind].
  clear Hu'. clearbody m'. unfold name_changed, assigned in *.
  destruct (User.room_id usr) as [rid|]; cbn [mbind option_bind];
    [|mdone; eexists; reflexivity].
  destruct (data !! "name") as [n|];
    [|destruct (Py.truthy rid); mdone; eexists; reflexivity].
  destruct (Py.truthy rid), (Py.truthy n); cbn [andb];
    try (mdone; eexists; reflexivity).
  destruct (bool_decide (n = User.name usr)); cbn [negb];
    [mdone; eexists; reflexivity|].
  mstep. mdone. eexists. reflexivity.
Qed.

Lemma get_room_info_run env uid w :
  ∃ c o, _handle_get_room_info env uid w = (set_clock w c, o, Returned tt).
Proof.
  unfold _handle_get_room_info. mstep.
  assert (w = set_clock w (clock_calls w)) as Hw by (by destruct w).
  match goal with |- context [match ?x with Some _ => _ | None => _ end] =>
    destruct x as [rid|] end.
  2:{ unfold _send_error. rewrite send_personal_message_run.
      eexists _, _. by rewrite <- Hw. }
  mstep. destruct (rooms (manager w) !! rid) as [room|].
  2:{ unfold _send_error. rewrite send_personal_message_run.
      eexists _, _. by rewrite <- Hw. }
  mstep.
  destruct (member_list_run env room
              (Py.dict_get (room_members (manager w)) rid []) w)
    as (c & members & Hml).
  erewrite bind_run by apply Hml. mdone. eexists _, _. reflexivity.
Qed.

Lemma connect_run env websocket w :
  let user_id := uuid4 env (uuid_calls w) in
  connect env websocket w =
  (mkWorld
     (upd_users <[user_id := User.new user_id]>
        (upd_active_connections <[user_id := websocket]> (manager w)))
     (S (uuid_calls w)) (draw_calls w) (clock_calls w),
   [(user_id, Connected user_id)], Returned user_id).
Proof.
  intros user_id. unfold connect. do 4 mstep. fold user_id. mdone.
  unfold unicast. mgr_simpl. rewrite lookup_insert_eq.
  by rewrite bool_decide_eq_true_2.
Qed.

Lemma disconnect_unregistered uid w :
  users (manager w) !! uid = None → disconnect uid w = (w, [], Returned tt).
Proof. intros Hu. unfold disconnect. mstep. by rewrite Hu. Qed.

Lemma disconnect_run uid w usr :
  users (manager w) !! uid = Some usr →
  disconnect uid w =
  (set_manager w
     (upd_users (delete uid)
        (upd_active_connections (delete uid) (leave_mgr uid (manager w)))),
   leave_sends uid (manager w), Returned tt).
Proof.
  intros Hu. unfold disconnect. mstep. rewrite Hu.
  erewrite bind_run by (by apply leave_if_in_room_run).
  mstep. unfold modify. cbn [after]. by rewrite app_nil_r.
Qed.

(** ** Room codes *)

Lemma code_alphabet_ok :
  forallb (λ a, Py.is_upper a || Py.is_digit a) code_alphabet = true.
Proof. reflexivity. Qed.

Lemma random_choices_length pop k draw from :
  length (random_choices pop k draw from) = k.
Proof. unfold random_choices. by rewrite length_map, length_seq. Qed.

Lemma string_length_of_list l :
  String.length (string_of_list_ascii l) = length l.
Proof. induction l; cbn; congruence. Qed.

Lemma generate_room_code_ok draw from :
  code_ok (generate_room_code draw from) = true.
Proof.
  unfold code_ok, generate_room_code.
  rewrite string_length_of_list, random_choices_length,
    list_ascii_of_string_of_list_ascii.
  rewrite bool_decide_eq_true_2 by done. cbn [andb].
  apply forallb_forall. intros a Ha. unfold random_choices in Ha.
  apply in_map_iff in Ha as (j & <- & _).
  pose proof code_alphabet_ok as Hok.
  rewrite forallb_forall in Hok. apply Hok. apply nth_In.
  apply Nat.mod_upper_bound. done.
Qed.

(** ** Every step preserves the invariant *)

Lemma leave_mgr_user_room env n m uid usr :
  good_env env → Consistent env n m → users m !! uid = Some usr →
  users (leave_mgr uid m) !! uid = Some (User.set_room_id None usr).
Proof.
  intros Hg H Hu. rewrite leave_mgr_users.
  destruct (current_room m uid) as [rid|] eqn:Hc.
  - by rewrite lookup_alter_eq, Hu.
  - rewrite Hu. f_equal. destruct (User.room_id usr) as [rid|] eqn:Hr.
    + erewrite current_room_Some in Hc by done. done.
    + destruct usr. cbn in *. by subst.
Qed.

Lemma Consistent_rename env n m uid name language :
  Consistent env n m → Consistent env n (rename_user uid name language m).
Proof.
  intros H. unfold rename_user.
  by do 2 (apply Consistent_alter_user; [done|done|]).
Qed.

Lemma rename_user_lookup uid name language m usr :
  users m !! uid = Some usr →
  users (rename_user uid name language m) !! uid =
  Some (User.mk (User.id usr) name language (User.room_id usr)).
Proof.
  intros Hu. unfold rename_user. mgr_simpl.
  by rewrite !lookup_alter_eq, Hu.
Qed.

Lemma Inv_create env uid data w :
  good_env env → Inv env w →
  Inv env (world_of (_handle_create_room env uid data w)).
Proof.
  intros Hg H. unfold Inv in *.
  destruct (users (manager w) !! uid) as [usr|] eqn:Hu.
  2:{ by rewrite create_room_unregistered. }
  erewrite create_room_run by done. cbn [world_of fst manager uuid_calls].
  unfold create_mgr.
  pose proof (leave_mgr_user_room _ _ _ _ _ Hg H Hu) as Hu1.
  eapply Consistent_create; [done| | |done| |].
  - by apply rename_user_lookup.
  - done.
  - apply generate_room_code_ok.
  - by apply Consistent_rename, Consistent_leave.
Qed.

Lemma join_target_inv env m data rid room :
  join_target env m data = Some (rid, room) →
  room_codes m !! str_upper env (Py.dict_get data "roomCode" "") = Some rid
  ∧ rooms m !! rid = Some room ∧ Py.truthy rid = true.
Proof.
  unfold join_target. destruct (room_codes m !! _) as [r|]; [|done]. cbn.
  destruct (Py.truthy r) eqn:Ht; [|done].
  destruct (rooms m !! r) as [rm|] eqn:Hr; [|done]. cbn.
  by intros [= <- <-].
Qed.

Lemma join_mgr_joined env n m uid usr data rid l :
  good_env env → Consistent env n m → users m !! uid = Some usr →
  room_members (join_mgr0 uid data rid m) !! rid = Some l →
  (uid ∉ l) ∧
  (join_mgr uid data rid m =
   upd_room_members <[rid := l ++ [uid]]> (join_mgr0 uid data rid m)).
Proof.
  intros Hg H Hu Hl.
  assert (uid ∉ l) as Hnin.
  { pose proof (leave_mgr_user_room _ _ _ _ _ Hg H Hu) as Hu1.
    eapply (unlisted_when_no_room env n (leave_mgr uid m));
      [by apply Consistent_leave|done|done|]. apply Hl. }
  split; [done|]. unfold join_mgr. rewrite Hl.
  by rewrite bool_decide_eq_false_2.
Qed.

Lemma Inv_join env uid data w :
  good_env env → Inv env w →
  Inv env (world_of (_handle_join_room env uid data w)).
Proof.
  intros Hg H. unfold Inv in *.
  destruct (users (manager w) !! uid) as [usr|] eqn:Hu.
  2:{ by rewrite join_room_unregistered. }
  destruct (join_target env (manager w) data) as [[rid room]|] eqn:Ht.
  2:{ by erewrite join_room_invalid. }
  pose proof (leave_mgr_user_room _ _ _ _ _ Hg H Hu) as Hu1.
  pose proof (Consistent_leave env _ _ uid Hg H) as H1.
  apply join_target_inv in Ht as Ht'. destruct Ht' as (_ & Hroom & _).
  destruct (room_members (join_mgr0 uid data rid (manager w)) !! rid)
    as [l|] eqn:Hl.
  - destruct (join_room_run env uid data w usr rid room l Hu Ht Hl)
      as (members & member & c & ->).
    cbn [world_of fst manager uuid_calls].
    destruct (join_mgr_joined env _ _ uid usr data rid l Hg H Hu Hl)
      as [_ ->].
    unfold join_mgr0. mgr_simpl.
    eapply (Consistent_join env _ (rename_user uid _ _ _));
      [by apply rename_user_lookup|done|apply Hl|].
    by apply Consistent_rename.
  - erewrite join_room_raises by done.
    cbn [world_of fst manager uuid_calls set_manager]. unfold join_mgr0.
    apply Consistent_set_room_unlisted.
    + eapply (unlisted_when_no_room env _ (rename_user uid _ _ _));
        [by apply Consistent_rename|by apply rename_user_lookup|done].
    + intros ? [= <-]. split; [|apply Hl].
      apply (inv_room_gen _ _ _ H). by rewrite Hroom.
    + by apply Consistent_rename.
Qed.

Lemma push_message_length message h :
  length h ≤ 100 → length (push_message message h) ≤ 100.
Proof.
  intros Hh. unfold push_message. case_bool_decide.
  - rewrite last_n_length. lia.
  - lia.
Qed.

Lemma Inv_send env uid data w :
  good_env env → Inv env w →
  Inv env (world_of (_handle_send_message env uid data w)).
Proof.
  intros Hg H. unfold Inv in *.
  destruct (users (manager w) !! uid) as [usr|] eqn:Hu.
  2:{ by rewrite send_message_unregistered. }
  destruct (current_room (manager w) uid) as [rid|] eqn:Hc.
  2:{ by erewrite send_message_not_in_room. }
  destruct (decide (str_strip env (Py.dict_get data "text" "") = "")) as [Hb|Hb].
  { by erewrite send_message_blank. }
  erewrite send_message_run by done.
  cbn [world_of fst manager uuid_calls]. unfold store_message.
  destruct (room_messages (manager w) !! rid) as [h|] eqn:Hh.
  - apply Consistent_store; [by rewrite Hh| |done].
    apply push_message_length. by eapply inv_history.
  - by eapply Consistent_mono; [|done]; lia.
Qed.

Lemma Inv_update_profile env uid data w :
  Inv env w → Inv env (world_of (_handle_update_profile env uid data w)).
Proof.
  intros H. unfold Inv in *.
  destruct (users (manager w) !! uid) as [usr|] eqn:Hu.
  2:{ by rewrite update_profile_unregistered. }
  destruct (update_profile_run env uid data w usr Hu) as (c & ->).
  cbn [world_of fst manager uuid_calls]. unfold profile_mgr.
  destruct (assigned (data !! "name")), (assigned (data !! "language"));
    repeat (apply Consistent_alter_user; [done|done|]); done.
Qed.

Lemma try_except_run_ok m h w w1 o1 :
  m w = (w1, o1, Returned tt) → try_except m h w = (w1, o1, Returned tt).
Proof. intros Hm. unfold try_except. by rewrite Hm. Qed.




Lemma handle_message_world env uid data w (P : World → Prop) :
  P w →
  P (world_of (_handle_create_room env uid data w)) →
  P (world_of (_handle_join_room env uid data w)) →
  P (world_of (_leave_room uid w)) →
  P (world_of (_handle_send_message env uid data w)) →
  P (world_of (_handle_update_profile env uid data w)) →
  P (world_of (_handle_get_room_info env uid w)) →
  P (world_of (handle_message env uid data w)).
Proof.
  intros Hw Hcreate Hjoin Hleave Hsend Hupd Hinfo.
  unfold handle_message, try_except, _handle_leave_room, _send_error.
  cbn zeta.
  repeat match goal with
         | |- context [if is_type ?t ?c then _ else _] =>
             destruct (is_type t c)
         end;
    rewrite ?send_personal_message_run; try done;
    match goal with
    | |- context [match ?h w with _ => _ end] =>
        destruct (h w) as [[w1 o1] [[]|e]]
    end; rewrite ?send_personal_message_run; done.
Qed.


Lemma Inv_handle_message env uid data w :
  good_env env → Inv env w →
  Inv env (world_of (handle_message env uid data w)).
Proof.
  intros Hg H. apply handle_message_world; [done|..].
  - by apply Inv_create.
  - by apply Inv_join.
  - rewrite leave_room_run. by apply Consistent_leave.
  - by apply Inv_send.
  - by apply Inv_update_profile.
  - by destruct (get_room_info_run env uid w) as (c & o & ->).
Qed.

Lemma Inv_connect env websocket w :
  good_env env → Inv env w → Inv env (world_of (connect env websocket w)).
Proof.
  intros Hg H. rewrite connect_run. by apply Consistent_connect.
Qed.

Lemma Inv_disconnect env uid w :
  good_env env → Inv env w → Inv env (world_of (disconnect uid w)).
Proof.
  intros Hg H. unfold Inv in *.
  destruct (users (manager w) !! uid) as [usr|] eqn:Hu.
  2:{ by rewrite disconnect_unregistered. }
  erewrite disconnect_run by done.
  cbn [world_of fst manager uuid_calls set_manager].
  apply Consistent_disconnect; [|by apply Consistent_leave].
  eapply unlisted_when_no_room;
    [by apply Consistent_leave|by eapply leave_mgr_user_room|done].
Qed.

Lemma step_world env ev w :
  world_of (step env ev w) =
  match ev with
  | Connect websocket => world_of (connect env websocket w)
  | Disconnect user_id => world_of (disconnect user_id w)
  | Incoming user_id data => world_of (handle_message env user_id data w)
  end.
Proof.
  destruct ev; [|done..]. cbn [step]. rewrite connect_run.
  erewrite bind_run by apply connect_run. reflexivity.
Qed.

Lemma Inv_step env ev w :
  good_env env → Inv env w → Inv env (world_of (step env ev w)).
Proof.
  intros Hg H. rewrite step_world. destruct ev.
  - by apply Inv_connect.
  - by apply Inv_disconnect.
  - by apply Inv_handle_message.
Qed.

Lemma Inv_run env evs w :
  good_env env → Inv env w → Inv env (run env evs w).1.
Proof.
  intros Hg. revert w. induction evs as [|ev evs IH]; intros w H; [done|].
  cbn [run fst]. apply IH. by apply Inv_step.
Qed.

Lemma Inv_reachable env w : good_env env → reachable env w → Inv env w.
Proof.
  intros Hg [evs ->]. apply Inv_run; [done|]. apply Consistent_init.
Qed.

(** ** Who a broadcast reaches *)

Lemma recipients_everyone m l :
  (∀ u, u ∈ l → is_Some (active_connections m !! u)) →
  recipients m l None = l.
Proof.
  intros Hconn. unfold recipients. induction l as [|u l IH]; [done|].
  rewrite filter_cons, decide_True.
  - f_equal. apply IH. intros v Hv. apply Hconn. by right.
  - split; [done|]. apply Hconn. by left.
Qed.

Lemma recipients_others m l uid :
  Py.truthy uid = true →
  (∀ u, u ∈ l → is_Some (active_connections m !! u)) →
  recipients m l (Some uid) = filter (λ u, u ≠ uid) l.
Proof.
  intros Ht Hconn. unfold recipients. induction l as [|u l IH]; [done|].
  assert (excluded (Some uid) u = false ↔ u ≠ uid) as Hex.
  { unfold excluded. cbn [Py.opt_truthy]. rewrite Ht. cbn [andb].
    rewrite bool_decide_eq_false. split; intros Hne; congruence. }
  rewrite !filter_cons.
  rewrite IH by (intros v Hv; apply Hconn; by right).
  destruct (decide (u ≠ uid)) as [Hne|Heq].
  - rewrite decide_True; [done|]. split; [by apply Hex|].
    apply Hconn. by left.
  - rewrite decide_False; [done|]. intros [? _]. apply Heq. by apply Hex.
Qed.

Lemma members_connected env n m rid l :
  Consistent env n m → room_members m !! rid = Some l →
  ∀ u, u ∈ l → is_Some (active_connections m !! u).
Proof.
  intros H Hl u Hu. apply (inv_conn _ _ _ H).
  destruct (inv_members _ _ _ H rid l Hl) as (_ & _ & Hall).
  destruct (Hall u Hu) as (usr & -> & _). eauto.
Qed.

Lemma recipients_ext m m' l ex :
  active_connections m' = active_connections m →
  recipients m' l ex = recipients m l ex.
Proof. intros Heq. unfold recipients. by rewrite Heq. Qed.

Ltac by_computation := vm_compute; reflexivity.

Lemma reachable_run env evs : reachable env (run env evs init_world).1.
Proof. by exists evs. Qed.

(** ** C1: membership and current room *)

Lemma demo_uuid4_good draw now upper strip :
  good_env (mkEnv demo_uuid4 draw now upper strip).
Proof.
  split; cbn [uuid4]; unfold demo_uuid4.
  - intros i j Heq. cbn in Heq. injection Heq as Heq.
    by apply pretty_nat_inj in Heq.
  - done.
Qed.

(** What does hold in every reachable state: a listed user has the
    listing room as current room, a user whose current room is live is
    listed by it, and nobody is listed twice. *)
Lemma membership_of_reachable env w :
  good_env env → reachable env w →
  in_one_room_at_most (manager w)
  ∧ ∀ u usr rid,
      users (manager w) !! u = Some usr →
      ((∃ l, room_members (manager w) !! rid = Some l ∧ u ∈ l) →
       User.room_id usr = Some rid)
      ∧ (User.room_id usr = Some rid →
         is_Some (rooms (manager w) !! rid) →
         ∃ l, room_members (manager w) !! rid = Some l ∧ u ∈ l).
Proof.
  intros Hg Hreach. pose proof (Inv_reachable env w Hg Hreach) as H.
  unfold Inv in H. split.
  - intros u r1 r2 l1 l2 Hl1 Hl2 Hu1 Hu2.
    destruct (inv_members _ _ _ H r1 l1 Hl1) as (_ & _ & Hall1).
    destruct (inv_members _ _ _ H r2 l2 Hl2) as (_ & _ & Hall2).
    destruct (Hall1 u Hu1) as (usr1 & ? & ?).
    destruct (Hall2 u Hu2) as (usr2 & ? & ?). congruence.
  - intros u usr rid Hu. split.
    + intros (l & Hl & Hin).
      destruct (inv_members _ _ _ H rid l Hl) as (_ & _ & Hall).
      destruct (Hall u Hin) as (usr' & ? & ?). congruence.
    + intros Hr Hroom. apply (inv_members_dom _ _ _ H) in Hroom as [l Hl].
      exists l. split; [done|]. by eapply inv_current.
Qed.

(** C1, at the failing input. A user alone in a room sends JOIN_ROOM with
    the code of that room: the implicit leave destroys the room, the
    handler then records the destroyed room as the user's current room
    and fails on [self.room_members[room_id]] (the requester gets
    INTERNAL_ERROR). In the resulting state the user's current room is a
    room that lists nobody, so the membership invariant is broken. *)
Theorem C1_rejoin_own_room_breaks_membership :
  good_env env_same_code
  ∧ reachable env_same_code world_rejoined
  ∧ users (manager world_rejoined) !! "u0"
    = Some (User.mk "u0" "Guest" "en" (Some "u1"))
  ∧ rooms (manager world_rejoined) !! "u1" = None
  ∧ room_members (manager world_rejoined) !! "u1" = None
  ∧ last (run env_same_code rejoin_own_room init_world).2
    = Some ("u0", ErrorResponse "INTERNAL_ERROR" "'u1'")
  ∧ ¬ membership_consistent (manager world_rejoined).
Proof.
  assert (users (manager world_rejoined) !! "u0"
          = Some (User.mk "u0" "Guest" "en" (Some "u1"))) as Hu
    by by_computation.
  assert (room_members (manager world_rejoined) !! "u1" = None) as Hl
    by by_computation.
  split_and!.
  - apply demo_uuid4_good.
  - apply reachable_run.
  - exact Hu.
  - by_computation.
  - exact Hl.
  - by_computation.
  - intros Hcons. destruct (Hcons "u0" _ "u1" Hu) as [Hin _].
    destruct (Hin eq_refl) as (l & Hl' & _). congruence.
Qed.

(** ** C2: room codes *)

Lemma codes_resolve_distinct m : codes_resolve m → codes_distinct m.
Proof.
  intros Hres r1 r2 a b Ha Hb Hcode.
  apply Hres in Ha, Hb. rewrite Hcode in Ha. congruence.
Qed.

Lemma leave_mgr_rooms_sub env n m uid rid r :
  good_env env → Consistent env n m →
  rooms (leave_mgr uid m) !! rid = Some r → rooms m !! rid = Some r.
Proof.
  intros Hg H.
  destruct (current_room m uid) as [r0|] eqn:Hc;
    [|by rewrite leave_mgr_noop].
  apply current_room_inv in Hc as (usr & Hu & Hr & _).
  destruct (leave_mgr_cases env n m uid usr r0 Hg H Hu Hr)
    as [(_ & _ & ->)|[(l0 & Hl0 & _ & _ & ->)|(Hl0 & ->)]]; try done.
  unfold cleanup_mgr, clear_room. mgr_simpl. case_match; mgr_simpl;
    by intros [_ ?]%lookup_delete_Some.
Qed.

Lemma codes_resolve_leave env n m uid :
  good_env env → Consistent env n m →
  codes_resolve m → codes_resolve (leave_mgr uid m).
Proof.
  intros Hg H Hres.
  destruct (current_room m uid) as [r0|] eqn:Hc;
    [|by rewrite leave_mgr_noop].
  apply current_room_inv in Hc as (usr & Hu & Hr & _).
  destruct (leave_mgr_cases env n m uid usr r0 Hg H Hu Hr)
    as [(_ & _ & ->)|[(l0 & Hl0 & _ & _ & ->)|(Hl0 & ->)]]; try done.
  assert (is_Some (rooms m !! r0)) as [room Hroom].
  { apply (inv_members_dom _ _ _ H). by rewrite Hl0. }
  unfold cleanup_mgr, clear_room, codes_resolve. mgr_simpl.
  rewrite Hroom. mgr_simpl.
  intros rid r [Hne Hrid]%lookup_delete_Some.
  rewrite lookup_delete_ne; [by apply Hres|].
  intros Hcode. apply Hres in Hroom, Hrid. congruence.
Qed.

Lemma join_mgr_rooms uid data rid m :
  rooms (join_mgr uid data rid m) = rooms (leave_mgr uid m)
  ∧ room_codes (join_mgr uid data rid m) = room_codes (leave_mgr uid m)
  ∧ rooms (join_mgr0 uid data rid m) = rooms (leave_mgr uid m)
  ∧ room_codes (join_mgr0 uid data rid m) = room_codes (leave_mgr uid m).
Proof.
  unfold join_mgr, join_mgr0, rename_user. by repeat case_match.
Qed.

Lemma codes_resolve_ext m m' :
  rooms m' = rooms m → room_codes m' = room_codes m →
  codes_resolve m → codes_resolve m'.
Proof. unfold codes_resolve. by intros -> ->. Qed.

Lemma handle_message_create env uid data w :
  is_type (data !! "type") CREATE_ROOM = true →
  handle_message env uid data w = _handle_create_room env uid data w.
Proof.
  intros Ht. unfold handle_message. rewrite Ht.
  destruct (users (manager w) !! uid) as [usr|] eqn:Hu.
  - erewrite try_except_run_ok; by erewrite create_room_run.
  - erewrite try_except_run_ok; by erewrite create_room_unregistered.
Qed.

Lemma handle_message_world_other env uid data w (P : World → Prop) :
  is_type (data !! "type") CREATE_ROOM = false →
  P w →
  P (world_of (_handle_join_room env uid data w)) →
  P (world_of (_leave_room uid w)) →
  P (world_of (_handle_send_message env uid data w)) →
  P (world_of (_handle_update_profile env uid data w)) →
  P (world_of (_handle_get_room_info env uid w)) →
  P (world_of (handle_message env uid data w)).
Proof.
  intros Ht Hw Hjoin Hleave Hsend Hupd Hinfo.
  unfold handle_message, try_except, _handle_leave_room, _send_error.
  rewrite Ht. cbn zeta.
  repeat match goal with
         | |- context [if is_type ?t ?c then _ else _] =>
             destruct (is_type t c)
         end;
    rewrite ?send_personal_message_run; try done;
    match goal with
    | |- context [match ?h w with _ => _ end] =>
        destruct (h w) as [[w1 o1] [[]|e]]
    end; rewrite ?send_personal_message_run; done.
Qed.

Lemma codes_resolve_step env ev w :
  good_env env → Inv env w → no_collision env w ev →
  codes_resolve (manager w) →
  codes_resolve (manager (world_of (step env ev w))).
Proof.
  intros Hg H Hnc Hres. unfold Inv in H. rewrite step_world.
  destruct ev as [websocket|uid|uid data].
  - by rewrite connect_run.
  - destruct (users (manager w) !! uid) as [usr|] eqn:Hu.
    + erewrite disconnect_run by done.
      eapply codes_resolve_ext; [..|by eapply codes_resolve_leave]; done.
    + by rewrite disconnect_unregistered.
  - destruct (is_type (data !! "type") CREATE_ROOM) eqn:Ht.
    + rewrite handle_message_create by done.
      destruct (users (manager w) !! uid) as [usr|] eqn:Hu;
        [|by rewrite create_room_unregistered].
      erewrite create_room_run by done. cbn [world_of fst manager].
      pose proof (codes_resolve_leave env _ _ uid Hg H Hres) as Hres1.
      unfold create_mgr, created_room, rename_user, codes_resolve.
      mgr_simpl. cbn [Room.id Room.code]. fold (next_code env w).
      intros rid r [(<- & <-)|[Hne Hrid]]%lookup_insert_Some.
      * cbn [Room.code]. by rewrite lookup_insert_eq.
      * rewrite lookup_insert_ne; [by apply Hres1|].
        intros Hcode. eapply (Hnc Ht rid r); [|done].
        by eapply leave_mgr_rooms_sub.
    + apply (handle_message_world_other env uid data w
               (λ w', codes_resolve (manager w'))); try done.
      * destruct (users (manager w) !! uid) as [usr|] eqn:Hu;
          [|by rewrite join_room_unregistered].
        destruct (join_target env (manager w) data) as [[rid room]|] eqn:Htg;
          [|by erewrite join_room_invalid].
        pose proof (codes_resolve_leave env _ _ uid Hg H Hres) as Hres1.
        destruct (join_mgr_rooms uid data rid (manager w))
          as (? & ? & ? & ?).
        destruct (room_members (join_mgr0 uid data rid (manager w)) !! rid)
          as [l|] eqn:Hl.
        -- destruct (join_room_run env uid data w usr rid room l Hu Htg Hl)
             as (members & member & c & ->).
           by eapply codes_resolve_ext.
        -- erewrite join_room_raises by done. by eapply codes_resolve_ext.
      * rewrite leave_room_run. by eapply codes_resolve_leave.
      * destruct (users (manager w) !! uid) as [usr|] eqn:Hu;
          [|by rewrite send_message_unregistered].
        destruct (current_room (manager w) uid) as [rid0|] eqn:Hc;
          [|by erewrite send_message_not_in_room].
        destruct (decide (str_strip env (Py.dict_get data "text" "") = ""));
          [by erewrite send_message_blank|].
        erewrite send_message_run by done. cbn [world_of fst manager].
        unfold store_message. by case_match.
      * destruct (users (manager w) !! uid) as [usr|] eqn:Hu;
          [|by rewrite update_profile_unregistered].
        destruct (update_profile_run env uid data w usr Hu) as (c & ->).
        destruct (profile_mgr_others uid data (manager w))
          as (_ & ? & ? & _).
        by eapply codes_resolve_ext.
      * by destruct (get_room_info_run env uid w) as (c & o & ->).
Qed.

Lemma codes_resolve_run env evs w :
  good_env env → Inv env w → collision_free env evs w →
  codes_resolve (manager w) →
  codes_resolve (manager (run env evs w).1).
Proof.
  intros Hg. revert w.
  induction evs as [|ev evs IH]; intros w H Hcf Hres; [done|].
  destruct Hcf as [Hnc Hcf].
  cbn [run fst]. apply IH; [by apply Inv_step|done|].
  by apply codes_resolve_step.
Qed.

(** C2, as amended. CREATE_ROOM takes the generated code as it comes
    (nothing is compared, nothing is retried): as long as no CREATE_ROOM
    generates the code of a room that is live when the request arrives,
    no two live rooms have the same code and the code of every live
    room resolves to that room. *)
Theorem C2_codes_distinct_without_collision env evs :
  good_env env → collision_free env evs init_world →
  let w := (run env evs init_world).1 in
  codes_distinct (manager w) ∧ codes_resolve (manager w).
Proof.
  intros Hg Hcf w.
  assert (codes_resolve (manager w)) as Hres.
  { apply codes_resolve_run; [done|apply Consistent_init|done|].
    intros rid r Hr. cbn in Hr. by rewrite lookup_empty in Hr. }
  split; [by apply codes_resolve_distinct|done].
Qed.

Lemma two_rooms_collision_free :
  collision_free env_fresh_codes two_rooms init_world.
Proof.
  unfold two_rooms, solo_room. cbn [app collision_free no_collision].
  split_and!; try exact I.
  - intros _ rid r Hr. exfalso. revert Hr. vm_compute. discriminate.
  - intros _ rid r.
    match goal with
    | |- rooms (manager ?w) !! rid = Some r → _ =>
        replace (rooms (manager w))
          with ({[ "u1" := Room.mk "u1" "ABCDEF" "Trip" "u0" 0%Z ]}
                : gmap string Room.t) by by_computation
    end.
    intros [<- <-]%lookup_singleton_Some. vm_compute. discriminate.
Qed.

Lemma C2_codes_distinct_without_collision_witness :
  good_env env_fresh_codes
  ∧ collision_free env_fresh_codes two_rooms init_world
  ∧ codes_distinct (manager world_fresh_codes)
  ∧ codes_resolve (manager world_fresh_codes).
Proof.
  split; [apply demo_uuid4_good|]. split; [apply two_rooms_collision_free|].
  apply (C2_codes_distinct_without_collision env_fresh_codes two_rooms).
  - apply demo_uuid4_good.
  - apply two_rooms_collision_free.
Defined.

(** C2, as stated, fails. When the generator returns the code of a live
    room, CREATE_ROOM stores the new room under it all the same: two
    live rooms (u1 and u3) have the code AAAAAA, and the code now
    resolves to the second room only. *)
Lemma C2_two_live_rooms_share_a_code :
  good_env env_same_code
  ∧ reachable env_same_code world_same_code
  ∧ Room.code <$> rooms (manager world_same_code) !! "u1" = Some "AAAAAA"
  ∧ Room.code <$> rooms (manager world_same_code) !! "u3" = Some "AAAAAA"
  ∧ room_codes (manager world_same_code) !! "AAAAAA" = Some "u3"
  ∧ ¬ codes_distinct (manager world_same_code)
  ∧ ¬ codes_resolve (manager world_same_code).
Proof.
  assert (rooms (manager world_same_code) !! "u1"
          = Some (Room.mk "u1" "AAAAAA" "Trip" "u0" 0%Z)) as H1
    by by_computation.
  assert (rooms (manager world_same_code) !! "u3"
          = Some (Room.mk "u3" "AAAAAA" "Work" "u2" 2%Z)) as H3
    by by_computation.
  assert (room_codes (manager world_same_code) !! "AAAAAA" = Some "u3") as Hc
    by by_computation.
  split_and!.
  - apply demo_uuid4_good.
  - apply reachable_run.
  - by rewrite H1.
  - by rewrite H3.
  - exact Hc.
  - intros Hd. by specialize (Hd "u1" "u3" _ _ H1 H3 eq_refl).
  - intros Hres. apply Hres in H1. cbn [Room.code] in H1. congruence.
Qed.

(** ** C3: a room without members is destroyed *)

(** What is left of the store once the room of its last member is
    cleaned up. *)
Lemma destroyed_room_gone env n m uid usr rid :
  Consistent env n m →
  users m !! uid = Some usr → User.room_id usr = Some rid →
  room_members m !! rid = Some [uid] →
  let m' := cleanup_mgr rid (clear_room uid (upd_room_members <[rid := []]> m)) in
  rooms m' !! rid = None ∧ room_members m' !! rid = None
  ∧ room_messages m' !! rid = None ∧ ∀ k, room_codes m' !! k ≠ Some rid.
Proof.
  intros H Hu Hr Hl m'.
  assert (is_Some (rooms m !! rid)) as [room Hroom].
  { apply (inv_members_dom _ _ _ H). by rewrite Hl. }
  subst m'. unfold cleanup_mgr, clear_room. mgr_simpl. rewrite Hroom.
  mgr_simpl. rewrite !lookup_delete_eq. split_and!; try done.
  intros k [Hk Hc]%lookup_delete_Some.
  destruct (inv_codes _ _ _ H k rid Hc) as (r & Hr' & Hcode). congruence.
Qed.

(** C3. In every reachable state no room has an empty member list, every
    live room has members, and every code of the code mapping resolves
    to a room of the room store; and when [_leave_room] takes the last
    member out of a room, the same call removes the Room record, the
    membership list, the message history and every code that resolved
    to the room. *)
Theorem C3_empty_room_is_destroyed env w :
  good_env env → reachable env w →
  (∀ rid l, room_members (manager w) !! rid = Some l → l ≠ [])
  ∧ (∀ rid, is_Some (rooms (manager w) !! rid) →
       ∃ l, room_members (manager w) !! rid = Some l ∧ l ≠ [])
  ∧ (∀ k rid, room_codes (manager w) !! k = Some rid →
       is_Some (rooms (manager w) !! rid))
  ∧ (∀ uid usr rid,
       users (manager w) !! uid = Some usr → User.room_id usr = Some rid →
       room_members (manager w) !! rid = Some [uid] →
       let w' := world_of (_leave_room uid w) in
       rooms (manager w') !! rid = None
       ∧ room_members (manager w') !! rid = None
       ∧ room_messages (manager w') !! rid = None
       ∧ ∀ k, room_codes (manager w') !! k ≠ Some rid).
Proof.
  intros Hg Hreach. pose proof (Inv_reachable env w Hg Hreach) as H.
  unfold Inv in H. split_and!.
  - intros rid l Hl. by destruct (inv_members _ _ _ H rid l Hl).
  - intros rid Hroom. apply (inv_members_dom _ _ _ H) in Hroom as [l Hl].
    exists l. split; [done|]. by destruct (inv_members _ _ _ H rid l Hl).
  - intros k rid Hk. destruct (inv_codes _ _ _ H k rid Hk) as (r & -> & _).
    eauto.
  - intros uid usr rid Hu Hr Hl w'. subst w'. rewrite leave_room_run.
    cbn [world_of fst manager set_manager].
    destruct (leave_mgr_cases env _ _ uid usr rid Hg H Hu Hr)
      as [(Hnone & _)|[(l & Hl' & _ & Hrem & _)|(_ & ->)]].
    + congruence.
    + rewrite Hl in Hl'. injection Hl' as <-. cbn in Hrem.
      by rewrite decide_True in Hrem.
    + by eapply destroyed_room_gone.
Qed.

Lemma C3_empty_room_is_destroyed_witness :
  good_env env_same_code ∧ reachable env_same_code world_solo
  ∧ rooms (manager (world_of (_leave_room "u0" world_solo))) !! "u1" = None
  ∧ room_members (manager (world_of (_leave_room "u0" world_solo))) !! "u1"
    = None.
Proof.
  split; [apply demo_uuid4_good|]. split; [apply reachable_run|].
  destruct (C3_empty_room_is_destroyed env_same_code world_solo
              (demo_uuid4_good _ _ _ _) (reachable_run _ _))
    as (_ & _ & _ & Hlast).
  destruct (Hlast "u0" (User.mk "u0" "Ann" "en" (Some "u1")) "u1")
    as (Hrooms & Hmembers & _); [by_computation..|].
  split; [exact Hrooms|exact Hmembers].
Defined.

(** ** C4: leaving a room *)

Lemma cleanup_if_empty_users rid m : users (cleanup_if_empty rid m) = users m.
Proof.
  unfold cleanup_if_empty, cleanup_mgr. repeat case_match; reflexivity.
Qed.

Lemma leave_mgr_unfold env n m uid usr rid :
  good_env env → Consistent env n m →
  users m !! uid = Some usr → User.room_id usr = Some rid →
  leave_mgr uid m =
  cleanup_if_empty rid (clear_room uid (remove_member uid rid m))
  ∧ leave_sends uid m =
    match rooms m !! rid with
    | Some _ =>
        to_all (UserLeft uid (User.name usr))
          (recipients (remove_member uid rid m)
             (default [] (room_members (remove_member uid rid m) !! rid))
             None)
    | None => []
    end.
Proof.
  intros Hg H Hu Hr. unfold leave_mgr, leave_sends.
  erewrite current_room_Some by done. by rewrite Hu.
Qed.

(** C4. For a user with a current room, [_leave_room] takes the user out
    of the member list, sends USER_LEFT with the user's id and name to
    exactly the members that remain (never to the leaver), on the store
    as it is after the removal, clears the user's room, and last
    destroys the room when, and only when, nobody remains; for a user
    without a current room, or an unknown user, it does nothing. *)
Theorem C4_leave_room_steps env w uid :
  good_env env → reachable env w →
  (users (manager w) !! uid = None → _leave_room uid w = (w, [], Returned tt))
  ∧ ∀ usr, users (manager w) !! uid = Some usr →
    match User.room_id usr with
    | None => _leave_room uid w = (w, [], Returned tt)
    | Some rid =>
        let remaining :=
          Py.list_remove uid (default [] (room_members (manager w) !! rid)) in
        let m1 := remove_member uid rid (manager w) in
        let m2 := clear_room uid m1 in
        let m3 := cleanup_if_empty rid m2 in
        let left := UserLeft uid (User.name usr) in
        _leave_room uid w = (set_manager w m3, to_all left remaining,
                             Returned tt)
        ∧ default [] (room_members m1 !! rid) = remaining
        ∧ (uid ∉ remaining)
        ∧ sent_of (broadcast_to_room left rid None (set_manager w m1))
          = to_all left remaining
        ∧ users m3 !! uid = Some (User.set_room_id None usr)
        ∧ (remaining = [] →
           rooms m3 !! rid = None ∧ room_members m3 !! rid = None
           ∧ room_messages m3 !! rid = None
           ∧ ∀ k, room_codes m3 !! k ≠ Some rid)
        ∧ (remaining ≠ [] →
           room_members m3 !! rid = Some remaining
           ∧ rooms m3 !! rid = rooms (manager w) !! rid
           ∧ room_messages m3 !! rid = room_messages (manager w) !! rid)
    end.
Proof.
  intros Hg Hreach. pose proof (Inv_reachable env w Hg Hreach) as H.
  unfold Inv in H. split.
  { intros Hu. rewrite leave_room_run.
    rewrite leave_mgr_noop, leave_sends_noop, set_manager_id
      by (by apply current_room_None_user). done. }
  intros usr Hu. destruct (User.room_id usr) as [rid|] eqn:Hr.
  2:{ rewrite leave_room_run.
      rewrite leave_mgr_noop, leave_sends_noop, set_manager_id
        by (by eapply current_room_None_room). done. }
  intros remaining m1 m2 m3 left.
  destruct (leave_mgr_unfold env _ _ uid usr rid Hg H Hu Hr) as [Hmgr Hsends].
  fold m1 in Hmgr, Hsends. fold m2 m3 in Hmgr. fold left in Hsends.
  rewrite leave_room_run, Hmgr, Hsends.
  assert (users m3 !! uid = Some (User.set_room_id None usr)) as Hu3.
  { subst m3 m2. rewrite cleanup_if_empty_users. unfold clear_room.
    mgr_simpl. rewrite lookup_alter_eq.
    replace (users m1) with (users (manager w)); [by rewrite Hu|].
    subst m1. unfold remove_member. by repeat case_match. }
  rewrite broadcast_to_room_run. cbn [sent_of fst snd manager set_manager].
  destruct (room_members (manager w) !! rid) as [l|] eqn:Hl.
  - (* the room is live *)
    assert (uid ∈ l) as Hin by (by eapply inv_current).
    destruct (inv_members _ _ _ H rid l Hl) as (_ & Hnd & _).
    assert (is_Some (rooms (manager w) !! rid)) as [room Hroom].
    { apply (inv_members_dom _ _ _ H). by rewrite Hl. }
    assert (m1 = upd_room_members <[rid := remaining]> (manager w)) as Hm1.
    { subst m1 remaining. unfold remove_member. rewrite Hl. cbn [default from_option id].
      by rewrite bool_decide_eq_true_2. }
    assert (room_members m1 !! rid = Some remaining) as Hl1.
    { rewrite Hm1. mgr_simpl. by rewrite lookup_insert_eq. }
    assert (recipients m1 remaining None = remaining) as Hrec.
    { rewrite (recipients_ext (manager w)) by (by rewrite Hm1).
      apply recipients_everyone. intros u Hu'.
      eapply members_connected; [done..|].
      subst remaining. cbn [default from_option id] in Hu'.
      by apply list_remove_elem_of in Hu' as [? _]. }
    rewrite Hroom, Hl1. cbn [default from_option id]. rewrite Hrec.
    split_and!; try done.
    + subst remaining. cbn [default from_option id]. rewrite list_remove_elem_of by done.
      tauto.
    + intros Hnil. subst m3 m2. unfold cleanup_if_empty.
      change (room_members (clear_room uid ?x)) with (room_members x).
      rewrite Hl1, Hnil. rewrite Hm1, Hnil.
      eapply destroyed_room_gone; [done..|].
      subst remaining. cbn [default from_option id] in Hnil.
      by apply list_remove_nil_inv in Hnil as ->.
    + intros Hne. subst m3 m2. unfold cleanup_if_empty.
      change (room_members (clear_room uid ?x)) with (room_members x).
      rewrite Hl1. destruct remaining as [|x rest] eqn:Hrem; [done|].
      unfold clear_room. mgr_simpl. rewrite Hl1, Hm1. done.
  - (* the recorded room is not in the store *)
    assert (rooms (manager w) !! rid = None) as Hroom.
    { destruct (rooms (manager w) !! rid) eqn:E; [|done].
      assert (is_Some (room_members (manager w) !! rid)) as [??];
        [|congruence]. apply (inv_members_dom _ _ _ H). by rewrite E. }
    assert (m1 = manager w) as Hm1.
    { subst m1. unfold remove_member. by rewrite Hl. }
    subst remaining. cbn [default from_option id Py.list_remove]. rewrite Hroom, Hm1, Hl.
    cbn [default from_option id]. split_and!; try done.
    + by intros ?%elem_of_nil.
    + intros _. subst m3 m2. unfold cleanup_if_empty.
      change (room_members (clear_room uid ?x)) with (room_members x).
      rewrite Hm1, Hl. unfold clear_room. mgr_simpl.
      split_and!; try done.
      * destruct (room_messages (manager w) !! rid) eqn:E; [|done].
        assert (is_Some (rooms (manager w) !! rid)) as [??]; [|congruence].
        apply (inv_messages_dom _ _ _ H). by rewrite E.
      * intros k Hk. destruct (inv_codes _ _ _ H k rid Hk) as (r & ? & _).
        congruence.
Qed.

Lemma C4_leave_room_steps_witness :
  good_env env_same_code ∧ reachable env_same_code world_two_in_room
  ∧ sent_of (_leave_room "u0" world_two_in_room)
    = [("u2", UserLeft "u0" "Ann")].
Proof.
  split; [apply demo_uuid4_good|]. split; [apply reachable_run|].
  destruct (C4_leave_room_steps env_same_code world_two_in_room "u0"
              (demo_uuid4_good _ _ _ _) (reachable_run _ _)) as [_ Hreg].
  specialize (Hreg (User.mk "u0" "Ann" "en" (Some "u1"))).
  cbn [User.room_id] in Hreg. destruct Hreg as (-> & _); by_computation.
Defined.

(** ** C5: the message history *)

Lemma push_message_drop message h :
  push_message message h = drop (length h + 1 - 100) (h ++ [message]).
Proof.
  unfold push_message, Py.last_n. rewrite length_app. cbn [length].
  case_bool_decide; [done|].
  by replace (length h + 1 - 100) with 0 by lia.
Qed.

Lemma leave_sends_user_left m uid s :
  s ∈ leave_sends uid m → ∃ name, s.2 = UserLeft uid name.
Proof.
  unfold leave_sends, to_all. repeat case_match; try by intros ?%elem_of_nil.
  intros (u & -> & _)%list_elem_of_fmap. eauto.
Qed.

(** A leave keeps every room in which somebody else remains. *)
Lemma leave_mgr_keeps_room env n m uid rid l :
  good_env env → Consistent env n m →
  room_members m !! rid = Some l → l ≠ [uid] →
  is_Some (room_members (leave_mgr uid m) !! rid)
  ∧ rooms (leave_mgr uid m) !! rid = rooms m !! rid
  ∧ room_messages (leave_mgr uid m) !! rid = room_messages m !! rid.
Proof.
  intros Hg H Hl Hne.
  destruct (current_room m uid) as [r0|] eqn:Hc.
  2:{ rewrite leave_mgr_noop by done. by rewrite Hl. }
  apply current_room_inv in Hc as (usr & Hu & Hr & _).
  destruct (leave_mgr_cases env n m uid usr r0 Hg H Hu Hr)
    as [(_ & _ & ->)|[(l0 & Hl0 & _ & _ & ->)|(Hl0 & ->)]].
  - unfold clear_room. mgr_simpl. by rewrite Hl.
  - unfold clear_room. mgr_simpl. split_and!; [|done..].
    destruct (decide (r0 = rid)) as [->|];
      [rewrite lookup_insert_eq|rewrite lookup_insert_ne, Hl by done]; eauto.
  - assert (r0 ≠ rid) as Hneq by (intros ->; congruence).
    unfold cleanup_mgr, clear_room. mgr_simpl.
    case_match; mgr_simpl;
      rewrite !lookup_delete_ne, ?lookup_insert_ne, ?Hl by done; eauto.
Qed.

(** C5. The sole member of a room whose history holds one message asks
    to join that room. The code resolves to the room, which is live,
    so min(50, 1) = 1 stored message is due; but no ROOM_JOINED is
    sent: the one event is INTERNAL_ERROR to the requester, and the
    room's history is gone with the room. *)
Theorem C5_rejoin_gets_no_history :
  good_env env_same_code
  ∧ reachable env_same_code world_solo_message
  ∧ users (manager world_solo_message) !! "u0"
    = Some (User.mk "u0" "Ann" "en" (Some "u1"))
  ∧ room_members (manager world_solo_message) !! "u1" = Some ["u0"]
  ∧ room_messages (manager world_solo_message) !! "u1"
    = Some [Message.mk "u2" "u1" "u0" "Ann" "hi" "en" 2%Z]
  ∧ join_target env_same_code (manager world_solo_message) join_own_room
    = Some ("u1", Room.mk "u1" "AAAAAA" "Trip" "u0" 0%Z)
  ∧ _handle_join_room env_same_code "u0" join_own_room world_solo_message
    = (world_of (handle_message env_same_code "u0" join_own_room
                   world_solo_message),
       [], Raised (KeyError "u1"))
  ∧ sent_of (handle_message env_same_code "u0" join_own_room
               world_solo_message)
    = [("u0", ErrorResponse "INTERNAL_ERROR" "'u1'")]
  ∧ room_messages
      (manager (world_of (handle_message env_same_code "u0" join_own_room
                            world_solo_message)))
    = ∅.
Proof.
  split; [apply demo_uuid4_good|].
  split; [apply (reachable_run _ solo_with_message)|].
  split_and!; by_computation.
Qed.

(** ** C6: SEND_MESSAGE *)

Lemma current_room_of_reachable env w uid usr :
  good_env env → reachable env w → users (manager w) !! uid = Some usr →
  current_room (manager w) uid = User.room_id usr.
Proof.
  intros Hg Hreach Hu. pose proof (Inv_reachable env w Hg Hreach) as H.
  destruct (User.room_id usr) as [rid|] eqn:Hr.
  - by eapply current_room_Some.
  - by eapply current_room_None_room.
Qed.

(** A user without a current room gets NOT_IN_ROOM and nothing changes;
    a text that is empty once stripped is dropped without a trace. *)
Lemma send_message_rejected env w uid usr data :
  good_env env → reachable env w → users (manager w) !! uid = Some usr →
  (User.room_id usr = None →
   _handle_send_message env uid data w =
   (w, [(uid, ErrorResponse "NOT_IN_ROOM" "You must join a room first")],
    Returned tt))
  ∧ (is_Some (User.room_id usr) →
     str_strip env (Py.dict_get data "text" "") = "" →
     _handle_send_message env uid data w = (w, [], Returned tt)).
Proof.
  intros Hg Hreach Hu. pose proof (Inv_reachable env w Hg Hreach) as H.
  pose proof (current_room_of_reachable env w uid usr Hg Hreach Hu) as Hc.
  split.
  - intros Hr. rewrite Hr in Hc. erewrite send_message_not_in_room by done.
    unfold unicast. rewrite bool_decide_eq_true_2; [done|].
    apply (inv_conn _ _ _ H). by rewrite Hu.
  - intros [rid Hr] Hblank. rewrite Hr in Hc.
    by erewrite send_message_blank.
Qed.

(** In a live room the message is appended to the history (which keeps
    its last 100 entries) and every member, the sender included, is
    sent NEW_MESSAGE. *)
Lemma send_message_in_live_room env w uid usr rid l h data :
  good_env env → reachable env w →
  users (manager w) !! uid = Some usr → User.room_id usr = Some rid →
  room_members (manager w) !! rid = Some l →
  room_messages (manager w) !! rid = Some h →
  str_strip env (Py.dict_get data "text" "") ≠ "" →
  let message :=
    Message.mk (uuid4 env (uuid_calls w)) rid uid (User.name usr)
      (str_strip env (Py.dict_get data "text" "")) (User.language usr)
      (now env (clock_calls w)) in
  _handle_send_message env uid data w =
  (mkWorld
     (upd_room_messages <[rid := push_message message h]> (manager w))
     (S (uuid_calls w)) (draw_calls w) (S (clock_calls w)),
   to_all (NewMessage message) l, Returned tt)
  ∧ uid ∈ l.
Proof.
  intros Hg Hreach Hu Hr Hl Hh Hblank message.
  pose proof (Inv_reachable env w Hg Hreach) as H.
  pose proof (current_room_of_reachable env w uid usr Hg Hreach Hu) as Hc.
  rewrite Hr in Hc. split; [|by eapply inv_current].
  erewrite send_message_run by done.
  unfold store_message, sent_message. fold message. rewrite Hh. mgr_simpl.
  rewrite Hl. cbn [default from_option id].
  rewrite (recipients_ext (manager w)) by done.
  by erewrite recipients_everyone by (by eapply members_connected).
Qed.

(** C6, at the failing input. After the failed re-join of C1 the user's
    current room is set but is not in the store; a SEND_MESSAGE with the
    text "hi" then stores nothing and is sent to nobody, not even the
    sender, and no error is returned. *)
Theorem C6_send_after_rejoin_is_lost :
  reachable env_same_code world_rejoined
  ∧ User.room_id <$> users (manager world_rejoined) !! "u0" = Some (Some "u1")
  ∧ str_strip env_same_code (Py.dict_get say_hi "text" "") = "hi"
  ∧ sent_of (handle_message env_same_code "u0" say_hi world_rejoined) = []
  ∧ sent_of (_handle_send_message env_same_code "u0" say_hi world_rejoined)
    = []
  ∧ room_messages
      (manager
         (world_of
            (_handle_send_message env_same_code "u0" say_hi world_rejoined)))
    = ∅.
Proof.
  split_and!; [apply reachable_run|by_computation..].
Qed.

(** ** C7: UPDATE_PROFILE *)

Lemma assigned_Some field v :
  assigned field = Some v ↔ field = Some v ∧ v ≠ "".
Proof.
  unfold assigned. destruct field as [x|].
  - destruct x as [|a s]; cbn [Py.truthy].
    + split; [done|]. by intros [[= <-] ?].
    + split; [by intros [= <-]|by intros [[= <-] _]].
  - split; [done|by intros [? _]].
Qed.

Lemma name_changed_true old data :
  name_changed old data = true
  ↔ ∃ n, data !! "name" = Some n ∧ n ≠ "" ∧ n ≠ old.
Proof.
  unfold name_changed. destruct (assigned (data !! "name")) as [n|] eqn:Ha.
  - apply assigned_Some in Ha as [Hn Hne]. rewrite negb_true_iff.
    rewrite bool_decide_eq_false. split; [by eauto|].
    intros (n' & Hn' & _ & ?). congruence.
  - split; [done|]. intros (n & Hn & Hne & _).
    assert (assigned (data !! "name") = Some n) by (by apply assigned_Some).
    congruence.
Qed.

(** C7, as amended. UPDATE_PROFILE assigns the name and the language
    that are supplied and not empty, and leaves the other attribute, and
    everything else in the store, as it was; it sends the profile to the
    requester; and it sends the update to the other members of the
    requester's room exactly when a name is supplied, is not empty and
    differs from the old one (so never for a change of language
    only). *)
Theorem C7_update_profile env w uid usr data :
  good_env env → reachable env w → users (manager w) !! uid = Some usr →
  let name := default (User.name usr) (assigned (data !! "name")) in
  let language :=
    default (User.language usr) (assigned (data !! "language")) in
  let r := _handle_update_profile env uid data w in
  let m' := manager (world_of r) in
  (∀ field v, assigned field = Some v ↔ field = Some v ∧ v ≠ "")
  ∧ users m' = <[uid := User.mk uid name language (User.room_id usr)]>
                 (users (manager w))
  ∧ active_connections m' = active_connections (manager w)
  ∧ rooms m' = rooms (manager w)
  ∧ room_codes m' = room_codes (manager w)
  ∧ room_members m' = room_members (manager w)
  ∧ room_messages m' = room_messages (manager w)
  ∧ (name_changed (User.name usr) data = true
     ↔ ∃ n, data !! "name" = Some n ∧ n ≠ "" ∧ n ≠ User.name usr)
  ∧ ∃ t1 t2,
      sent_of r =
      (uid, ProfileUpdated (Member.mk uid name language false t1)) ::
      match User.room_id usr with
      | Some rid =>
          if name_changed (User.name usr) data
          then to_all (UserJoined (Member.mk uid name language false t2) true)
                 (filter (λ u, u ≠ uid)
                    (default [] (room_members (manager w) !! rid)))
          else []
      | None => []
      end.
Proof.
  intros Hg Hreach Hu name language r m'.
  pose proof (Inv_reachable env w Hg Hreach) as H. unfold Inv in H.
  pose proof (current_room_of_reachable env w uid usr Hg Hreach Hu) as Hc.
  pose proof (inv_user_id _ _ _ H uid usr Hu) as Hid.
  destruct (update_profile_run env uid data w usr Hu) as (c & Hrun).
  destruct (profile_mgr_others uid data (manager w))
    as (Hconn & Hrooms & Hcodes & Hmembers & Hmessages & Hothers).
  subst m' r. rewrite Hrun. cbn [world_of sent_of fst snd manager].
  split; [apply assigned_Some|].
  split.
  { apply map_eq. intros u. destruct (decide (u = uid)) as [->|Hne].
    - rewrite lookup_insert_eq. erewrite profile_mgr_lookup by done.
      by rewrite Hid.
    - by rewrite lookup_insert_ne, Hothers. }
  split_and!; try done; [apply name_changed_true|].
  exists (now env (clock_calls w)), (now env (S (clock_calls w))).
  unfold unicast. rewrite bool_decide_eq_true_2.
  2:{ rewrite Hconn. apply (inv_conn _ _ _ H). by rewrite Hu. }
  rewrite Hid, Hc. cbn [app]. f_equal.
  destruct (User.room_id usr) as [rid|] eqn:Hr; [|done].
  destruct (name_changed (User.name usr) data); [|done].
  f_equal. rewrite Hmembers, (recipients_ext (manager w)) by done.
  apply recipients_others.
  - eapply generated_truthy; [done|].
    apply (inv_user_gen _ _ _ H). by rewrite Hu.
  - destruct (room_members (manager w) !! rid) as [l|] eqn:Hl.
    + by eapply members_connected.
    + by intros u ?%elem_of_nil.
Qed.

Lemma C7_update_profile_witness :
  good_env env_same_code ∧ reachable env_same_code world_two_in_room
  ∧ users (manager world_two_in_room) !! "u2"
    = Some (User.mk "u2" "Bo" "en" (Some "u1"))
  ∧ users (manager (world_of (_handle_update_profile env_same_code "u2"
                                (request [("type", "UPDATE_PROFILE");
                                          ("name", "Bob")])
                                world_two_in_room))) !! "u2"
    = Some (User.mk "u2" "Bob" "en" (Some "u1")).
Proof.
  split; [apply demo_uuid4_good|]. split; [apply reachable_run|].
  split; [by_computation|].
  destruct (C7_update_profile env_same_code world_two_in_room "u2"
              (User.mk "u2" "Bo" "en" (Some "u1"))
              (request [("type", "UPDATE_PROFILE"); ("name", "Bob")])
              (demo_uuid4_good _ _ _ _) (reachable_run _ _))
    as (_ & Husers & _); [by_computation|].
  rewrite Husers, lookup_insert_eq. by_computation.
Defined.

(** C7, as stated, fails. A request that supplies the empty string as
    name does not overwrite the name: the user keeps the name Ann. *)
Lemma C7_supplied_empty_name_is_kept :
  empty_name !! "name" = Some ""
  ∧ User.name <$> users (manager world_solo) !! "u0" = Some "Ann"
  ∧ User.name <$>
      users (manager (world_of (_handle_update_profile env_same_code "u0"
                                  empty_name world_solo))) !! "u0"
    = Some "Ann"
  ∧ User.name <$>
      users (manager (world_of (handle_message env_same_code "u0"
                                  empty_name world_solo))) !! "u0"
    ≠ Some "".
Proof.
  split_and!; [by_computation..|]. vm_compute. discriminate.
Qed.

(** ** C8: dispatch *)




Lemma session_kept_refl m : session_kept m m.
Proof. by split. Qed.

Lemma session_kept_leave m uid : session_kept m (leave_mgr uid m).
Proof.
  split; [apply leave_mgr_active_connections|apply leave_mgr_registered].
Qed.

Lemma session_kept_create env w uid data :
  session_kept (manager w) (create_mgr env w uid data).
Proof.
  unfold create_mgr, rename_user. split; mgr_simpl.
  - apply leave_mgr_active_connections.
  - intros u. by rewrite !lookup_alter_is_Some, leave_mgr_registered.
Qed.

Lemma session_kept_join0 uid data rid m :
  session_kept m (join_mgr0 uid data rid m).
Proof.
  unfold join_mgr0, rename_user. split; mgr_simpl.
  - apply leave_mgr_active_connections.
  - intros u. by rewrite !lookup_alter_is_Some, leave_mgr_registered.
Qed.

Lemma session_kept_join uid data rid m :
  session_kept m (join_mgr uid data rid m).
Proof.
  split; [|apply join_mgr_registered].
  unfold join_mgr. destruct (session_kept_join0 uid data rid m) as [<- _].
  by repeat case_match.
Qed.

Lemma session_kept_profile uid data m :
  session_kept m (profile_mgr uid data m).
Proof.
  unfold profile_mgr. split; repeat case_match; mgr_simpl; try done;
    intros u; by rewrite !lookup_alter_is_Some.
Qed.

Lemma session_kept_handle_message env uid data w :
  session_kept (manager w)
    (manager (world_of (handle_message env uid data w))).
Proof.
  apply (handle_message_world env uid data w
           (λ w', session_kept (manager w) (manager w'))).
  - apply session_kept_refl.
  - destruct (users (manager w) !! uid) as [usr|] eqn:Hu.
    + erewrite create_room_run by done. apply session_kept_create.
    + rewrite create_room_unregistered by done. apply session_kept_refl.
  - destruct (users (manager w) !! uid) as [usr|] eqn:Hu;
      [|rewrite join_room_unregistered by done; apply session_kept_refl].
    destruct (join_target env (manager w) data) as [[rid room]|] eqn:Htg;
      [|erewrite join_room_invalid by done; apply session_kept_refl].
    destruct (room_members (join_mgr0 uid data rid (manager w)) !! rid)
      as [l|] eqn:Hl.
    + destruct (join_room_run env uid data w usr rid room l Hu Htg Hl)
        as (members & member & c & ->). apply session_kept_join.
    + erewrite join_room_raises by done. apply session_kept_join0.
  - rewrite leave_room_run. apply session_kept_leave.
  - destruct (users (manager w) !! uid) as [usr|] eqn:Hu;
      [|rewrite send_message_unregistered by done; apply session_kept_refl].
    destruct (current_room (manager w) uid) as [rid0|] eqn:Hc;
      [|erewrite send_message_not_in_room by done; apply session_kept_refl].
    destruct (decide (str_strip env (Py.dict_get data "text" "") = ""));
      [erewrite send_message_blank by done; apply session_kept_refl|].
    erewrite send_message_run by done. cbn [world_of fst manager].
    unfold store_message. case_match; by split.
  - destruct (users (manager w) !! uid) as [usr|] eqn:Hu;
      [|rewrite update_profile_unregistered by done;
        apply session_kept_refl].
    destruct (update_profile_run env uid data w usr Hu) as (c & ->).
    apply session_kept_profile.
  - destruct (get_room_info_run env uid w) as (c & o & ->).
    apply session_kept_refl.
Qed.




(** ** C9: room codes on JOIN_ROOM *)

Lemma is_lower_spec a :
  Py.is_lower a = true ↔ 97 ≤ nat_of_ascii a ≤ 122.
Proof.
  unfold Py.is_lower. by rewrite andb_true_iff, !Nat.leb_le.
Qed.

Lemma is_lower_false a :
  ¬ (97 ≤ nat_of_ascii a ≤ 122) → Py.is_lower a = false.
Proof.
  intros Hn. destruct (Py.is_lower a) eqn:E; [|done].
  by apply is_lower_spec in E.
Qed.

Lemma upper_char_same_letter a b :
  same_letter a b = true → Py.upper_char a = Py.upper_char b.
Proof.
  unfold same_letter, Py.upper_char.
  rewrite !orb_true_iff, !andb_true_iff, !bool_decide_eq_true,
    !is_lower_spec.
  intros [[->|[Ha Hb]]|[Hb Ha]]; [done|..].
  - rewrite (proj2 (is_lower_spec a) Ha), (is_lower_false b) by lia.
    by rewrite <- Hb, ascii_nat_embedding.
  - rewrite (proj2 (is_lower_spec b) Hb), (is_lower_false a) by lia.
    by rewrite <- Ha, ascii_nat_embedding.
Qed.

Lemma upper_same_ignoring_case s1 s2 :
  same_ignoring_case s1 s2 = true → Py.ascii_upper s1 = Py.ascii_upper s2.
Proof.
  revert s2. induction s1 as [|a s1 IH]; intros [|b s2]; cbn; try done.
  rewrite andb_true_iff. intros [Hab Hs].
  by rewrite (upper_char_same_letter a b Hab), (IH s2 Hs).
Qed.

Lemma upper_char_of_code_char a :
  Py.is_upper a || Py.is_digit a = true → Py.upper_char a = a.
Proof.
  unfold Py.upper_char, Py.is_upper, Py.is_digit.
  rewrite orb_true_iff, !andb_true_iff, !Nat.leb_le. intros Hcases.
  by rewrite is_lower_false by lia.
Qed.

Lemma upper_of_code s : code_ok s = true → Py.ascii_upper s = s.
Proof.
  unfold code_ok. rewrite andb_true_iff. intros [_ Hall]. revert Hall.
  induction s as [|a s IH]; cbn; [done|].
  rewrite andb_true_iff. intros [Ha Hs].
  by rewrite upper_char_of_code_char, IH.
Qed.

Lemma dict_get_insert (data : Request) k v dflt :
  Py.dict_get (<[k := v]> data) k dflt = v.
Proof. unfold Py.dict_get. by rewrite lookup_insert_eq. Qed.

Lemma join_room_code_only env uid (data1 data2 : Request) :
  str_upper env (Py.dict_get data1 "roomCode" "")
  = str_upper env (Py.dict_get data2 "roomCode" "") →
  Py.dict_get data1 "userName" "Guest" = Py.dict_get data2 "userName" "Guest" →
  Py.dict_get data1 "language" "en" = Py.dict_get data2 "language" "en" →
  _handle_join_room env uid data1 = _handle_join_room env uid data2.
Proof.
  intros Hcode Hname Hlang. unfold _handle_join_room.
  by rewrite Hcode, Hname, Hlang.
Qed.

Lemma join_target_None env w data :
  good_env env → reachable env w →
  join_target env (manager w) data = None
  ↔ ¬ ∃ rid room,
        room_codes (manager w) !! str_upper env (Py.dict_get data "roomCode" "")
        = Some rid
        ∧ rooms (manager w) !! rid = Some room.
Proof.
  intros Hg Hreach. pose proof (Inv_reachable env w Hg Hreach) as H.
  unfold join_target.
  destruct (room_codes (manager w) !! _) as [rid|] eqn:Hk; cbn.
  - destruct (inv_codes _ _ _ H _ rid Hk) as (r & Hr & _).
    erewrite generated_truthy; [|done|].
    2:{ apply (inv_room_gen _ _ _ H). by rewrite Hr. }
    rewrite Hr. cbn. split; [done|]. intros Hno. destruct Hno. eauto.
  - split; [|done]. by intros _ (rid & room & ? & _).
Qed.

Lemma same_letter_ascii a b :
  same_letter a b = true → (nat_of_ascii a <? 128) = true →
  (nat_of_ascii b <? 128) = true.
Proof.
  unfold same_letter.
  rewrite !orb_true_iff, !andb_true_iff, !bool_decide_eq_true,
    !is_lower_spec, !Nat.ltb_lt.
  intros [[->|[Ha Hb]]|[Hb Ha]] Hlt; [done|lia..].
Qed.

Lemma same_ignoring_case_ascii s1 s2 :
  same_ignoring_case s1 s2 = true → Py.is_ascii s1 = true →
  Py.is_ascii s2 = true.
Proof.
  unfold Py.is_ascii. revert s2.
  induction s1 as [|a s1 IH]; intros [|b s2]; cbn; try done.
  rewrite !andb_true_iff. intros [Hab Hs] [Ha Hs1].
  split; [by eapply same_letter_ascii|by apply IH].
Qed.

Lemma same_ignoring_case_sym s1 s2 :
  same_ignoring_case s1 s2 = same_ignoring_case s2 s1.
Proof.
  revert s2. induction s1 as [|a s1 IH]; intros [|b s2]; cbn; try done.
  rewrite IH. f_equal. unfold same_letter.
  rewrite (bool_decide_ext (a = b) (b = a)) by done.
  by rewrite <- !orb_assoc, (orb_comm (Py.is_lower a && _)).
Qed.

Lemma code_is_ascii s : code_ok s = true → Py.is_ascii s = true.
Proof.
  unfold code_ok, Py.is_ascii. rewrite andb_true_iff. intros [_ Hall].
  revert Hall. induction s as [|a s IH]; cbn [forallb list_ascii_of_string];
    [done|].
  rewrite !andb_true_iff. intros [Ha Hs]. split; [|by apply IH].
  revert Ha. unfold Py.is_upper, Py.is_digit.
  rewrite orb_true_iff, !andb_true_iff, !Nat.leb_le, Nat.ltb_lt. lia.
Qed.

(** On ASCII codes that differ only in letter case [str.upper] agrees. *)
Lemma upper_ignores_case env c1 c2 :
  ascii_builtins env → Py.is_ascii c1 = true →
  same_ignoring_case c1 c2 = true → str_upper env c1 = str_upper env c2.
Proof.
  intros Hb H1 Hsame.
  rewrite !(upper_ascii _ Hb) by eauto using same_ignoring_case_ascii.
  by apply upper_same_ignoring_case.
Qed.

Lemma ascii_builtins_demo uuid4 draw now :
  ascii_builtins (mkEnv uuid4 draw now Py.ascii_upper Py.ascii_strip).
Proof. by split. Qed.

(** C9. JOIN_ROOM looks the code up in the form [str.upper] gives it:
    two requests whose codes have the same upper-case form do the same,
    in particular two ASCII codes that differ only in letter case, and
    a live room whose code resolves to it is found under that code in
    any letter case; every generated code, hence every code in the
    store, is six upper-case letters or digits; and a registered user
    gets INVALID_ROOM_CODE, the store being left as it was, exactly
    when the upper-case form of the code resolves to no room of the
    room store. *)
Theorem C9_join_room_code env w uid usr data :
  good_env env → ascii_builtins env → reachable env w →
  users (manager w) !! uid = Some usr →
  (∀ c1 c2,
     str_upper env c1 = str_upper env c2 →
     _handle_join_room env uid (<["roomCode" := c1]> data) w
     = _handle_join_room env uid (<["roomCode" := c2]> data) w)
  ∧ (∀ c1 c2,
       Py.is_ascii c1 = true → same_ignoring_case c1 c2 = true →
       str_upper env c1 = str_upper env c2
       ∧ _handle_join_room env uid (<["roomCode" := c1]> data) w
         = _handle_join_room env uid (<["roomCode" := c2]> data) w)
  ∧ (∀ rid room c,
       rooms (manager w) !! rid = Some room →
       room_codes (manager w) !! Room.code room = Some rid →
       same_ignoring_case c (Room.code room) = true →
       join_target env (manager w) (<["roomCode" := c]> data)
       = Some (rid, room))
  ∧ (∀ draw from, code_ok (generate_room_code draw from) = true)
  ∧ (∀ rid room,
       rooms (manager w) !! rid = Some room →
       code_ok (Room.code room) = true)
  ∧ (∀ k rid, room_codes (manager w) !! k = Some rid → code_ok k = true)
  ∧ let unresolved :=
      ¬ ∃ rid room,
          room_codes (manager w)
            !! str_upper env (Py.dict_get data "roomCode" "")
          = Some rid
          ∧ rooms (manager w) !! rid = Some room in
    let invalid := (uid, ErrorResponse "INVALID_ROOM_CODE" "Room not found") in
    (unresolved →
     _handle_join_room env uid data w = (w, [invalid], Returned tt))
    ∧ (invalid ∈ sent_of (_handle_join_room env uid data w) → unresolved).
Proof.
  intros Hg Hb Hreach Hu. pose proof (Inv_reachable env w Hg Hreach) as H.
  unfold Inv in H.
  assert (∀ c1 c2,
            str_upper env c1 = str_upper env c2 →
            _handle_join_room env uid (<["roomCode" := c1]> data) w
            = _handle_join_room env uid (<["roomCode" := c2]> data) w)
    as Hsame_upper.
  { intros c1 c2 Hup.
    apply (f_equal (λ h : M unit, h w)). apply join_room_code_only.
    - by rewrite !dict_get_insert.
    - unfold Py.dict_get. by rewrite !lookup_insert_ne.
    - unfold Py.dict_get. by rewrite !lookup_insert_ne. }
  split_and!.
  - exact Hsame_upper.
  - intros c1 c2 H1 Hsame.
    pose proof (upper_ignores_case env c1 c2 Hb H1 Hsame) as Hup.
    split; [exact Hup|by apply Hsame_upper].
  - intros rid room c Hroom Hcode Hsame. unfold join_target.
    destruct (inv_room _ _ _ H rid room Hroom) as [_ Hok].
    rewrite same_ignoring_case_sym in Hsame.
    rewrite dict_get_insert.
    rewrite <- (upper_ignores_case env _ _ Hb (code_is_ascii _ Hok) Hsame).
    rewrite (upper_ascii _ Hb) by by apply code_is_ascii.
    rewrite (upper_of_code _ Hok), Hcode. cbn.
    erewrite generated_truthy; [|done|].
    2:{ apply (inv_room_gen _ _ _ H). by rewrite Hroom. }
    by rewrite Hroom.
  - apply generate_room_code_ok.
  - intros rid room Hroom. by destruct (inv_room _ _ _ H rid room Hroom).
  - intros k rid Hk. destruct (inv_codes _ _ _ H k rid Hk) as (r & Hr & <-).
    by destruct (inv_room _ _ _ H rid r Hr).
  - intros unresolved invalid. split.
    + intros Hun. apply (join_target_None env w data Hg Hreach) in Hun.
      erewrite join_room_invalid by done. unfold unicast.
      rewrite bool_decide_eq_true_2; [done|].
      apply (inv_conn _ _ _ H). by rewrite Hu.
    + intros Hin. apply (join_target_None env w data Hg Hreach).
      destruct (join_target env (manager w) data) as [[rid room]|] eqn:Ht;
        [exfalso|done].
      destruct (room_members (join_mgr0 uid data rid (manager w)) !! rid)
        as [l|] eqn:Hl.
      * destruct (join_room_run env uid data w usr rid room l Hu Ht Hl)
          as (members & member & c & Hrun).
        rewrite Hrun in Hin. cbn [sent_of fst snd] in Hin.
        apply elem_of_app in Hin as [Hin|Hin];
          [by apply leave_sends_user_left in Hin as [? ?]|].
        apply elem_of_app in Hin as [Hin|Hin].
        -- unfold unicast in Hin. case_bool_decide;
             [by apply list_elem_of_singleton in Hin
             |by apply elem_of_nil in Hin].
        -- unfold to_all in Hin.
           by apply list_elem_of_fmap in Hin as (? & ? & _).
      * erewrite join_room_raises in Hin by done.
        cbn [sent_of fst snd] in Hin.
        by apply leave_sends_user_left in Hin as [? ?].
Qed.

Lemma C9_join_room_code_witness :
  good_env env_same_code ∧ ascii_builtins env_same_code
  ∧ reachable env_same_code world_second_connected
  ∧ users (manager world_second_connected) !! "u2"
    = Some (User.mk "u2" "Anonymous" "en" None)
  ∧ Py.is_ascii "aaAAaa" = true
  ∧ same_ignoring_case "aaAAaa" "AAAAAA" = true
  ∧ _handle_join_room env_same_code "u2"
      (<["roomCode" := "aaAAaa"]> join_own_room) world_second_connected
    = _handle_join_room env_same_code "u2"
        (<["roomCode" := "AAAAAA"]> join_own_room) world_second_connected
  ∧ outcome_of (_handle_join_room env_same_code "u2"
                  (<["roomCode" := "aaAAaa"]> join_own_room)
                  world_second_connected) = Returned tt
  ∧ room_members
      (manager (world_of (_handle_join_room env_same_code "u2"
                            (<["roomCode" := "aaAAaa"]> join_own_room)
                            world_second_connected))) !! "u1"
    = Some ["u0"; "u2"].
Proof.
  split; [apply demo_uuid4_good|]. split; [apply ascii_builtins_demo|].
  split; [apply (reachable_run _ second_connected)|].
  split; [by_computation|]. split; [by_computation|].
  split; [by_computation|].
  split; [|split; by_computation].
  destruct (C9_join_room_code env_same_code world_second_connected "u2"
              (User.mk "u2" "Anonymous" "en" None) join_own_room
              (demo_uuid4_good _ _ _ _) (ascii_builtins_demo _ _ _)
              (reachable_run _ second_connected))
    as (_ & Hcase & _); [by_computation|].
  apply Hcase; by_computation.
Defined.

(** ** C10: defaults of CREATE_ROOM and JOIN_ROOM *)

Lemma create_room_fields_only env uid (data1 data2 : Request) :
  Py.dict_get data1 "roomName" "New Room"
  = Py.dict_get data2 "roomName" "New Room" →
  Py.dict_get data1 "hostName" "Host" = Py.dict_get data2 "hostName" "Host" →
  Py.dict_get data1 "language" "en" = Py.dict_get data2 "language" "en" →
  _handle_create_room env uid data1 = _handle_create_room env uid data2.
Proof.
  intros Hroom Hhost Hlang. unfold _handle_create_room.
  by rewrite Hroom, Hhost, Hlang.
Qed.

Lemma dict_get_default (data : Request) k dflt :
  data !! k = None → Py.dict_get (<[k := dflt]> data) k dflt
                     = Py.dict_get data k dflt.
Proof. intros Hk. unfold Py.dict_get. by rewrite lookup_insert_eq, Hk. Qed.

Lemma dict_get_other (data : Request) k k' v dflt :
  k ≠ k' → Py.dict_get (<[k := v]> data) k' dflt = Py.dict_get data k' dflt.
Proof. intros Hk. unfold Py.dict_get. by rewrite lookup_insert_ne. Qed.

Lemma handle_message_same_type env uid (data1 data2 : Request) :
  data1 !! "type" = data2 !! "type" →
  _handle_create_room env uid data1 = _handle_create_room env uid data2 →
  _handle_join_room env uid data1 = _handle_join_room env uid data2 →
  is_type (data1 !! "type") CREATE_ROOM || is_type (data1 !! "type") JOIN_ROOM
  = true →
  handle_message env uid data1 = handle_message env uid data2.
Proof.
  intros Ht Hc Hj Hty. unfold handle_message. rewrite <- Ht, Hc, Hj.
  destruct (is_type (data1 !! "type") CREATE_ROOM); [done|].
  by destruct (is_type (data1 !! "type") JOIN_ROOM).
Qed.

Lemma unicast_registered env n m m' uid msg :
  Consistent env n m → is_Some (users m !! uid) →
  active_connections m' = active_connections m →
  unicast m' uid msg = [(uid, msg)].
Proof.
  intros HI Hu Hc. unfold unicast. rewrite Hc.
  rewrite bool_decide_eq_true_2; [done|]. by apply (inv_conn _ _ _ HI).
Qed.

Lemma create_mgr_active_connections env w uid data :
  active_connections (create_mgr env w uid data)
  = active_connections (manager w).
Proof.
  unfold create_mgr, rename_user. mgr_simpl.
  apply leave_mgr_active_connections.
Qed.

Lemma leave_mgr_other_user m uid u :
  u ≠ uid → users (leave_mgr uid m) !! u = users m !! u.
Proof.
  intros Hne. rewrite leave_mgr_users.
  destruct (current_room m uid); [|done]. by rewrite lookup_alter_ne.
Qed.

Lemma join_mgr_user env n m uid usr data rid :
  good_env env → Consistent env n m → users m !! uid = Some usr →
  users (join_mgr uid data rid m) !! uid
  = Some (User.mk uid (Py.dict_get data "userName" "Guest")
            (Py.dict_get data "language" "en") (Some rid))
  ∧ ∀ u, u ≠ uid → users (join_mgr uid data rid m) !! u = users m !! u.
Proof.
  intros Hgood HI Hu.
  assert (users (join_mgr uid data rid m) = users (join_mgr0 uid data rid m))
    as ->.
  { unfold join_mgr. repeat case_match; reflexivity. }
  unfold join_mgr0. mgr_simpl. split.
  - rewrite lookup_alter_eq.
    rewrite (rename_user_lookup _ _ _ _ _
               (leave_mgr_user_room _ _ _ _ _ Hgood HI Hu)).
    cbn. by rewrite (inv_user_id _ _ _ HI _ _ Hu).
  - intros u Hne. unfold rename_user. mgr_simpl.
    rewrite !lookup_alter_ne by done. by apply leave_mgr_other_user.
Qed.

Lemma field_value_dict_get (data : Request) k dflt :
  field_value data k dflt (Py.dict_get data k dflt).
Proof. unfold field_value, Py.dict_get. by destruct (data !! k). Qed.

(** C10, as amended. In CREATE_ROOM and JOIN_ROOM a field that is
    missing from the request is replaced by its default (roomName by
    "New Room", hostName by "Host", userName by "Guest", language by
    "en") and the request is then handled exactly as one that supplies
    that value; a field that is present is used as it is, the empty
    string included: after CREATE_ROOM by a registered user the room
    has the room name, and the user the name and language, that the
    request supplies, or the defaults where it supplies none, and
    ROOM_CREATED carries them; after a JOIN_ROOM that resolves to a
    room the user is not alone in, the user has the name and language
    the request supplies, or the defaults. *)
Theorem C10_missing_fields_default env uid (data : Request) :
  (data !! "roomName" = None →
   _handle_create_room env uid data
   = _handle_create_room env uid (<["roomName" := "New Room"]> data))
  ∧ (data !! "hostName" = None →
     _handle_create_room env uid data
     = _handle_create_room env uid (<["hostName" := "Host"]> data))
  ∧ (data !! "language" = None →
     _handle_create_room env uid data
     = _handle_create_room env uid (<["language" := "en"]> data)
     ∧ _handle_join_room env uid data
       = _handle_join_room env uid (<["language" := "en"]> data))
  ∧ (data !! "userName" = None →
     _handle_join_room env uid data
     = _handle_join_room env uid (<["userName" := "Guest"]> data))
  ∧ (∀ k dflt,
       (k, dflt) ∈ [("roomName", "New Room"); ("hostName", "Host");
                    ("userName", "Guest"); ("language", "en")] →
       data !! k = None →
       is_type (data !! "type") CREATE_ROOM
       || is_type (data !! "type") JOIN_ROOM = true →
       handle_message env uid data
       = handle_message env uid (<[k := dflt]> data))
  ∧ (∀ w usr,
       good_env env → reachable env w →
       users (manager w) !! uid = Some usr →
       let r := _handle_create_room env uid data w in
       let rid := uuid4 env (uuid_calls w) in
       ∃ user room t,
         users (manager (world_of r)) !! uid = Some user
         ∧ rooms (manager (world_of r)) !! rid = Some room
         ∧ User.room_id user = Some rid
         ∧ field_value data "hostName" "Host" (User.name user)
         ∧ field_value data "language" "en" (User.language user)
         ∧ field_value data "roomName" "New Room" (Room.name room)
         ∧ (uid, RoomCreated rid (Room.code room) room
                   [Member.mk uid (User.name user) (User.language user)
                      true t])
             ∈ sent_of r)
  ∧ (∀ w usr rid room l,
       good_env env → reachable env w →
       users (manager w) !! uid = Some usr →
       join_target env (manager w) data = Some (rid, room) →
       room_members (manager w) !! rid = Some l → l ≠ [uid] →
       let r := _handle_join_room env uid data w in
       ∃ user,
         users (manager (world_of r)) !! uid = Some user
         ∧ User.room_id user = Some rid
         ∧ field_value data "userName" "Guest" (User.name user)
         ∧ field_value data "language" "en" (User.language user)).
Proof.
  assert (Hcreate : ∀ k dflt,
            data !! k = None →
            (k = "roomName" → dflt = "New Room") →
            (k = "hostName" → dflt = "Host") →
            (k = "language" → dflt = "en") →
            _handle_create_room env uid data
            = _handle_create_room env uid (<[k := dflt]> data)).
  { intros k dflt Hk Hr Hh Hl. apply create_room_fields_only.
    - destruct (decide (k = "roomName")) as [->|];
        [rewrite (Hr eq_refl), dict_get_default|rewrite dict_get_other]; done.
    - destruct (decide (k = "hostName")) as [->|];
        [rewrite (Hh eq_refl), dict_get_default|rewrite dict_get_other]; done.
    - destruct (decide (k = "language")) as [->|];
        [rewrite (Hl eq_refl), dict_get_default|rewrite dict_get_other]; done. }
  assert (Hjoin : ∀ k dflt,
            data !! k = None → k ≠ "roomCode" →
            (k = "userName" → dflt = "Guest") →
            (k = "language" → dflt = "en") →
            _handle_join_room env uid data
            = _handle_join_room env uid (<[k := dflt]> data)).
  { intros k dflt Hk Hc Hn Hl. apply join_room_code_only.
    - by rewrite dict_get_other.
    - destruct (decide (k = "userName")) as [->|];
        [rewrite (Hn eq_refl), dict_get_default|rewrite dict_get_other]; done.
    - destruct (decide (k = "language")) as [->|];
        [rewrite (Hl eq_refl), dict_get_default|rewrite dict_get_other]; done. }
  split_and!.
  - intros Hk. by apply Hcreate.
  - intros Hk. by apply Hcreate.
  - intros Hk. split; [by apply Hcreate|by apply Hjoin].
  - intros Hk. by apply Hjoin.
  - intros k dflt Hin Hk Hty.
    repeat (apply elem_of_cons in Hin as [[= -> ->]|Hin];
            [apply handle_message_same_type;
               [by rewrite lookup_insert_ne|by apply Hcreate
               |by apply Hjoin|done]|]).
    by apply elem_of_nil in Hin.
  - intros w usr Hgood Hreach Hu. cbn zeta.
    pose proof (Inv_reachable _ _ Hgood Hreach) as HI.
    rewrite (create_room_run _ _ _ _ _ Hu).
    unfold world_of, sent_of. cbn [fst snd manager].
    assert (users (create_mgr env w uid data) !! uid
            = Some (User.mk uid (Py.dict_get data "hostName" "Host")
                      (Py.dict_get data "language" "en")
                      (Some (uuid4 env (uuid_calls w))))) as Huser.
    { unfold create_mgr, created_room. mgr_simpl. cbn [Room.id].
      rewrite lookup_alter_eq.
      rewrite (rename_user_lookup _ _ _ _ _
                 (leave_mgr_user_room _ _ _ _ _ Hgood HI Hu)).
      cbn. by rewrite (inv_user_id _ _ _ HI _ _ Hu). }
    eexists _, (created_room env w uid data), _.
    split_and!; [exact Huser| |reflexivity|..].
    + unfold create_mgr, created_room. mgr_simpl. cbn [Room.id].
      apply lookup_insert_eq.
    + apply field_value_dict_get.
    + apply field_value_dict_get.
    + apply field_value_dict_get.
    + unfold create_sends. rewrite Huser. apply elem_of_app. right.
      erewrite unicast_registered;
        [|exact HI|by eauto|apply create_mgr_active_connections].
      apply list_elem_of_singleton. reflexivity.
  - intros w usr rid room l Hgood Hreach Hu Ht Hl Hne. cbn zeta.
    pose proof (Inv_reachable _ _ Hgood Hreach) as HI.
    destruct (leave_mgr_keeps_room env _ _ uid rid l Hgood HI Hl Hne)
      as ([l1 Hl1] & _ & _).
    assert (room_members (join_mgr0 uid data rid (manager w)) !! rid
            = Some l1) as Hl0 by done.
    destruct (join_room_run env uid data w usr rid room l1 Hu Ht Hl0)
      as (members & member & c & ->).
    unfold world_of. cbn [fst manager].
    destruct (join_mgr_user _ _ _ _ _ data rid Hgood HI Hu) as [Huser _].
    eexists. split_and!; [exact Huser|reflexivity|..];
      apply field_value_dict_get.
Qed.

Lemma C10_missing_fields_default_witness :
  create_trip !! "hostName" = Some "Ann"
  ∧ create_trip !! "language" = None
  ∧ users (manager world_connected) !! "u0"
    = Some (User.mk "u0" "Anonymous" "en" None)
  ∧ users (manager (world_of (_handle_create_room env_same_code "u0"
                                create_trip world_connected))) !! "u0"
    = Some (User.mk "u0" "Ann" "en" (Some "u1"))
  ∧ ∃ user room,
      users (manager (world_of (_handle_create_room env_same_code "u0"
                                  create_trip world_connected))) !! "u0"
      = Some user
      ∧ rooms (manager (world_of (_handle_create_room env_same_code "u0"
                                    create_trip world_connected))) !! "u1"
        = Some room
      ∧ field_value create_trip "hostName" "Host" (User.name user)
      ∧ field_value create_trip "roomName" "New Room" (Room.name room).
Proof.
  assert (users (manager world_connected) !! "u0"
          = Some (User.mk "u0" "Anonymous" "en" None)) as Hu
    by by_computation.
  split; [by_computation|]. split; [by_computation|].
  split; [exact Hu|]. split; [by_computation|].
  destruct (C10_missing_fields_default env_same_code "u0" create_trip)
    as (_ & _ & _ & _ & _ & Hcreate & _).
  destruct (Hcreate world_connected _ (demo_uuid4_good _ _ _ _)
              (reachable_run _ [Connect 1]) Hu)
    as (user & room & t & H1 & H2 & _ & H3 & _ & H4 & _).
  exists user, room. exact (conj H1 (conj H2 (conj H3 H4))).
Defined.

(** C10, as stated, fails. A CREATE_ROOM whose hostName is the empty
    string is not given the default: the user is named by the empty
    string, not Host, so the request is not handled as one that
    supplies "Host". *)
Lemma C10_empty_host_name_is_kept :
  create_blank_host !! "hostName" = Some ""
  ∧ User.name <$>
      users (manager (world_of (handle_message env_same_code "u0"
                                  create_blank_host world_connected)))
      !! "u0"
    = Some ""
  ∧ User.name <$>
      users (manager (world_of (handle_message env_same_code "u0"
                                  (<["hostName" := "Host"]> create_blank_host)
                                  world_connected)))
      !! "u0"
    = Some "Host"
  ∧ handle_message env_same_code "u0" create_blank_host world_connected
    ≠ handle_message env_same_code "u0"
        (<["hostName" := "Host"]> create_blank_host) world_connected.
Proof.
  assert (User.name <$>
      users (manager (world_of (handle_message env_same_code "u0"
                                  create_blank_host world_connected)))
      !! "u0" = Some "") as H1 by by_computation.
  assert (User.name <$>
      users (manager (world_of (handle_message env_same_code "u0"
                                  (<["hostName" := "Host"]> create_blank_host)
                                  world_connected)))
      !! "u0" = Some "Host") as H2 by by_computation.
  split_and!; [by_computation|exact H1|exact H2|].
  intros Heq. rewrite Heq in H1. congruence.
Qed.

(** ** The end-to-end scenarios, run on the model *)

(** CREATE_ROOM answers ROOM_CREATED with a six-character code and the
    creator as only member, flagged as host. *)
Example scenario_create :
  (run env_same_code solo_room init_world).2 =
  [("u0", Connected "u0");
   ("u0", RoomCreated "u1" "AAAAAA" (Room.mk "u1" "AAAAAA" "Trip" "u0" 0%Z)
            [Member.mk "u0" "Ann" "en" true 1%Z])].
Proof. by_computation. Qed.

(** A second session joins with the code in lower case: it receives
    ROOM_JOINED with two members and no messages, the host receives
    USER_JOINED. *)
Example scenario_join :
  sent_of (handle_message env_same_code "u2"
             (request [("type", "JOIN_ROOM"); ("roomCode", "aaaaaa");
                       ("userName", "Bo")])
             (run env_same_code (solo_room ++ [Connect 2]) init_world).1) =
  [("u2", RoomJoined (Room.mk "u1" "AAAAAA" "Trip" "u0" 0%Z)
            [Member.mk "u0" "Ann" "en" true 2%Z;
             Member.mk "u2" "Bo" "en" false 3%Z] []);
   ("u0", UserJoined (Member.mk "u2" "Bo" "en" false 4%Z) false)].
Proof. by_computation. Qed.

(** A message of the second member reaches both members. *)
Example scenario_message :
  sent_of (handle_message env_same_code "u2" say_hi world_two_in_room) =
  to_all (NewMessage (Message.mk "u3" "u1" "u2" "Bo" "hi" "en" 5%Z))
    ["u0"; "u2"].
Proof. by_computation. Qed.

(** The host disconnects: the other member is told and the room stays;
    the other member disconnects: the room is gone and its code no
    longer resolves. *)
Example scenario_disconnect :
  let r1 := disconnect "u0" world_two_in_room in
  let r2 := disconnect "u2" (world_of r1) in
  sent_of r1 = [("u2", UserLeft "u0" "Ann")]
  ∧ room_members (manager (world_of r1)) !! "u1" = Some ["u2"]
  ∧ rooms (manager (world_of r2)) !! "u1" = None
  ∧ room_codes (manager (world_of r2)) !! "AAAAAA" = None
  ∧ users (manager (world_of r2)) = ∅.
Proof. cbn zeta. split_and!; by_computation. Qed.

(** * Further properties of the server, its endpoints and the
      vocabulary script *)

(** ** Leaving twice *)

Lemma current_room_after_leave m uid : current_room (leave_mgr uid m) uid = None.
Proof.
  unfold current_room at 1. rewrite leave_mgr_users.
  destruct (current_room m uid) as [rid|] eqn:Hc.
  - apply current_room_inv in Hc as (usr & Hu & _).
    rewrite lookup_alter_eq, Hu. reflexivity.
  - exact Hc.
Qed.

Lemma leave_mgr_idemp m uid : leave_mgr uid (leave_mgr uid m) = leave_mgr uid m.
Proof. apply leave_mgr_noop, current_room_after_leave. Qed.

Lemma leave_room_twice uid w :
  _leave_room uid (world_of (_leave_room uid w))
  = (world_of (_leave_room uid w), [], Returned tt).
Proof.
  rewrite (leave_room_run uid w). unfold world_of. cbn [fst].
  rewrite leave_room_run. cbn [manager set_manager].
  rewrite leave_mgr_idemp, leave_sends_noop by apply current_room_after_leave.
  reflexivity.
Qed.

Lemma disconnect_unregisters uid w :
  users (manager (world_of (disconnect uid w))) !! uid = None.
Proof.
  destruct (users (manager w) !! uid) as [usr|] eqn:Hu.
  - rewrite (disconnect_run _ _ _ Hu). unfold world_of. cbn.
    apply lookup_delete_eq.
  - by rewrite (disconnect_unregistered _ _ Hu).
Qed.

(** X20. Leaving and disconnecting are idempotent, in any store: a
    second [_leave_room], or a second [disconnect], of the same user
    changes nothing and sends nothing. *)
Theorem X20_leave_and_disconnect_idempotent uid w :
  _leave_room uid (world_of (_leave_room uid w))
  = (world_of (_leave_room uid w), [], Returned tt)
  ∧ disconnect uid (world_of (disconnect uid w))
    = (world_of (disconnect uid w), [], Returned tt).
Proof.
  split; [apply leave_room_twice|].
  apply disconnect_unregistered, disconnect_unregisters.
Qed.

Lemma recipients_elem_of m l ex u :
  u ∈ recipients m l ex ↔
  u ∈ l ∧ excluded ex u = false ∧ is_Some (active_connections m !! u).
Proof. unfold recipients. rewrite list_elem_of_filter. tauto. Qed.

Lemma to_all_elem_of msg l (s : Send) :
  s ∈ to_all msg l ↔ s.2 = msg ∧ s.1 ∈ l.
Proof.
  unfold to_all. rewrite list_elem_of_fmap. split.
  - intros (u & -> & Hu). done.
  - intros [Hm Hu]. exists s.1. split; [|done]. destruct s; cbn in *.
    by subst.
Qed.

Lemma remove_member_active_connections uid rid m :
  active_connections (remove_member uid rid m) = active_connections m.
Proof. unfold remove_member. repeat case_match; reflexivity. Qed.

(** Who [_leave_room] tells: members of the room that was left, other
    than the leaver, with a registered socket. *)
Lemma leave_sends_elem_of env n m uid s :
  Consistent env n m → s ∈ leave_sends uid m →
  s.1 ≠ uid ∧ is_Some (active_connections m !! s.1)
  ∧ ∃ rid l, current_room m uid = Some rid
             ∧ room_members m !! rid = Some l ∧ s.1 ∈ l.
Proof.
  intros HI. unfold leave_sends.
  destruct (current_room m uid) as [rid|] eqn:Hc; [|by intros ?%elem_of_nil].
  destruct (users m !! uid) as [usr|] eqn:Hu; [|by intros ?%elem_of_nil].
  destruct (rooms m !! rid); [|by intros ?%elem_of_nil].
  rewrite to_all_elem_of, recipients_elem_of.
  rewrite remove_member_active_connections.
  intros (_ & Hin & _ & Hconn). unfold remove_member in Hin.
  destruct (room_members m !! rid) as [l|] eqn:Hl;
    [|rewrite Hl in Hin; by apply elem_of_nil in Hin].
  pose proof (inv_members _ _ _ HI _ _ Hl) as (_ & Hnd & _).
  case_bool_decide as Hmem; mgr_simpl.
  - rewrite lookup_insert_eq in Hin. cbn in Hin.
    apply list_remove_elem_of in Hin as [Hin Hne]; [|done].
    split_and!; [done|done|]. by exists rid, l.
  - rewrite Hl in Hin. cbn in Hin.
    split_and!; [by intros <-|done|]. by exists rid, l.
Qed.

(** ** Sessions: [connect] and [disconnect] *)

(** X1. [connect] registers the socket under an identifier that is not
    empty and was registered to no one before, creates the user with
    the default profile (Anonymous, en, no room), leaves the rooms and
    every other user as they are, sends CONNECTED to the new user
    alone, and returns the identifier. *)
Theorem X1_connect_registers_fresh_user env w websocket :
  good_env env → reachable env w →
  let uid := uuid4 env (uuid_calls w) in
  let r := connect env websocket w in
  let m := manager w in
  let m' := manager (world_of r) in
  uid ≠ "" ∧ users m !! uid = None ∧ active_connections m !! uid = None
  ∧ outcome_of r = Returned uid
  ∧ sent_of r = [(uid, Connected uid)]
  ∧ users m' = <[uid := User.mk uid "Anonymous" "en" None]> (users m)
  ∧ active_connections m' = <[uid := websocket]> (active_connections m)
  ∧ rooms m' = rooms m ∧ room_codes m' = room_codes m
  ∧ room_members m' = room_members m ∧ room_messages m' = room_messages m
  ∧ ∀ rid l, room_members m' !! rid = Some l → uid ∉ l.
Proof.
  intros Hgood Hreach uid r m m'.
  pose proof (Inv_reachable _ _ Hgood Hreach) as HI.
  assert (users m !! uid = None) as Hfresh.
  { apply eq_None_not_Some. intros Hs%(inv_user_gen _ _ _ HI).
    by apply (generated_fresh env (uuid_calls w)). }
  subst r m'. rewrite connect_run. unfold world_of, sent_of, outcome_of.
  cbn [fst snd manager]. mgr_simpl. fold uid m.
  split_and!; try done.
  - apply (uuid4_nonempty _ Hgood).
  - apply eq_None_not_Some. intros Hs%(inv_conn _ _ _ HI).
    fold m in Hs. rewrite Hfresh in Hs. by destruct Hs.
  - intros rid l Hl Hin.
    destruct (inv_members _ _ _ HI _ _ Hl) as (_ & _ & Hall).
    destruct (Hall _ Hin) as (usr & Hu & _). fold m in Hu. congruence.
Qed.

Lemma X1_connect_registers_fresh_user_witness :
  users (manager world_solo) !! "u2" = None
  ∧ sent_of (connect env_same_code 2 world_solo) = [("u2", Connected "u2")]
  ∧ users (manager (world_of (connect env_same_code 2 world_solo)))
    = <["u2" := User.mk "u2" "Anonymous" "en" None]>
        (users (manager world_solo)).
Proof.
  pose proof (X1_connect_registers_fresh_user env_same_code world_solo 2
                (demo_uuid4_good _ _ _ _) (reachable_run _ solo_room)) as H.
  cbn zeta in H. destruct H as (_ & H1 & _ & _ & H2 & H3 & _).
  exact (conj H1 (conj H2 H3)).
Defined.

(** X2. [disconnect] of a registered user returns after doing what
    [_leave_room] does to the rooms and sending what it sends, none of
    it to the user who goes; the user and the socket are then removed
    and no member list names the user any more. *)
Theorem X2_disconnect_removes_user env w uid usr :
  good_env env → reachable env w → users (manager w) !! uid = Some usr →
  let r := disconnect uid w in
  let left := manager (world_of (_leave_room uid w)) in
  let m' := manager (world_of r) in
  outcome_of r = Returned tt
  ∧ sent_of r = sent_of (_leave_room uid w)
  ∧ (∀ s, s ∈ sent_of r → s.1 ≠ uid)
  ∧ users m' = delete uid (users (manager w))
  ∧ active_connections m' = delete uid (active_connections (manager w))
  ∧ rooms m' = rooms left ∧ room_codes m' = room_codes left
  ∧ room_members m' = room_members left
  ∧ room_messages m' = room_messages left
  ∧ ∀ rid l, room_members m' !! rid = Some l → uid ∉ l.
Proof.
  intros Hgood Hreach Hu. cbn zeta.
  pose proof (Inv_reachable _ _ Hgood Hreach) as HI.
  pose proof (Inv_disconnect _ uid _ Hgood HI) as HI'.
  pose proof (disconnect_unregisters uid w) as Hgone.
  unfold Inv in HI'. rewrite leave_room_run.
  rewrite (disconnect_run _ _ _ Hu) in *.
  unfold world_of, sent_of, outcome_of in *. cbn [fst snd] in *. mgr_simpl.
  split_and!; try done.
  - intros s Hs. by destruct (leave_sends_elem_of _ _ _ _ _ HI Hs).
  - rewrite leave_mgr_users. destruct (current_room (manager w) uid); [|done].
    apply map_eq. intros u. destruct (decide (u = uid)) as [->|Hne].
    + by rewrite !lookup_delete_eq.
    + by rewrite !lookup_delete_ne, lookup_alter_ne.
  - by rewrite leave_mgr_active_connections.
  - intros rid l Hl Hin.
    destruct (inv_members _ _ _ HI' _ _ Hl) as (_ & _ & Hall).
    destruct (Hall _ Hin) as (usr' & Hu' & _). mgr_simpl. congruence.
Qed.

Lemma X2_disconnect_removes_user_witness :
  users (manager world_two_in_room) !! "u0"
  = Some (User.mk "u0" "Ann" "en" (Some "u1"))
  ∧ sent_of (disconnect "u0" world_two_in_room)
    = sent_of (_leave_room "u0" world_two_in_room)
  ∧ users (manager (world_of (disconnect "u0" world_two_in_room)))
    = delete "u0" (users (manager world_two_in_room)).
Proof.
  assert (users (manager world_two_in_room) !! "u0"
          = Some (User.mk "u0" "Ann" "en" (Some "u1"))) as Hu
    by (vm_compute; reflexivity).
  pose proof (X2_disconnect_removes_user env_same_code world_two_in_room "u0" _
                (demo_uuid4_good _ _ _ _) (reachable_run _ two_in_room) Hu) as H.
  cbn zeta in H. destruct H as (_ & H1 & _ & H2 & _).
  exact (conj Hu (conj H1 H2)).
Defined.

(** ** CREATE_ROOM *)

(** X3. CREATE_ROOM by a registered user makes a room under an
    identifier no room had, with the requester as host and only member
    and an empty history; the room's code resolves to it from then on,
    whatever the code resolved to before; the requester gets the host
    name and language of the request and the new room as current room,
    the other users are untouched; after the notices of the room left,
    if any, the one event sent is ROOM_CREATED, to the requester, with
    the requester as the only member, flagged as host. *)
Theorem X3_create_room_result env w uid usr data :
  good_env env → reachable env w → users (manager w) !! uid = Some usr →
  let r := _handle_create_room env uid data w in
  let m' := manager (world_of r) in
  let room := created_room env w uid data in
  let rid := uuid4 env (uuid_calls w) in
  let host_name := Py.dict_get data "hostName" "Host" in
  let language := Py.dict_get data "language" "en" in
  rooms (manager w) !! rid = None
  ∧ Room.id room = rid ∧ Room.host_id room = uid
  ∧ rooms m' !! rid = Some room
  ∧ room_codes m' !! Room.code room = Some rid
  ∧ room_members m' !! rid = Some [uid]
  ∧ room_messages m' !! rid = Some []
  ∧ users m' !! uid = Some (User.mk uid host_name language (Some rid))
  ∧ (∀ u, u ≠ uid → users m' !! u = users (manager w) !! u)
  ∧ outcome_of r = Returned tt
  ∧ sent_of r =
    sent_of (_leave_room uid w) ++
    [(uid, RoomCreated rid (Room.code room) room
             [Member.mk uid host_name language true
                (now env (S (clock_calls w)))])].
Proof.
  intros Hgood Hreach Hu. cbn zeta.
  pose proof (Inv_reachable _ _ Hgood Hreach) as HI.
  rewrite (create_room_run _ _ _ _ _ Hu), leave_room_run.
  unfold world_of, sent_of, outcome_of. cbn [fst snd manager].
  assert (users (create_mgr env w uid data) !! uid
          = Some (User.mk uid (Py.dict_get data "hostName" "Host")
                    (Py.dict_get data "language" "en")
                    (Some (uuid4 env (uuid_calls w))))) as Huser.
  { unfold create_mgr, created_room. mgr_simpl. cbn [Room.id].
    rewrite lookup_alter_eq.
    rewrite (rename_user_lookup _ _ _ _ _
               (leave_mgr_user_room _ _ _ _ _ Hgood HI Hu)).
    cbn. by rewrite (inv_user_id _ _ _ HI _ _ Hu). }
  split_and!.
  - apply eq_None_not_Some. intros Hs%(inv_room_gen _ _ _ HI).
    by apply (generated_fresh env (uuid_calls w)).
  - reflexivity.
  - reflexivity.
  - unfold create_mgr, created_room. mgr_simpl. cbn [Room.id].
    apply lookup_insert_eq.
  - unfold create_mgr, created_room. mgr_simpl. cbn [Room.id Room.code].
    apply lookup_insert_eq.
  - unfold create_mgr, created_room. mgr_simpl. cbn [Room.id].
    apply lookup_insert_eq.
  - unfold create_mgr, created_room. mgr_simpl. cbn [Room.id].
    apply lookup_insert_eq.
  - exact Huser.
  - intros u Hne. unfold create_mgr, rename_user. mgr_simpl.
    rewrite !lookup_alter_ne by done. by apply leave_mgr_other_user.
  - reflexivity.
  - unfold create_sends. rewrite Huser. f_equal.
    cbn [User.id User.name User.language].
    eapply unicast_registered; [exact HI|by eauto|].
    apply create_mgr_active_connections.
Qed.

Lemma X3_create_room_result_witness :
  users (manager world_connected) !! "u0"
  = Some (User.mk "u0" "Anonymous" "en" None)
  ∧ room_members
      (manager (world_of (_handle_create_room env_same_code "u0" create_plain
                            world_connected))) !! "u1" = Some ["u0"]
  ∧ room_codes
      (manager (world_of (_handle_create_room env_same_code "u0" create_plain
                            world_connected))) !! "AAAAAA" = Some "u1".
Proof.
  assert (users (manager world_connected) !! "u0"
          = Some (User.mk "u0" "Anonymous" "en" None)) as Hu
    by (vm_compute; reflexivity).
  pose proof (X3_create_room_result env_same_code world_connected "u0" _
                create_plain (demo_uuid4_good _ _ _ _) (reachable_run _ [Connect 1])
                Hu) as H.
  cbn zeta in H. destruct H as (_ & _ & _ & _ & H1 & H2 & _).
  exact (conj Hu (conj H2 H1)).
Defined.

(** X4. CREATE_ROOM is LEAVE_ROOM followed by CREATE_ROOM: the room the
    requester is in is left first, exactly as [_leave_room] leaves it. *)
Theorem X4_create_room_leaves_first env uid data w :
  _handle_create_room env uid data w
  = (_leave_room uid;; _handle_create_room env uid data) w.
Proof.
  erewrite (bind_run (_leave_room uid)) by apply leave_room_run.
  destruct (users (manager w) !! uid) as [usr|] eqn:Hu.
  - assert (is_Some (users (leave_mgr uid (manager w)) !! uid))
      as [usr' Hu'] by (apply leave_mgr_registered; eauto).
    rewrite (create_room_run _ _ _ w _ Hu).
    rewrite (create_room_run _ _ _ (set_manager w _) _ Hu').
    unfold create_sends, create_mgr, created_room. cbn [after]. mgr_simpl.
    rewrite leave_mgr_idemp.
    rewrite (leave_sends_noop (leave_mgr uid (manager w)))
      by apply current_room_after_leave.
    reflexivity.
  - rewrite leave_mgr_noop, leave_sends_noop, set_manager_id
      by (by apply current_room_None_user).
    by rewrite after_nil.
Qed.

(** ** The member list of ROOM_JOINED and ROOM_INFO *)

Lemma member_list_entries env room l w :
  let entries :=
    member_entries env (manager w) (Room.host_id room) l (clock_calls w) in
  member_list env room l w =
  (set_clock w (clock_calls w + length entries), [], Returned entries).
Proof.
  cbn zeta. unfold member_list. revert w.
  induction l as [|x l IH]; intros w; cbn [collect member_entries].
  - cbn [length]. rewrite Nat.add_0_r. by destruct w.
  - destruct (users (manager w) !! x) as [u|] eqn:Hx.
    + erewrite bind_run;
        [|mstep; rewrite Hx; mstep; reflexivity].
      rewrite after_nil.
      erewrite bind_run by apply IH. rewrite after_nil.
      cbn [length manager clock_calls set_clock uuid_calls draw_calls].
      rewrite Nat.add_succ_r. reflexivity.
    + erewrite bind_run; [|mstep; rewrite Hx; reflexivity].
      rewrite after_nil.
      erewrite bind_run by apply IH. rewrite after_nil. reflexivity.
Qed.

Lemma member_entries_Forall2 env n m host l c :
  Consistent env n m →
  (∀ u, u ∈ l → is_Some (users m !! u)) →
  Forall2 (entry_of m host) l (member_entries env m host l c).
Proof.
  intros HI. revert c. induction l as [|u l IH]; intros c Hreg.
  - constructor.
  - cbn [member_entries].
    destruct (Hreg u) as [usr Hu]; [by left|]. rewrite Hu.
    constructor.
    + exists usr. cbn. split_and!; try done.
      apply (inv_user_id _ _ _ HI _ _ Hu).
    + apply IH. intros u' Hin. apply Hreg. by right.
Qed.

Lemma get_room_info_found env uid w usr rid room :
  users (manager w) !! uid = Some usr → User.room_id usr = Some rid →
  Py.truthy rid = true → rooms (manager w) !! rid = Some room →
  let entries :=
    member_entries env (manager w) (Room.host_id room)
      (Py.dict_get (room_members (manager w)) rid []) (clock_calls w) in
  _handle_get_room_info env uid w =
  (set_clock w (clock_calls w + length entries),
   unicast (manager w) uid (RoomInfo room entries), Returned tt).
Proof.
  intros Hu Hr Ht Hroom. cbn zeta. unfold _handle_get_room_info. mstep.
  rewrite Hu. cbn [mbind option_bind]. rewrite Hr. cbn [mbind option_bind].
  rewrite Ht. mstep. rewrite Hroom. mstep.
  erewrite bind_run by apply member_list_entries. rewrite after_nil.
  rewrite send_personal_message_run. reflexivity.
Qed.

Lemma get_room_info_missing env uid w usr rid :
  users (manager w) !! uid = Some usr → User.room_id usr = Some rid →
  Py.truthy rid = true → rooms (manager w) !! rid = None →
  _handle_get_room_info env uid w =
  (w, unicast (manager w) uid (ErrorResponse "ROOM_NOT_FOUND" "Room not found"),
   Returned tt).
Proof.
  intros Hu Hr Ht Hroom. unfold _handle_get_room_info. mstep.
  rewrite Hu. cbn [mbind option_bind]. rewrite Hr. cbn [mbind option_bind].
  rewrite Ht. mstep. rewrite Hroom. apply send_personal_message_run.
Qed.

Lemma get_room_info_not_in_room env uid w :
  current_room (manager w) uid = None →
  _handle_get_room_info env uid w =
  (w, unicast (manager w) uid
        (ErrorResponse "NOT_IN_ROOM" "You are not in a room"),
   Returned tt).
Proof.
  intros Hc. unfold _handle_get_room_info. mstep.
  unfold current_room in Hc. rewrite Hc. apply send_personal_message_run.
Qed.

Lemma unicast_unregistered env n m uid msg :
  Consistent env n m → users m !! uid = None → unicast m uid msg = [].
Proof.
  intros HI Hu. unfold unicast. rewrite bool_decide_eq_false_2; [done|].
  intros Hs%(inv_conn _ _ _ HI). rewrite Hu in Hs. by destruct Hs.
Qed.

(** X5. GET_ROOM_INFO changes nothing in the store and always returns.
    An unregistered requester gets no answer; a user without a room
    gets NOT_IN_ROOM; a user whose current room no longer exists gets
    ROOM_NOT_FOUND; otherwise the one event is ROOM_INFO with the room
    and one entry per member, in the order of the member list, each
    with the member's present name and language and flagged as host
    exactly when it is the room's [host_id]. *)
Theorem X5_get_room_info_answers env w uid :
  good_env env → reachable env w →
  let r := _handle_get_room_info env uid w in
  manager (world_of r) = manager w ∧ outcome_of r = Returned tt
  ∧ (users (manager w) !! uid = None → sent_of r = [])
  ∧ ∀ usr, users (manager w) !! uid = Some usr →
      match User.room_id usr with
      | None =>
          sent_of r =
          [(uid, ErrorResponse "NOT_IN_ROOM" "You are not in a room")]
      | Some rid =>
          match rooms (manager w) !! rid with
          | None =>
              sent_of r =
              [(uid, ErrorResponse "ROOM_NOT_FOUND" "Room not found")]
          | Some room =>
              ∃ l members,
                room_members (manager w) !! rid = Some l ∧ uid ∈ l
                ∧ sent_of r = [(uid, RoomInfo room members)]
                ∧ Forall2 (entry_of (manager w) (Room.host_id room)) l members
          end
      end.
Proof.
  intros Hgood Hreach. cbn zeta.
  pose proof (Inv_reachable _ _ Hgood Hreach) as HI.
  split_and!.
  - destruct (get_room_info_run env uid w) as (c & o & ->). reflexivity.
  - destruct (get_room_info_run env uid w) as (c & o & ->). reflexivity.
  - intros Hu. rewrite get_room_info_not_in_room
      by (by apply current_room_None_user).
    apply (unicast_unregistered _ _ _ _ _ HI Hu).
  - intros usr Hu. destruct (User.room_id usr) as [rid|] eqn:Hr.
    + assert (Py.truthy rid = true) as Ht.
      { eapply generated_truthy; [done|]. eapply (inv_cur_gen _ _ _ HI); eauto. }
      destruct (rooms (manager w) !! rid) as [room|] eqn:Hroom.
      * rewrite (get_room_info_found env _ _ _ _ _ Hu Hr Ht Hroom).
        assert (is_Some (room_members (manager w) !! rid)) as [l Hl].
        { apply (inv_members_dom _ _ _ HI). eauto. }
        exists l, (member_entries env (manager w) (Room.host_id room) l
                     (clock_calls w)).
        unfold sent_of, Py.dict_get. cbn [fst snd]. rewrite Hl. cbn [default].
        split_and!; [done| |..].
        -- eapply (inv_current _ _ _ HI); eauto.
        -- eapply unicast_registered; eauto.
        -- apply (member_entries_Forall2 _ _ _ _ _ _ HI). intros u Hin.
           destruct (inv_members _ _ _ HI _ _ Hl) as (_ & _ & Hall).
           destruct (Hall u Hin) as (? & ? & _). eauto.
      * rewrite (get_room_info_missing env _ _ _ _ Hu Hr Ht Hroom).
        eapply unicast_registered; eauto.
    + rewrite get_room_info_not_in_room
        by (by eapply current_room_None_room).
      eapply unicast_registered; eauto.
Qed.

Lemma X5_get_room_info_answers_witness :
  sent_of (_handle_get_room_info env_same_code "u2" world_two_in_room)
  = [("u2", RoomInfo (Room.mk "u1" "AAAAAA" "Trip" "u0" 0%Z)
              [Member.mk "u0" "Ann" "en" true 5%Z;
               Member.mk "u2" "Bo" "en" false 6%Z])]
  ∧ manager (world_of (_handle_get_room_info env_same_code "u2"
                         world_two_in_room))
    = manager world_two_in_room.
Proof.
  pose proof (X5_get_room_info_answers env_same_code world_two_in_room "u2"
                (demo_uuid4_good _ _ _ _) (reachable_run _ two_in_room)) as H.
  cbn zeta in H. destruct H as (H1 & _).
  split; [vm_compute; reflexivity|exact H1].
Defined.

(** ** JOIN_ROOM *)

Lemma list_remove_notin x l : x ∉ l → Py.list_remove x l = l.
Proof.
  induction l as [|y l IH]; [done|]. intros Hnin. cbn.
  rewrite decide_False by (intros ->; apply Hnin; by left).
  f_equal. apply IH. intros Hin. apply Hnin. by right.
Qed.

Lemma filter_ne_notin (x : string) (l : list string) : x ∉ l → filter (λ y, y ≠ x) l = l.
Proof.
  induction l as [|y l IH]; [done|]. intros Hnin. rewrite filter_cons.
  rewrite decide_True by (intros ->; apply Hnin; by left).
  f_equal. apply IH. intros Hin. apply Hnin. by right.
Qed.

Lemma list_remove_filter x l :
  NoDup l → Py.list_remove x l = filter (λ y, y ≠ x) l.
Proof.
  induction l as [|y l IH]; [done|]. intros [Hy Hnd]%NoDup_cons.
  cbn [Py.list_remove]. rewrite filter_cons.
  destruct (decide (y = x)) as [->|Hne].
  - rewrite decide_False by (by intros ?). by rewrite filter_ne_notin.
  - rewrite decide_True by done. f_equal. by apply IH.
Qed.

(** A member list after [uid] has left the room it was in: the list
    without [uid], unless [uid] was its only member. *)
Lemma leave_mgr_members_at env n m uid rid l :
  good_env env → Consistent env n m →
  room_members m !! rid = Some l → l ≠ [uid] →
  room_members (leave_mgr uid m) !! rid = Some (filter (λ u, u ≠ uid) l).
Proof.
  intros Hgood HI Hl Hne.
  pose proof (inv_members _ _ _ HI _ _ Hl) as (_ & Hnd & Hall).
  assert (∀ usr, users m !! uid = Some usr → User.room_id usr ≠ Some rid →
                 uid ∉ l) as Hout.
  { intros usr Hu Hr Hin. destruct (Hall _ Hin) as (usr' & Hu' & Hr').
    congruence. }
  destruct (users m !! uid) as [usr|] eqn:Hu.
  2:{ rewrite leave_mgr_noop by (by apply current_room_None_user).
      rewrite filter_ne_notin; [done|]. intros Hin.
      destruct (Hall _ Hin) as (usr' & Hu' & _). congruence. }
  destruct (User.room_id usr) as [a|] eqn:Hr.
  2:{ rewrite leave_mgr_noop by (by eapply current_room_None_room).
      rewrite filter_ne_notin; [done|]. eapply Hout; [done|]. by rewrite Hr. }
  destruct (leave_mgr_cases _ _ _ _ _ _ Hgood HI Hu Hr)
    as [(Hma & _ & ->)|[(la & Hma & Hin & Hrest & ->)|(Hma & ->)]];
    unfold cleanup_mgr, clear_room; repeat case_match; mgr_simpl.
  - rewrite filter_ne_notin; [done|]. eapply Hout; [done|].
    rewrite Hr. intros [= ->]. congruence.
  - destruct (decide (a = rid)) as [->|Hne'].
    + rewrite lookup_insert_eq. assert (la = l) as -> by congruence.
      by rewrite list_remove_filter.
    + rewrite lookup_insert_ne by done. rewrite filter_ne_notin; [done|].
      eapply Hout; [done|]. rewrite Hr. congruence.
  - destruct (decide (a = rid)) as [->|Hne']; [congruence|].
    rewrite lookup_delete_ne, lookup_insert_ne by done.
    rewrite filter_ne_notin; [done|].
    eapply Hout; [done|]. rewrite Hr. congruence.
  - destruct (decide (a = rid)) as [->|Hne']; [congruence|].
    rewrite lookup_delete_ne, lookup_insert_ne by done.
    rewrite filter_ne_notin; [done|].
    eapply Hout; [done|]. rewrite Hr. congruence.
Qed.

Lemma join_room_run_entries env uid data w usr rid room l user :
  users (manager w) !! uid = Some usr →
  join_target env (manager w) data = Some (rid, room) →
  room_members (join_mgr0 uid data rid (manager w)) !! rid = Some l →
  let m2 := join_mgr uid data rid (manager w) in
  let l2 := default [] (room_members m2 !! rid) in
  let entries :=
    member_entries env m2 (Room.host_id room) l2 (clock_calls w) in
  let c := clock_calls w + length entries in
  users m2 !! uid = Some user →
  _handle_join_room env uid data w =
  (mkWorld m2 (uuid_calls w) (draw_calls w) (S c),
   leave_sends uid (manager w) ++
   unicast m2 uid
     (RoomJoined room entries
        (Py.last_n 50 (Py.dict_get (room_messages m2) rid []))) ++
   to_all (UserJoined
             (Member.mk (User.id user) (User.name user) (User.language user)
                false (now env c)) false)
     (recipients m2 l2 (Some uid)),
   Returned tt).
Proof.
  intros Hu Ht Hl m2 l2 entries c Huser. subst c entries.
  unfold _handle_join_room. mstep. rewrite Hu.
  do 2 mstep. unfold join_target in Ht. rewrite Ht.
  erewrite bind_run by (by apply leave_if_in_room_run).
  do 3 mstep.
  assert (Hm2 : m2 = join_mgr uid data rid (manager w)) by done.
  clearbody m2. unfold join_mgr in Hm2. rewrite Hl in Hm2.
  unfold join_mgr0, rename_user in Hl, Hm2.
  erewrite bind_run.
  2:{ unfold room_members_at. mstep. rewrite Hl. reflexivity. }
  rewrite after_nil. wsimpl.
  erewrite (bind_run _ _ _ (set_manager w m2) [] tt).
  2:{ rewrite Hm2. by destruct (bool_decide (uid ∈ l)). }
  rewrite after_nil.
  assert (Hl2 : ∃ l', room_members m2 !! rid = Some l').
  { rewrite Hm2. destruct (bool_decide (uid ∈ l)); mgr_simpl;
      [|rewrite lookup_insert_eq]; eauto. }
  destruct Hl2 as [l' Hl2]. subst l2. rewrite Hl2. cbn [default].
  erewrite bind_run.
  2:{ unfold room_members_at. mstep. rewrite Hl2. reflexivity. }
  rewrite after_nil.
  erewrite bind_run by apply member_list_entries. rewrite after_nil. wsimpl.
  do 3 mstep. rewrite Huser. mstep. mdone. wsimpl.
  rewrite Hl2. reflexivity.
Qed.

(** X6. JOIN_ROOM by a registered user with a code that resolves to a
    room the user is not alone in: the user is put last in the room's
    member list, after the members who were there, and gets the name
    and language of the request and the room as current room; the
    other users are untouched. After the notices of the room left, if
    any, ROOM_JOINED goes to the joiner with one entry per member, the
    joiner last, and USER_JOINED, with [isUpdate] false, goes to every
    other member of the room and not to the joiner. *)
Theorem X6_join_room_result env w uid usr data rid room l :
  good_env env → reachable env w → users (manager w) !! uid = Some usr →
  join_target env (manager w) data = Some (rid, room) →
  room_members (manager w) !! rid = Some l → l ≠ [uid] →
  let r := _handle_join_room env uid data w in
  let m' := manager (world_of r) in
  let others := filter (λ u, u ≠ uid) l in
  let user_name := Py.dict_get data "userName" "Guest" in
  let language := Py.dict_get data "language" "en" in
  outcome_of r = Returned tt
  ∧ room_members m' !! rid = Some (others ++ [uid])
  ∧ users m' !! uid = Some (User.mk uid user_name language (Some rid))
  ∧ (∀ u, u ≠ uid → users m' !! u = users (manager w) !! u)
  ∧ rooms m' !! rid = Some room
  ∧ ∃ members messages t,
      sent_of r =
      sent_of (_leave_room uid w) ++
      (uid, RoomJoined room members messages) ::
      to_all (UserJoined (Member.mk uid user_name language false t) false)
        others
      ∧ Forall2 (entry_of m' (Room.host_id room)) (others ++ [uid]) members.
Proof.
  intros Hgood Hreach Hu Ht Hl Hne. cbn zeta.
  pose proof (Inv_reachable _ _ Hgood Hreach) as HI.
  set (others := filter (λ u, u ≠ uid) l).
  assert (room_members (join_mgr0 uid data rid (manager w)) !! rid
          = Some others) as Hl0.
  { unfold join_mgr0, rename_user. mgr_simpl.
    by eapply leave_mgr_members_at. }
  destruct (join_mgr_joined _ _ _ _ _ data _ _ Hgood HI Hu Hl0) as [Hnin Hm2].
  destruct (join_mgr_user _ _ _ _ _ data rid Hgood HI Hu) as [Huser Hothers].
  pose proof (join_room_run_entries env _ _ _ _ _ _ _ _ Hu Ht Hl0 Huser)
    as Hrun.
  cbn zeta in Hrun.
  pose proof (Inv_join env uid data w Hgood HI) as HI2.
  rewrite Hrun in HI2 |- *. rewrite leave_room_run.
  unfold Inv, world_of, sent_of, outcome_of in *. cbn [fst snd] in *.
  mgr_simpl.
  set (m2 := join_mgr uid data rid (manager w)) in *.
  assert (room_members m2 !! rid = Some (others ++ [uid])) as Hl2.
  { rewrite Hm2. mgr_simpl. apply lookup_insert_eq. }
  split_and!; try done.
  - subst m2. destruct (join_mgr_rooms uid data rid (manager w)) as (-> & _).
    destruct (leave_mgr_keeps_room env (uuid_calls w) (manager w) uid rid l
                Hgood HI Hl Hne) as (_ & -> & _).
    by apply join_target_inv in Ht as (_ & ? & _).
  - rewrite Hl2. cbn [default from_option id User.id User.name User.language].
    eexists _, _, _. split.
    + f_equal.
      rewrite (unicast_registered env (uuid_calls w) (manager w) m2 uid);
        [|done|by eauto|].
      2:{ apply session_kept_join. }
      cbn [app]. f_equal. f_equal.
      rewrite recipients_others.
      * rewrite filter_app, filter_ne_notin by done.
        rewrite filter_cons, decide_False by (by intros ?). cbn.
        apply app_nil_r.
      * eapply generated_truthy; [done|].
        apply (inv_user_gen _ _ _ HI). eauto.
      * apply (members_connected _ _ _ _ _ HI2 Hl2).
    + apply (member_entries_Forall2 _ _ _ _ _ _ HI2). intros u Hin.
      destruct (inv_members _ _ _ HI2 _ _ Hl2) as (_ & _ & Hall).
      destruct (Hall u Hin) as (? & ? & _). eauto.
Qed.

Lemma X6_join_room_result_witness :
  join_target env_same_code (manager world_two_in_room)
    (request [("type", "JOIN_ROOM"); ("roomCode", "aaaaaa")])
  = Some ("u1", Room.mk "u1" "AAAAAA" "Trip" "u0" 0%Z)
  ∧ room_members (manager world_two_in_room) !! "u1" = Some ["u0"; "u2"]
  ∧ room_members
      (manager (world_of (_handle_join_room env_same_code "u0"
                            (request [("type", "JOIN_ROOM");
                                      ("roomCode", "aaaaaa")])
                            world_two_in_room))) !! "u1"
    = Some ["u2"; "u0"].
Proof.
  assert (users (manager world_two_in_room) !! "u0"
          = Some (User.mk "u0" "Ann" "en" (Some "u1"))) as Hu
    by (vm_compute; reflexivity).
  assert (join_target env_same_code (manager world_two_in_room)
            (request [("type", "JOIN_ROOM"); ("roomCode", "aaaaaa")])
          = Some ("u1", Room.mk "u1" "AAAAAA" "Trip" "u0" 0%Z)) as Ht
    by (vm_compute; reflexivity).
  assert (room_members (manager world_two_in_room) !! "u1"
          = Some ["u0"; "u2"]) as Hl by (vm_compute; reflexivity).
  assert (["u0"; "u2"] ≠ ["u0"]) as Hne by (intros [=]).
  pose proof (X6_join_room_result env_same_code world_two_in_room "u0" _ _ _ _ _
                (demo_uuid4_good _ _ _ _) (reachable_run _ two_in_room)
                Hu Ht Hl Hne) as H.
  cbn zeta in H. destruct H as (_ & H1 & _).
  exact (conj Ht (conj Hl H1)).
Defined.

Lemma join_mgr0_after_leave uid data rid m :
  join_mgr0 uid data rid (leave_mgr uid m) = join_mgr0 uid data rid m.
Proof. unfold join_mgr0. by rewrite leave_mgr_idemp. Qed.

Lemma join_mgr_after_leave uid data rid m :
  join_mgr uid data rid (leave_mgr uid m) = join_mgr uid data rid m.
Proof. unfold join_mgr. by rewrite join_mgr0_after_leave. Qed.

(** X7. Where every live room's code resolves to it, JOIN_ROOM with a
    code that resolves to a room the requester is not alone in is
    LEAVE_ROOM followed by JOIN_ROOM: the room the requester is in is
    left first, its members are told, and the join then proceeds as
    from no room. *)
Theorem X7_join_room_leaves_first env w uid data rid room l :
  good_env env → reachable env w → codes_resolve (manager w) →
  join_target env (manager w) data = Some (rid, room) →
  room_members (manager w) !! rid = Some l → l ≠ [uid] →
  _handle_join_room env uid data w
  = (_leave_room uid;; _handle_join_room env uid data) w.
Proof.
  intros Hgood Hreach Hres Ht Hl Hne.
  pose proof (Inv_reachable _ _ Hgood Hreach) as HI.
  erewrite (bind_run (_leave_room uid)) by apply leave_room_run.
  destruct (users (manager w) !! uid) as [usr|] eqn:Hu.
  2:{ rewrite leave_mgr_noop, leave_sends_noop, set_manager_id
        by (by apply current_room_None_user).
      by rewrite after_nil. }
  set (m1 := leave_mgr uid (manager w)).
  assert (join_target env m1 data = Some (rid, room)) as Ht1.
  { pose proof (join_target_inv _ _ _ _ _ Ht) as (Hk & Hroom & Htr).
    destruct (inv_codes _ _ _ HI _ _ Hk) as (r & Hr & Hcode).
    assert (r = room) as -> by congruence.
    assert (rooms m1 !! rid = Some room) as Hroom1.
    { destruct (leave_mgr_keeps_room env (uuid_calls w) (manager w) uid rid l
                  Hgood HI Hl Hne) as (_ & Heq & _).
      subst m1. by rewrite Heq. }
    pose proof (codes_resolve_leave _ _ _ uid Hgood HI Hres _ _ Hroom1) as Hk1.
    unfold join_target. rewrite <- Hcode. fold m1 in Hk1. rewrite Hk1.
    cbn [mbind option_bind]. rewrite Htr, Hroom1. reflexivity. }
  assert (room_members (join_mgr0 uid data rid (manager w)) !! rid
          = Some (filter (λ u, u ≠ uid) l)) as Hl0.
  { unfold join_mgr0, rename_user. mgr_simpl.
    by eapply leave_mgr_members_at. }
  destruct (join_mgr_user _ _ _ _ _ data rid Hgood HI Hu) as [Huser _].
  assert (is_Some (users m1 !! uid)) as [usr1 Hu1]
    by (apply leave_mgr_registered; eauto).
  rewrite (join_room_run_entries env _ _ w _ _ _ _ _ Hu Ht Hl0 Huser).
  rewrite <- (join_mgr0_after_leave uid data rid (manager w)) in Hl0.
  rewrite <- (join_mgr_after_leave uid data rid (manager w)) in Huser.
  rewrite (join_room_run_entries env _ _ (set_manager w m1) _ _ _ _ _
             Hu1 Ht1 Hl0 Huser).
  cbn [after]. mgr_simpl. fold m1.
  rewrite (leave_sends_noop m1) by apply current_room_after_leave.
  subst m1. rewrite join_mgr_after_leave. reflexivity.
Qed.

Lemma X7_join_room_leaves_first_witness :
  codes_resolve (manager world_two_in_room)
  ∧ _handle_join_room env_same_code "u2" join_own_room world_two_in_room
    = (_leave_room "u2";; _handle_join_room env_same_code "u2" join_own_room)
        world_two_in_room.
Proof.
  assert (codes_resolve (manager world_two_in_room)) as Hres.
  { intros rid r.
    replace (rooms (manager world_two_in_room))
      with ({[ "u1" := Room.mk "u1" "AAAAAA" "Trip" "u0" 0%Z ]}
            : gmap string Room.t) by (vm_compute; reflexivity).
    intros [<- <-]%lookup_singleton_Some. vm_compute. reflexivity. }
  split; [exact Hres|].
  apply (X7_join_room_leaves_first env_same_code world_two_in_room "u2"
           join_own_room "u1" (Room.mk "u1" "AAAAAA" "Trip" "u0" 0%Z)
           ["u0"; "u2"]);
    [apply demo_uuid4_good|apply (reachable_run _ two_in_room)|exact Hres
    |vm_compute; reflexivity|vm_compute; reflexivity|intros [=]].
Defined.

(** ** Events go to registered sockets only *)

Lemma wtr_ret {A} (a : A) : writes_to_registered (mret a).
Proof. intros w. split; [done|]. by intros s ?%elem_of_nil. Qed.

Lemma wtr_bind {A B} (p : M A) (f : A → M B) :
  writes_to_registered p → (∀ a, writes_to_registered (f a)) →
  writes_to_registered (p ≫= f).
Proof.
  intros Hp Hf w. destruct (Hp w) as [Hc Hs].
  unfold mbind, M_bind. destruct (p w) as [[w1 o1] [a|e]]; [|done].
  destruct (Hf a w1) as [Hc1 Hs1].
  destruct (f a w1) as [[w2 o2] r].
  unfold world_of, sent_of in *. cbn [fst snd] in *. split; [congruence|].
  intros s [Hin|Hin]%elem_of_app; [by apply Hs|].
  rewrite <- Hc. by apply Hs1.
Qed.

Lemma wtr_gets {A} (f : ConnectionManager → A) : writes_to_registered (gets f).
Proof. intros w. split; [done|]. by intros s ?%elem_of_nil. Qed.

Lemma wtr_raise {A} e : writes_to_registered (raise (A := A) e).
Proof. intros w. split; [done|]. by intros s ?%elem_of_nil. Qed.

Lemma wtr_modify f :
  (∀ m, active_connections (f m) = active_connections m) →
  writes_to_registered (modify f).
Proof. intros Hf w. split; [apply Hf|]. by intros s ?%elem_of_nil. Qed.

Lemma wtr_counter env :
  writes_to_registered (generate_id env)
  ∧ writes_to_registered (fresh_room_code env)
  ∧ writes_to_registered (datetime_now env).
Proof.
  split_and!; intros w; (split; [done|]); by intros s ?%elem_of_nil.
Qed.

Lemma wtr_send msg uid : writes_to_registered (send_personal_message msg uid).
Proof.
  intros w. rewrite send_personal_message_run. split; [done|].
  unfold sent_of, unicast. cbn [fst snd]. case_bool_decide as Hc.
  - by intros s ->%list_elem_of_singleton.
  - by intros s ?%elem_of_nil.
Qed.

Lemma wtr_broadcast msg rid ex :
  writes_to_registered (broadcast_to_room msg rid ex).
Proof.
  intros w. rewrite broadcast_to_room_run. split; [done|].
  unfold sent_of. cbn [fst snd]. intros s [_ Hin]%to_all_elem_of.
  by apply recipients_elem_of in Hin as (_ & _ & ?).
Qed.

Lemma wtr_collect {A B} (l : list A) (body : A → M (option B)) :
  (∀ x, writes_to_registered (body x)) → writes_to_registered (collect l body).
Proof.
  intros Hb. induction l as [|x l IH]; cbn [collect]; [apply wtr_ret|].
  apply wtr_bind; [apply Hb|intros o].
  apply wtr_bind; [apply IH|intros rest]. apply wtr_ret.
Qed.

Lemma wtr_try_except p h :
  writes_to_registered p → (∀ e, writes_to_registered (h e)) →
  writes_to_registered (try_except p h).
Proof.
  intros Hp Hh w. destruct (Hp w) as [Hc Hs].
  unfold try_except. destruct (p w) as [[w1 o1] [a|e]]; [done|].
  destruct (Hh e w1) as [Hc1 Hs1].
  destruct (h e w1) as [[w2 o2] r].
  unfold world_of, sent_of in *. cbn [fst snd] in *. split; [congruence|].
  intros s [Hin|Hin]%elem_of_app; [by apply Hs|].
  rewrite <- Hc. by apply Hs1.
Qed.

Ltac wtr_step :=
  first
    [ apply wtr_ret | apply wtr_gets | apply wtr_raise | apply wtr_send
    | apply wtr_broadcast
    | apply wtr_modify; intros ?; reflexivity
    | apply wtr_bind; [|intros ?]
    | match goal with
      | |- writes_to_registered (match ?x with _ => _ end) => destruct x
      end ].

Lemma wtr_cleanup_room rid : writes_to_registered (_cleanup_room rid).
Proof. unfold _cleanup_room. repeat wtr_step. Qed.

Lemma wtr_leave_room uid : writes_to_registered (_leave_room uid).
Proof.
  unfold _leave_room, when, user_assign, pass.
  repeat first [apply wtr_cleanup_room | wtr_step].
Qed.

Lemma wtr_to_member env user is_host :
  writes_to_registered (to_member env user is_host).
Proof.
  unfold to_member. apply wtr_bind; [apply wtr_counter|intros ?; apply wtr_ret].
Qed.

Lemma wtr_member_list env room l : writes_to_registered (member_list env room l).
Proof.
  unfold member_list. apply wtr_collect. intros x.
  repeat first [apply wtr_to_member | wtr_step].
Qed.

Ltac wtr :=
  unfold when, user_assign, pass, _send_error, room_members_at, Room_new,
    Message_new;
  cbn zeta;
  repeat first
    [ apply wtr_leave_room | apply wtr_to_member | apply wtr_member_list
    | apply wtr_counter | wtr_step ].

Lemma wtr_create_room env uid data :
  writes_to_registered (_handle_create_room env uid data).
Proof. unfold _handle_create_room. wtr. Qed.

Lemma wtr_join_room env uid data :
  writes_to_registered (_handle_join_room env uid data).
Proof. unfold _handle_join_room. wtr. Qed.

Lemma wtr_send_message env uid data :
  writes_to_registered (_handle_send_message env uid data).
Proof. unfold _handle_send_message. wtr. Qed.

Lemma wtr_update_profile env uid data :
  writes_to_registered (_handle_update_profile env uid data).
Proof. unfold _handle_update_profile. wtr. Qed.

Lemma wtr_get_room_info env uid :
  writes_to_registered (_handle_get_room_info env uid).
Proof. unfold _handle_get_room_info. wtr. Qed.

Lemma wtr_handle_message env uid data :
  writes_to_registered (handle_message env uid data).
Proof.
  unfold handle_message. cbn zeta. apply wtr_try_except; [|intros e; wtr].
  repeat match goal with
         | |- writes_to_registered (if ?b then _ else _) => destruct b
         end;
    first [ apply wtr_create_room | apply wtr_join_room
          | apply wtr_leave_room | apply wtr_send_message
          | apply wtr_update_profile | apply wtr_get_room_info | wtr ].
Qed.

(** X8. Whatever the event, a step of the server writes only to sockets
    that are registered when the step ends: a request's events go to
    users connected before and after it, CONNECTED goes to the user just
    registered, and a disconnection's notices never go to the user who
    went. *)
Theorem X8_events_reach_registered_sockets env ev w s :
  good_env env → reachable env w → s ∈ sent_of (step env ev w) →
  is_Some (active_connections (manager (world_of (step env ev w))) !! s.1).
Proof.
  intros Hgood Hreach.
  pose proof (Inv_reachable _ _ Hgood Hreach) as HI.
  destruct ev as [websocket|uid|uid data]; cbn [step].
  - erewrite bind_run by apply connect_run.
    unfold pass, mret, M_ret, world_of, sent_of. cbn [after fst snd app].
    mgr_simpl. intros ->%list_elem_of_singleton. cbn [fst].
    rewrite lookup_insert_eq. eauto.
  - destruct (users (manager w) !! uid) as [usr|] eqn:Hu.
    + rewrite (disconnect_run _ _ _ Hu). unfold world_of, sent_of.
      cbn [fst snd]. mgr_simpl. intros Hs.
      destruct (leave_sends_elem_of _ _ _ _ _ HI Hs) as (Hne & Hc & _).
      by rewrite lookup_delete_ne, leave_mgr_active_connections.
    + rewrite (disconnect_unregistered _ _ Hu). by intros ?%elem_of_nil.
  - destruct (wtr_handle_message env uid data w) as [-> Hs]. apply Hs.
Qed.

Lemma X8_events_reach_registered_sockets_witness :
  ("u2", UserLeft "u0" "Ann")
    ∈ sent_of (step env_same_code (Disconnect "u0") world_two_in_room)
  ∧ is_Some (active_connections
               (manager (world_of (step env_same_code (Disconnect "u0")
                                     world_two_in_room))) !! "u2").
Proof.
  assert (("u2", UserLeft "u0" "Ann")
            ∈ sent_of (step env_same_code (Disconnect "u0") world_two_in_room))
    as Hs.
  { replace (sent_of (step env_same_code (Disconnect "u0") world_two_in_room))
      with [("u2", UserLeft "u0" "Ann")] by (vm_compute; reflexivity).
    by left. }
  split; [exact Hs|].
  exact (X8_events_reach_registered_sockets env_same_code (Disconnect "u0")
           world_two_in_room _ (demo_uuid4_good _ _ _ _)
           (reachable_run _ two_in_room) Hs).
Defined.

(** ** SEND_MESSAGE *)

(** X9. A message with text, sent by a member of a live room, carries
    the sender's id, present name and language, the stripped text and
    the room; NEW_MESSAGE goes once to each member of that room, the
    sender included, and to nobody else: every recipient has the room
    as current room. The message is appended to that room's history;
    the histories of the other rooms, the users, the rooms, the codes
    and the member lists stay as they are. *)
Theorem X9_send_message_delivery env w uid usr rid l data :
  good_env env → reachable env w →
  users (manager w) !! uid = Some usr → User.room_id usr = Some rid →
  room_members (manager w) !! rid = Some l →
  str_strip env (Py.dict_get data "text" "") ≠ "" →
  let r := _handle_send_message env uid data w in
  let m' := manager (world_of r) in
  ∃ message h,
    Message.room_id message = rid ∧ Message.sender_id message = uid
    ∧ Message.sender_name message = User.name usr
    ∧ Message.source_lang message = User.language usr
    ∧ Message.text message = str_strip env (Py.dict_get data "text" "")
    ∧ sent_of r = to_all (NewMessage message) l
    ∧ uid ∈ l ∧ NoDup l
    ∧ (∀ u, u ∈ l →
         ∃ usr', users (manager w) !! u = Some usr'
                 ∧ User.room_id usr' = Some rid)
    ∧ room_messages (manager w) !! rid = Some h
    ∧ room_messages m' !! rid = Some (push_message message h)
    ∧ (∀ rid', rid' ≠ rid →
         room_messages m' !! rid' = room_messages (manager w) !! rid')
    ∧ same_but_messages (manager w) m'.
Proof.
  intros Hgood Hreach Hu Hr Hl Htext. cbn zeta.
  pose proof (Inv_reachable _ _ Hgood Hreach) as HI.
  assert (is_Some (room_messages (manager w) !! rid)) as [h Hh].
  { apply (inv_messages_dom _ _ _ HI), (inv_members_dom _ _ _ HI). eauto. }
  destruct (send_message_in_live_room env w uid usr rid l h data
              Hgood Hreach Hu Hr Hl Hh Htext) as [Hrun Hin].
  cbn zeta in Hrun. rewrite Hrun.
  unfold world_of, sent_of. cbn [fst snd]. mgr_simpl.
  destruct (inv_members _ _ _ HI _ _ Hl) as (_ & Hnd & Hall).
  exists (Message.mk (uuid4 env (uuid_calls w)) rid uid (User.name usr)
            (str_strip env (Py.dict_get data "text" "")) (User.language usr)
            (now env (clock_calls w))), h.
  split_and!; try done.
  - apply lookup_insert_eq.
  - intros rid' Hne. by apply lookup_insert_ne.
Qed.

Lemma X9_send_message_delivery_witness :
  sent_of (_handle_send_message env_same_code "u2" say_hi world_two_in_room)
  = to_all (NewMessage (Message.mk "u3" "u1" "u2" "Bo" "hi" "en" 5%Z))
      ["u0"; "u2"]
  ∧ ∃ message h,
      room_messages (manager world_two_in_room) !! "u1" = Some h
      ∧ room_messages
          (manager (world_of (_handle_send_message env_same_code "u2" say_hi
                                world_two_in_room))) !! "u1"
        = Some (push_message message h).
Proof.
  split; [vm_compute; reflexivity|].
  destruct (X9_send_message_delivery env_same_code world_two_in_room "u2"
              (User.mk "u2" "Bo" "en" (Some "u1")) "u1" ["u0"; "u2"] say_hi)
    as (message & h & H);
    [apply demo_uuid4_good|apply (reachable_run _ two_in_room)
    |vm_compute; reflexivity|reflexivity|vm_compute; reflexivity
    |vm_compute; discriminate|].
  destruct H as (_ & _ & _ & _ & _ & _ & _ & _ & _ & H1 & H2 & _).
  exists message, h. exact (conj H1 H2).
Defined.

(** ** main.py: the HTTP queries *)

(** X10. [GET /api/rooms/{room_code}] on a reachable store: a 404 means
    that the upper-cased code is not in the code table, so the test of
    the room behind a code never fails; otherwise the answer gives the
    room the code resolves to, the code as upper-cased from the request
    and a member count of at least one. The query answers 404 exactly
    when JOIN_ROOM with the same code answers INVALID_ROOM_CODE to a
    registered user and does nothing else. *)
Theorem X10_room_lookup_by_code env w room_code :
  good_env env → reachable env w →
  match get_room_info env (manager w) room_code with
  | HTTPException status_code detail =>
      status_code = 404 ∧ detail = "Room not found"
      ∧ room_codes (manager w) !! str_upper env room_code = None
  | Ok body =>
      ∃ rid room l,
        room_codes (manager w) !! str_upper env room_code = Some rid
        ∧ rooms (manager w) !! rid = Some room
        ∧ room_members (manager w) !! rid = Some l
        ∧ body = RoomPublic.mk (Room.name room) (str_upper env room_code)
                   (length l) (Room.created_at room)
        ∧ 1 ≤ RoomPublic.memberCount body
  end
  ∧ ∀ uid usr (data : Request),
      users (manager w) !! uid = Some usr →
      Py.dict_get data "roomCode" "" = room_code →
      (get_room_info env (manager w) room_code
       = HTTPException 404 "Room not found"
       ↔ _handle_join_room env uid data w
         = (w, [(uid, ErrorResponse "INVALID_ROOM_CODE" "Room not found")],
            Returned tt)).
Proof.
  intros Hgood Hreach.
  pose proof (Inv_reachable _ _ Hgood Hreach) as HI.
  assert (∀ rid, room_codes (manager w) !! str_upper env room_code = Some rid →
            ∃ room l,
              rooms (manager w) !! rid = Some room
              ∧ Room.code room = str_upper env room_code
              ∧ room_members (manager w) !! rid = Some l ∧ l ≠ []
              ∧ Py.truthy rid = true) as Hlive.
  { intros rid Hk. destruct (inv_codes _ _ _ HI _ _ Hk) as (room & Hroom & Hc).
    assert (is_Some (room_members (manager w) !! rid)) as [l Hl].
    { apply (inv_members_dom _ _ _ HI). eauto. }
    exists room, l. split_and!; try done.
    - by destruct (inv_members _ _ _ HI _ _ Hl).
    - eapply generated_truthy; [done|].
      apply (inv_room_gen _ _ _ HI). eauto. }
  split.
  - unfold get_room_info. cbn zeta.
    destruct (room_codes (manager w) !! str_upper env room_code) as [rid|] eqn:Hk;
      [|done].
    destruct (Hlive rid eq_refl) as (room & l & Hroom & Hc & Hl & Hne & Ht).
    rewrite Ht, Hroom. cbn [negb]. exists rid, room, l.
    unfold Py.dict_get. rewrite Hl, Hc. cbn [default RoomPublic.memberCount].
    split_and!; try done. destruct l; [done|cbn; lia].
  - intros uid usr data Hu <-.
    assert (get_room_info env (manager w) (Py.dict_get data "roomCode" "")
            = HTTPException 404 "Room not found"
            ↔ join_target env (manager w) data = None) as ->.
    { unfold get_room_info, join_target. cbn zeta.
      destruct (room_codes (manager w) !! _) as [rid|] eqn:Hk; [|done].
      destruct (Hlive rid eq_refl) as (room & l & Hroom & _ & _ & _ & Ht).
      cbn [mbind option_bind]. rewrite Ht, Hroom. cbn [negb fmap option_fmap
        option_map]. split; discriminate. }
    split.
    + intros Hnone. rewrite (join_room_invalid _ _ _ _ _ Hu Hnone).
      by erewrite unicast_registered by eauto.
    + intros Hrun.
      destruct (join_target env (manager w) data) as [[rid room]|] eqn:Htg; [|done].
      exfalso.
      destruct (room_members (join_mgr0 uid data rid (manager w)) !! rid)
        as [l|] eqn:Hl.
      * destruct (join_room_run env uid data w usr rid room l Hu Htg Hl)
          as (members & member & c & Hrun').
        rewrite Hrun' in Hrun. injection Hrun as _ Hs.
        assert ((uid, RoomJoined room members
                        (Py.last_n 50
                           (Py.dict_get
                              (room_messages
                                 (join_mgr uid data rid (manager w))) rid [])))
                  ∈ [(uid, ErrorResponse "INVALID_ROOM_CODE" "Room not found")])
          as Hin.
        { rewrite <- Hs. rewrite !elem_of_app. right. left.
          erewrite unicast_registered; [by left|exact HI|by eauto|].
          apply session_kept_join. }
        apply list_elem_of_singleton in Hin. discriminate.
      * rewrite (join_room_raises _ _ _ _ _ _ _ Hu Htg Hl) in Hrun.
        discriminate.
Qed.

Lemma X10_room_lookup_by_code_witness :
  get_room_info env_same_code (manager world_two_in_room) "aaaaaa"
  = Ok (RoomPublic.mk "Trip" "AAAAAA" 2 0%Z)
  ∧ ∃ rid room l,
      room_codes (manager world_two_in_room) !! str_upper env_same_code "aaaaaa" = Some rid
      ∧ rooms (manager world_two_in_room) !! rid = Some room
      ∧ room_members (manager world_two_in_room) !! rid = Some l.
Proof.
  assert (get_room_info env_same_code (manager world_two_in_room) "aaaaaa"
          = Ok (RoomPublic.mk "Trip" "AAAAAA" 2 0%Z)) as Hq
    by (vm_compute; reflexivity).
  split; [exact Hq|].
  destruct (X10_room_lookup_by_code env_same_code world_two_in_room "aaaaaa"
              (demo_uuid4_good _ _ _ _) (reachable_run _ two_in_room)) as [H _].
  rewrite Hq in H. destruct H as (rid & room & l & H1 & H2 & H3 & _).
  exists rid, room, l. exact (conj H1 (conj H2 H3)).
Defined.

Lemma size_same_keys {A B} (m1 : gmap string A) (m2 : gmap string B) :
  (∀ k, is_Some (m1 !! k) ↔ is_Some (m2 !! k)) → size m1 = size m2.
Proof.
  intros H. rewrite <- !(size_dom (D := gset string)). f_equal.
  apply set_eq. intros k. by rewrite !elem_of_dom.
Qed.

Lemma size_set_omap_le (f : string → option string) (X : gset string) :
  size (set_omap (D := gset string) f X) ≤ size X.
Proof.
  induction X as [|x X Hx IH] using set_ind_L.
  - by rewrite set_omap_empty.
  - rewrite set_omap_union_L, size_union_alt.
    rewrite (size_union {[x]} X) by (by apply disjoint_singleton_l).
    rewrite size_singleton.
    set (one := set_omap (C := gset string) (D := gset string) f {[x]}).
    assert (size (set_omap (D := gset string) f X ∖ one) ≤ size X) as Hrest.
    { etrans; [|exact IH]. apply subseteq_size, subseteq_difference_l.
      reflexivity. }
    assert (size one ≤ 1) as Hone.
    { subst one. destruct (f x) as [y|] eqn:Hy.
      - by rewrite (set_omap_singleton_Some_L _ _ _ Hy), size_singleton.
      - rewrite (set_omap_singleton_None_L _ _ Hy), size_empty. lia. }
    lia.
Qed.

Lemma sum_lengths_le {A} (l : list (list A)) n :
  Forall (λ h, length h ≤ n) l → sum_list (length <$> l) ≤ n * length l.
Proof.
  induction 1 as [|h l Hh _ IH]; cbn; [lia|]. nia.
Qed.

(** X11. [GET /api/stats] and [GET /api/health] on a reachable store:
    the connection count is the number of registered users, the room
    count is the number of member lists, there are no more rooms than
    connected users, and the total of stored messages is at most 100
    per room; both queries report the same two counts. *)
Theorem X11_stats_bounds env w :
  good_env env → reachable env w →
  let s := get_stats (manager w) in
  let h := health_check (manager w) in
  Stats.activeConnections s = size (users (manager w))
  ∧ Stats.activeRooms s = size (room_members (manager w))
  ∧ Stats.activeRooms s ≤ Stats.activeConnections s
  ∧ Stats.totalMessages s ≤ 100 * Stats.activeRooms s
  ∧ Health.connections h = Stats.activeConnections s
  ∧ Health.rooms h = Stats.activeRooms s.
Proof.
  intros Hgood Hreach. cbn zeta.
  pose proof (Inv_reachable _ _ Hgood Hreach) as HI.
  unfold get_stats, health_check.
  cbn [Stats.activeConnections Stats.activeRooms Stats.totalMessages
       Health.connections Health.rooms].
  assert (size (active_connections (manager w)) = size (users (manager w)))
    as Hconn.
  { apply size_same_keys. intros k. symmetry. apply (inv_conn _ _ _ HI). }
  assert (size (rooms (manager w)) = size (room_members (manager w)))
    as Hrooms by apply size_same_keys, (inv_members_dom _ _ _ HI).
  assert (size (rooms (manager w)) = size (room_messages (manager w)))
    as Hhist by apply size_same_keys, (inv_messages_dom _ _ _ HI).
  split_and!; try done.
  - rewrite Hconn, Hrooms, <- !(size_dom (D := gset string)).
    etrans; [|apply (size_set_omap_le
                       (λ u, users (manager w) !! u ≫= User.room_id))].
    apply subseteq_size. intros rid [l Hl]%elem_of_dom.
    destruct (inv_members _ _ _ HI _ _ Hl) as (Hne & _ & Hall).
    destruct l as [|u l]; [done|].
    destruct (Hall u) as (usr & Hu & Hr); [by left|].
    apply elem_of_set_omap. exists u. split; [apply elem_of_dom; eauto|].
    rewrite Hu. exact Hr.
  - rewrite Hhist, <- length_map_to_list, <- (length_fmap snd).
    apply sum_lengths_le, Forall_forall. intros h Hin.
    apply list_elem_of_fmap in Hin as ([rid h'] & -> & Hin).
    apply elem_of_map_to_list in Hin. apply (inv_history _ _ _ HI _ _ Hin).
Qed.

Lemma X11_stats_bounds_witness :
  get_stats (manager world_two_in_room) = Stats.mk 2 1 0
  ∧ Stats.activeRooms (get_stats (manager world_two_in_room))
    ≤ Stats.activeConnections (get_stats (manager world_two_in_room)).
Proof.
  split; [vm_compute; reflexivity|].
  pose proof (X11_stats_bounds env_same_code world_two_in_room
                (demo_uuid4_good _ _ _ _) (reachable_run _ two_in_room)) as H.
  cbn zeta in H. destruct H as (_ & _ & H & _). exact H.
Defined.

(** ** main.py: the WebSocket endpoint *)

Lemma run_app env evs1 evs2 w :
  (run env (evs1 ++ evs2) w).1 = (run env evs2 (run env evs1 w).1).1.
Proof.
  revert w. induction evs1 as [|ev evs1 IH]; intros w; [done|].
  cbn [app run fst]. apply IH.
Qed.

Lemma reachable_run_from env evs w :
  reachable env w → reachable env (run env evs w).1.
Proof. intros [evs0 ->]. exists (evs0 ++ evs). by rewrite run_app. Qed.

Lemma handle_message_returns env uid data w :
  outcome_of (handle_message env uid data w) = Returned tt.
Proof.
  unfold handle_message, try_except. cbn zeta.
  match goal with
  | |- context [match ?b w with _ => _ end] =>
      destruct (b w) as [[w1 o1] [[]|e]]
  end; [done|].
  unfold _send_error. by rewrite send_personal_message_run.
Qed.

Lemma receive_loop_run env uid frames w :
  outcome_of (receive_loop env uid frames w) = Returned tt
  ∧ world_of (receive_loop env uid frames w)
    = (run env (events_of uid frames) w).1.
Proof.
  revert w. induction frames as [|frame frames IH]; intros w; [done|].
  destruct frame as [message| | |]; cbn [receive_loop events_of run fst step].
  - pose proof (handle_message_returns env uid message w) as Hret.
    destruct (handle_message env uid message w) as [[w1 o1] out] eqn:Hrun.
    unfold outcome_of in Hret. cbn [snd] in Hret. subst out.
    erewrite bind_run by exact Hrun.
    destruct (IH w1) as [Hout Hw].
    destruct (receive_loop env uid frames w1) as [[w2 o2] out2].
    unfold outcome_of, world_of in *. cbn [after fst snd] in *. done.
  - destruct (users (manager w) !! uid) as [usr|] eqn:Hu.
    + by rewrite (disconnect_run _ _ _ Hu).
    + by rewrite (disconnect_unregistered _ _ Hu).
  - erewrite bind_run by apply send_personal_message_run.
    destruct (IH w) as [Hout Hw].
    destruct (receive_loop env uid frames w) as [[w2 o2] out2].
    unfold outcome_of, world_of in *. cbn [after fst snd] in *. done.
  - destruct (users (manager w) !! uid) as [usr|] eqn:Hu.
    + by rewrite (disconnect_run _ _ _ Hu).
    + by rewrite (disconnect_unregistered _ _ Hu).
Qed.

Lemma session_registered env uid frames w :
  let m' := manager (run env (events_of uid frames) w).1 in
  if existsb ends_session frames then users m' !! uid = None
  else active_connections m' = active_connections (manager w)
       ∧ (is_Some (users m' !! uid) ↔ is_Some (users (manager w) !! uid)).
Proof.
  cbn zeta. revert w.
  induction frames as [|frame frames IH]; intros w; [done|].
  destruct frame as [message| | |];
    cbn [existsb ends_session orb events_of run fst step].
  - specialize (IH (world_of (handle_message env uid message w))).
    destruct (session_kept_handle_message env uid message w) as [Hc Hu].
    destruct (existsb ends_session frames); [done|].
    destruct IH as [-> ->]. done.
  - apply disconnect_unregisters.
  - apply IH.
  - apply disconnect_unregisters.
Qed.

Lemma after_parts {A} o (r : World * list Send * Outcome A) :
  world_of (after o r) = world_of r ∧ sent_of (after o r) = o ++ sent_of r
  ∧ outcome_of (after o r) = outcome_of r.
Proof. by destruct r as [[??]?]. Qed.

(** X12. A session of the WebSocket endpoint, from a reachable store:
    the endpoint returns; the store it leaves is the one the manager
    reaches by connecting, handling one request per JSON object
    received and disconnecting at the frame that ends the loop (the
    close of the socket, or a JSON value that is not an object); the
    first event sent is CONNECTED to the new user. Once the loop has
    ended the user is registered nowhere: not as a user, not as a
    socket, not in any member list. Until then the user stays
    registered with the socket, whatever was received. *)
Theorem X12_session_lifetime env w websocket frames :
  good_env env → reachable env w →
  let uid := uuid4 env (uuid_calls w) in
  let r := websocket_endpoint env websocket frames w in
  let m' := manager (world_of r) in
  outcome_of r = Returned tt
  ∧ world_of r = (run env (Connect websocket :: events_of uid frames) w).1
  ∧ reachable env (world_of r)
  ∧ head (sent_of r) = Some (uid, Connected uid)
  ∧ if existsb ends_session frames
    then users m' !! uid = None ∧ active_connections m' !! uid = None
         ∧ ∀ rid l, room_members m' !! rid = Some l → uid ∉ l
    else is_Some (users m' !! uid)
         ∧ active_connections m' !! uid = Some websocket.
Proof.
  intros Hgood Hreach uid r m'.
  assert (world_of r = (run env (Connect websocket :: events_of uid frames) w).1
          ∧ outcome_of r = Returned tt
          ∧ head (sent_of r) = Some (uid, Connected uid)) as (Hw & Hout & Hhd).
  { subst r. unfold websocket_endpoint.
    erewrite bind_run by apply connect_run. fold uid.
    set (w1 := mkWorld
                 (upd_users <[uid := User.new uid]>
                    (upd_active_connections <[uid := websocket]> (manager w)))
                 (S (uuid_calls w)) (draw_calls w) (clock_calls w)).
    destruct (receive_loop_run env uid frames w1) as [Hout Hw].
    destruct (receive_loop env uid frames w1) as [[w2 o2] out] eqn:Hrun.
    unfold outcome_of, world_of in Hout, Hw. cbn [fst snd] in Hout, Hw.
    subst out. rewrite (try_except_run_ok _ _ _ _ _ Hrun).
    unfold world_of, sent_of, outcome_of. cbn [after fst snd app head].
    split_and!; try done.
    cbn [run fst]. by rewrite step_world, connect_run. }
  assert (reachable env (world_of r)) as Hreach'.
  { rewrite Hw. by apply reachable_run_from. }
  pose proof (Inv_reachable _ _ Hgood Hreach') as HI'.
  split_and!; try done.
  subst m'. revert HI'. rewrite Hw. cbn [run fst].
  rewrite step_world, connect_run. fold uid. unfold world_of. cbn [fst].
  intros HI'.
  pose proof (session_registered env uid frames
                (mkWorld
                   (upd_users <[uid := User.new uid]>
                      (upd_active_connections <[uid := websocket]>
                         (manager w)))
                   (S (uuid_calls w)) (draw_calls w) (clock_calls w))) as Hs.
  cbn zeta in Hs. destruct (existsb ends_session frames).
  - split_and!; [done| |].
    + apply eq_None_not_Some. intros Hc%(inv_conn _ _ _ HI').
      rewrite Hs in Hc. by destruct Hc.
    + intros rid l Hl Hin.
      destruct (inv_members _ _ _ HI' _ _ Hl) as (_ & _ & Hall).
      destruct (Hall _ Hin) as (usr & Hu & _). congruence.
  - destruct Hs as [-> ->]. mgr_simpl. rewrite !lookup_insert_eq. eauto.
Qed.

Lemma X12_session_lifetime_witness :
  sent_of (websocket_endpoint env_same_code 1
             [Object create_plain; NotJson; Closed] init_world)
  = [("u0", Connected "u0");
     ("u0", RoomCreated "u1" "AAAAAA"
              (Room.mk "u1" "AAAAAA" "New Room" "u0" 0%Z)
              [Member.mk "u0" "Host" "en" true 1%Z]);
     ("u0", ErrorResponse "INVALID_JSON" "Invalid JSON format")]
  ∧ users (manager (world_of (websocket_endpoint env_same_code 1
                                [Object create_plain; NotJson; Closed]
                                init_world))) !! "u0" = None.
Proof.
  split; [vm_compute; reflexivity|].
  pose proof (X12_session_lifetime env_same_code init_world 1
                [Object create_plain; NotJson; Closed]
                (demo_uuid4_good _ _ _ _) (reachable_run _ [])) as H.
  cbn zeta in H. destruct H as (_ & _ & _ & _ & H).
  change (existsb ends_session [Object create_plain; NotJson; Closed])
    with true in H.
  destruct H as (H & _). exact H.
Defined.

(** ** Requests of a user that is not registered *)

(** X13. A request that arrives under an identifier that is not
    registered (a session that has ended, or an identifier never
    issued) has no effect at all, whatever its type and fields: the
    store stays as it is and nothing is sent, not even an error. *)
Theorem X13_unregistered_request_is_ignored env w uid data :
  good_env env → reachable env w → users (manager w) !! uid = None →
  handle_message env uid data w = (w, [], Returned tt).
Proof.
  intros Hgood Hreach Hu.
  pose proof (Inv_reachable _ _ Hgood Hreach) as HI.
  assert (∀ msg, send_personal_message msg uid w = (w, [], Returned tt))
    as Hsend.
  { intros msg. rewrite send_personal_message_run.
    by rewrite (unicast_unregistered _ _ _ _ _ HI Hu). }
  unfold handle_message. cbn zeta. apply try_except_run_ok.
  repeat match goal with
         | |- (if ?b then _ else _) w = _ => destruct b
         end.
  - by apply create_room_unregistered.
  - by apply join_room_unregistered.
  - unfold _handle_leave_room. rewrite leave_room_run.
    rewrite leave_mgr_noop, leave_sends_noop, set_manager_id
      by (by apply current_room_None_user).
    reflexivity.
  - by apply send_message_unregistered.
  - by apply update_profile_unregistered.
  - rewrite get_room_info_not_in_room by (by apply current_room_None_user).
    by rewrite (unicast_unregistered _ _ _ _ _ HI Hu).
  - apply Hsend.
  - apply Hsend.
Qed.

Lemma X13_unregistered_request_is_ignored_witness :
  users (manager world_solo) !! "u7" = None
  ∧ handle_message env_same_code "u7" say_hi world_solo
    = (world_solo, [], Returned tt).
Proof.
  assert (users (manager world_solo) !! "u7" = None) as Hu
    by (vm_compute; reflexivity).
  split; [exact Hu|].
  exact (X13_unregistered_request_is_ignored env_same_code world_solo "u7" say_hi
           (demo_uuid4_good _ _ _ _) (reachable_run _ solo_room) Hu).
Defined.

(** ** Broadcasts *)

Lemma excluded_false ex u : excluded ex u = false ↔ ex ≠ Some u ∨ u = "".
Proof.
  unfold excluded. destruct ex as [v|]; cbn; [|split; [by left|done]].
  case_bool_decide as Hv.
  - injection Hv as ->. rewrite andb_true_r. destruct u; cbn.
    + split; [by right|done].
    + split; [done|]. by intros [?|?].
  - rewrite andb_false_r. split; [by left|done].
Qed.

(** X14. [broadcast_to_room] never changes the store and never raises.
    The message goes, in the order of the member list, to the members
    whose socket is registered, but for the excluded user when one is
    given; an excluded user that is the empty string excludes nobody.
    A room without member list gets nothing. *)
Theorem X14_broadcast_to_room_reaches message room_id exclude_user w :
  let r := broadcast_to_room message room_id exclude_user w in
  let l := default [] (room_members (manager w) !! room_id) in
  world_of r = w ∧ outcome_of r = Returned tt
  ∧ sent_of r
    = to_all message
        (filter (λ u, (exclude_user ≠ Some u ∨ u = "")
                      ∧ is_Some (active_connections (manager w) !! u)) l)
  ∧ (room_members (manager w) !! room_id = None → sent_of r = [])
  ∧ (∀ s, s ∈ sent_of r → s.1 ≠ "" → exclude_user ≠ Some s.1)
  ∧ (exclude_user = Some "" →
     sent_of r = sent_of (broadcast_to_room message room_id None w)).
Proof.
  cbn zeta. rewrite !broadcast_to_room_run.
  unfold world_of, sent_of, outcome_of. cbn [fst snd].
  assert (∀ ex,
    recipients (manager w) (default [] (room_members (manager w) !! room_id)) ex
    = filter (λ u, (ex ≠ Some u ∨ u = "")
                   ∧ is_Some (active_connections (manager w) !! u))
        (default [] (room_members (manager w) !! room_id))) as Hrec.
  { intros ex. unfold recipients. apply list_filter_iff. intros u.
    by rewrite excluded_false. }
  split_and!; try done.
  - by rewrite Hrec.
  - by intros ->.
  - intros s [_ Hin]%to_all_elem_of Hne Hex.
    apply recipients_elem_of in Hin as (_ & Hx & _).
    apply excluded_false in Hx as [?|?]; done.
  - intros ->. rewrite !Hrec. f_equal. apply list_filter_iff. intros u.
    split; (intros [_ ?]; split; [|done]).
    + by left.
    + destruct (decide (u = "")) as [->|Hne]; [by right|left; congruence].
Qed.

(** ** Rooms never change *)

Lemma rooms_kept_same env w w' :
  uuid_calls w ≤ uuid_calls w' → rooms (manager w') = rooms (manager w) →
  rooms_kept env w w'.
Proof. intros Hn Hr. split; [done|]. intros rid r'. rewrite Hr. by left. Qed.

Lemma rooms_kept_leave env w n' d c uid :
  good_env env → Inv env w → uuid_calls w ≤ n' →
  rooms_kept env w (mkWorld (leave_mgr uid (manager w)) n' d c).
Proof.
  intros Hgood HI Hn. split; [done|]. intros rid r' Hr. left.
  by eapply leave_mgr_rooms_sub.
Qed.

Lemma rooms_kept_handle_message env uid data w :
  good_env env → Inv env w →
  rooms_kept env w (world_of (handle_message env uid data w)).
Proof.
  intros Hgood HI.
  apply (handle_message_world env uid data w (rooms_kept env w)).
  - by apply rooms_kept_same.
  - destruct (users (manager w) !! uid) as [usr|] eqn:Hu.
    + erewrite create_room_run by done. unfold world_of. cbn [fst].
      split; [cbn; lia|]. intros rid r'. unfold create_mgr, created_room.
      mgr_simpl. cbn [Room.id].
      destruct (decide (rid = uuid4 env (uuid_calls w))) as [->|Hne];
        [by right|].
      rewrite lookup_insert_ne by done. unfold rename_user. mgr_simpl.
      intros Hr. left. by eapply leave_mgr_rooms_sub.
    + rewrite create_room_unregistered by done. by apply rooms_kept_same.
  - destruct (users (manager w) !! uid) as [usr|] eqn:Hu;
      [|rewrite join_room_unregistered by done; by apply rooms_kept_same].
    destruct (join_target env (manager w) data) as [[rid room]|] eqn:Htg;
      [|erewrite join_room_invalid by done; by apply rooms_kept_same].
    destruct (join_mgr_rooms uid data rid (manager w)) as (Hr2 & _ & Hr0 & _).
    destruct (room_members (join_mgr0 uid data rid (manager w)) !! rid)
      as [l|] eqn:Hl.
    + destruct (join_room_run env uid data w usr rid room l Hu Htg Hl)
        as (members & member & c & ->).
      unfold world_of. cbn [fst]. split; [done|]. intros rid' r'.
      mgr_simpl. rewrite Hr2. intros Hr. left.
      by eapply leave_mgr_rooms_sub.
    + erewrite join_room_raises by done.
      unfold world_of. cbn [fst]. split; [done|]. intros rid' r'.
      mgr_simpl. rewrite Hr0. intros Hr. left.
      by eapply leave_mgr_rooms_sub.
  - rewrite leave_room_run. by apply rooms_kept_leave.
  - destruct (users (manager w) !! uid) as [usr|] eqn:Hu;
      [|rewrite send_message_unregistered by done; by apply rooms_kept_same].
    destruct (current_room (manager w) uid) as [rid0|] eqn:Hc;
      [|erewrite send_message_not_in_room by done; by apply rooms_kept_same].
    destruct (decide (str_strip env (Py.dict_get data "text" "") = ""));
      [erewrite send_message_blank by done; by apply rooms_kept_same|].
    erewrite send_message_run by done.
    apply rooms_kept_same; unfold world_of; cbn [fst uuid_calls manager];
      [lia|].
    unfold store_message. by case_match.
  - destruct (users (manager w) !! uid) as [usr|] eqn:Hu;
      [|rewrite update_profile_unregistered by done;
        by apply rooms_kept_same].
    destruct (update_profile_run env uid data w usr Hu) as (c & ->).
    apply rooms_kept_same; [done|].
    apply (profile_mgr_others uid data (manager w)).
  - destruct (get_room_info_run env uid w) as (c & o & ->).
    by apply rooms_kept_same.
Qed.

Lemma rooms_kept_step env ev w :
  good_env env → Inv env w → rooms_kept env w (world_of (step env ev w)).
Proof.
  intros Hgood HI. rewrite step_world. destruct ev as [ws|uid|uid data].
  - rewrite connect_run. apply rooms_kept_same; cbn; [lia|done].
  - destruct (users (manager w) !! uid) as [usr|] eqn:Hu.
    + rewrite (disconnect_run _ _ _ Hu). unfold world_of. cbn [fst].
      split; [done|]. intros rid r'. mgr_simpl. intros Hr. left.
      by eapply leave_mgr_rooms_sub.
    + rewrite (disconnect_unregistered _ _ Hu). by apply rooms_kept_same.
  - by apply rooms_kept_handle_message.
Qed.

Lemma rooms_kept_run env evs w rid r' :
  good_env env → Inv env w →
  rooms (manager (run env evs w).1) !! rid = Some r' →
  rooms (manager w) !! rid = Some r' ∨ ¬ generated env (uuid_calls w) rid.
Proof.
  intros Hgood. revert w.
  induction evs as [|ev evs IH]; intros w HI Hr; [by left|].
  cbn [run fst] in Hr.
  destruct (rooms_kept_step env ev w Hgood HI) as [Hn Hstep].
  destruct (IH _ (Inv_step _ ev _ Hgood HI) Hr) as [Hr1|Hnew].
  - destruct (Hstep _ _ Hr1) as [?| ->]; [by left|right].
    by apply generated_fresh.
  - right. intros Hgen. apply Hnew. by eapply generated_mono.
Qed.

(** X15. A room never changes while it exists: whatever happens after,
    a room found under the identifier of a room of a reachable store is
    that same room, with the name, the code, the host and the creation
    time it had. In particular the host of a room is never replaced,
    also when the host has left it, and an identifier is never given to
    another room. *)
Theorem X15_rooms_are_immutable env evs w rid r r' :
  good_env env → reachable env w →
  rooms (manager w) !! rid = Some r →
  rooms (manager (run env evs w).1) !! rid = Some r' →
  r' = r.
Proof.
  intros Hgood Hreach Hr Hr'.
  pose proof (Inv_reachable _ _ Hgood Hreach) as HI.
  destruct (rooms_kept_run env evs w rid r' Hgood HI Hr') as [?|Hnew];
    [congruence|].
  destruct Hnew. apply (inv_room_gen _ _ _ HI). eauto.
Qed.

Lemma X15_rooms_are_immutable_witness :
  room_members (manager (run env_same_code [Disconnect "u0"]
                           world_two_in_room).1) !! "u1" = Some ["u2"]
  ∧ ∀ r',
      rooms (manager (run env_same_code [Disconnect "u0"]
                        world_two_in_room).1) !! "u1" = Some r' →
      r' = Room.mk "u1" "AAAAAA" "Trip" "u0" 0%Z.
Proof.
  split; [vm_compute; reflexivity|]. intros r'.
  apply (X15_rooms_are_immutable env_same_code [Disconnect "u0"]
           world_two_in_room "u1");
    [apply demo_uuid4_good|apply (reachable_run _ two_in_room)
    |vm_compute; reflexivity].
Defined.

(** ** check_vocab.py: greedy longest-match *)

Lemma slice_from s i k : CheckVocab.slice s i (i + k) = take k (drop i s).
Proof. unfold CheckVocab.slice. f_equal. lia. Qed.

Lemma longest_Some v s i n k t :
  CheckVocab.longest v s i n = Some (k, t) →
  1 ≤ k ≤ n ∧ t.1 = take k (drop i s) ∧ v !! t.1 = Some t.2
  ∧ ∀ k', k < k' → k' ≤ n → v !! take k' (drop i s) = None.
Proof.
  induction n as [|n IH]; [done|]. cbn [CheckVocab.longest].
  rewrite slice_from.
  destruct (v !! take (S n) (drop i s)) as [id|] eqn:Hv.
  - intros [= <- <-]. cbn [fst snd]. split_and!; try done; try lia.
  - intros (Hk & Ht & Hin & Hmax)%IH. split_and!; try done; try lia.
    intros k' Hlt Hle. destruct (decide (k' = S n)) as [->|]; [done|].
    apply Hmax; lia.
Qed.

Lemma longest_None v s i n :
  CheckVocab.longest v s i n = None →
  ∀ k, 1 ≤ k → k ≤ n → v !! take k (drop i s) = None.
Proof.
  induction n as [|n IH]; [intros _ k; lia|]. cbn [CheckVocab.longest].
  rewrite slice_from.
  destruct (v !! take (S n) (drop i s)) as [id|] eqn:Hv; [done|].
  intros Hn k ? ?. destruct (decide (k = S n)) as [->|]; [done|].
  apply IH; [done|lia..].
Qed.

Lemma loop_greedy v s fuel i tokens :
  i ≤ length s → length s - i < fuel →
  ∃ toks,
    CheckVocab.loop fuel v s i tokens = Some (tokens ++ toks)
    ∧ CheckVocab.greedy v (drop i s) toks
    ∧ length toks ≤ length s - i.
Proof.
  revert i tokens. induction fuel as [|fuel IH]; intros i tokens Hi Hf; [lia|].
  cbn [CheckVocab.loop]. case_bool_decide as Hlt.
  2:{ exists []. rewrite app_nil_r, drop_ge by lia.
      split_and!; [done|constructor|cbn; lia]. }
  destruct (CheckVocab.longest v s i (20 `min` (length s - i)))
    as [[k t]|] eqn:Hl.
  - apply longest_Some in Hl as (Hk & Ht & Hin & Hmax).
    destruct (IH (i + k) (tokens ++ [t])) as (toks & -> & Hg & Hlen);
      [lia|lia|].
    exists (t :: toks). rewrite <- app_assoc. split_and!; [done| |cbn; lia].
    destruct t as [sub id]. cbn [fst snd] in *. subst sub.
    apply CheckVocab.greedy_match.
    + unfold CheckVocab.longest_prefix. rewrite length_drop.
      split_and!; [lia|lia|lia|done|].
      intros k' ???. apply Hmax; lia.
    + by rewrite drop_drop.
  - pose proof (longest_None _ _ _ _ Hl) as Hnone.
    destruct (IH (i + 1) (tokens ++ [(CheckVocab.unk, 3%Z)]))
      as (toks & -> & Hg & Hlen); [lia|lia|].
    exists ((CheckVocab.unk, 3%Z) :: toks). rewrite <- app_assoc.
    split_and!; [done| |cbn; lia].
    apply CheckVocab.greedy_unk.
    + intros Hnil. apply (f_equal length) in Hnil.
      rewrite length_drop in Hnil. cbn in Hnil. lia.
    + intros k ???. rewrite length_drop in *. apply Hnone; lia.
    + by rewrite drop_drop.
Qed.

Lemma tokenize_greedy v text :
  ∃ tokens,
    CheckVocab.tokenize v text = Some tokens
    ∧ CheckVocab.greedy v (CheckVocab.marker :: text) tokens
    ∧ length tokens ≤ S (length text).
Proof.
  unfold CheckVocab.tokenize. cbn zeta.
  destruct (loop_greedy v (CheckVocab.marker :: text)
              (S (length (CheckVocab.marker :: text))) 0 [])
    as (toks & Hrun & Hg & Hlen); [lia|lia|].
  exists toks. rewrite Hrun. cbn [app drop length] in *.
  split_and!; [done|done|lia].
Qed.

Lemma greedy_functional v s toks1 toks2 :
  CheckVocab.greedy v s toks1 → CheckVocab.greedy v s toks2 → toks1 = toks2.
Proof.
  intros H1. revert toks2.
  induction H1 as [|s k id rest (Hk & Hks & Hin & Hmax) _ IH
                   |s rest Hne Hno _ IH]; intros toks2 H2.
  - inversion H2 as [|s' k' id' rest' (Hk' & Hks' & _) _|s' rest' Hne' _ _];
      subst; [done|cbn in *; lia|done].
  - inversion H2 as [|s' k' id' rest' (Hk' & Hks' & Hin' & Hmax') Hrest'
                     |s' rest' Hne' Hno' _]; subst.
    + cbn in *; lia.
    + assert (k' = k) as ->.
      { destruct (lt_eq_lt_dec k k') as [[Hlt| ->]|Hlt]; [|done|].
        - rewrite (Hmax k') in Hin' by lia. done.
        - rewrite (Hmax' k) in Hin by lia. done. }
      f_equal; [congruence|]. by apply IH.
    + rewrite (Hno' k) in Hin by lia. done.
  - inversion H2 as [|s' k' id' rest' (Hk' & Hks' & Hin' & _) _
                     |s' rest' _ _ Hrest']; subst.
    + done.
    + rewrite (Hno k') in Hin' by lia. done.
    + f_equal. by apply IH.
Qed.

Lemma greedy_tokens_known v s toks :
  CheckVocab.greedy v s toks →
  Forall (λ t, t = (CheckVocab.unk, 3%Z)
               ∨ (v !! t.1 = Some t.2 ∧ 1 ≤ length t.1 ≤ 20)) toks.
Proof.
  induction 1 as [|s k id rest (Hk & Hks & Hin & _) _ IH|s rest _ _ _ IH];
    constructor; try done.
  - right. cbn [fst snd]. rewrite length_take. split; [done|lia].
  - by left.
Qed.

(** X16. The simulated tokenization ends for every vocabulary and every
    text, and its tokens are the greedy longest-match tokens of the
    marker followed by the text: at each position the longest
    vocabulary entry of at most 20 characters that starts there, with
    its id, or the unknown token with id 3 for one character when no
    entry of 1 to 20 characters starts there. There is at least one
    token and at most one per character, and no other token list is a
    greedy longest-match of the same text. *)
Theorem X16_tokenize_is_greedy v text :
  ∃ tokens,
    CheckVocab.tokenize v text = Some tokens
    ∧ CheckVocab.greedy v (CheckVocab.marker :: text) tokens
    ∧ 1 ≤ length tokens ≤ S (length text)
    ∧ Forall (λ t, t = (CheckVocab.unk, 3%Z)
                   ∨ (v !! t.1 = Some t.2 ∧ 1 ≤ length t.1 ≤ 20)) tokens
    ∧ ∀ tokens',
        CheckVocab.greedy v (CheckVocab.marker :: text) tokens' →
        tokens' = tokens.
Proof.
  destruct (tokenize_greedy v text) as (tokens & Hrun & Hg & Hlen).
  exists tokens. split_and!; try done.
  - inversion Hg; cbn; lia.
  - by eapply greedy_tokens_known.
  - intros tokens' Hg'. by eapply greedy_functional.
Qed.

Lemma greedy_concat v s toks :
  CheckVocab.greedy v s toks →
  (∀ c, c ∈ s → is_Some (v !! [c])) →
  concat toks.*1 = s ∧ Forall (λ t, v !! t.1 = Some t.2) toks.
Proof.
  induction 1 as [|s k id rest (Hk & Hks & Hin & _) _ IH|s rest Hne Hno _ IH];
    intros Hall.
  - done.
  - destruct IH as [Hc Hf].
    { intros c Hc. apply Hall. by apply (subseteq_drop k s). }
    cbn [fmap list_fmap concat fst]. split.
    + change (concat (list_fmap _ _ fst rest)) with (concat rest.*1).
      rewrite Hc. apply take_drop.
    + by constructor.
  - destruct s as [|c s]; [done|].
    destruct (Hall c) as [id Hid]; [by left|].
    assert (v !! [c] = None) as Hone by (apply (Hno 1); cbn; lia).
    rewrite Hone in Hid. done.
Qed.

(** X17. When every character of the marked text is itself an entry of
    the vocabulary, no unknown token is produced: every token is a
    vocabulary entry with its id, and the token texts, put end to end,
    are the marker followed by the text. *)
Theorem X17_tokens_spell_the_text v text tokens :
  (∀ c, c ∈ CheckVocab.marker :: text → is_Some (v !! [c])) →
  CheckVocab.tokenize v text = Some tokens →
  concat tokens.*1 = CheckVocab.marker :: text
  ∧ Forall (λ t, v !! t.1 = Some t.2) tokens.
Proof.
  intros Hall Hrun.
  destruct (tokenize_greedy v text) as (tokens0 & Hrun0 & Hg & _).
  assert (tokens0 = tokens) as -> by congruence.
  by apply (greedy_concat _ _ _ Hg).
Qed.

Lemma X17_tokens_spell_the_text_witness :
  CheckVocab.tokenize CheckVocab.demo_vocab [97; 98; 99]%N
  = Some [([CheckVocab.marker; 97%N], 20%Z); ([98; 99]%N, 21%Z)]
  ∧ concat ([([CheckVocab.marker; 97%N], 20%Z); ([98; 99]%N, 21%Z)].*1)
    = CheckVocab.marker :: [97; 98; 99]%N.
Proof.
  assert (CheckVocab.tokenize CheckVocab.demo_vocab [97; 98; 99]%N
          = Some [([CheckVocab.marker; 97%N], 20%Z); ([98; 99]%N, 21%Z)])
    as Hrun by (vm_compute; reflexivity).
  split; [exact Hrun|].
  refine (proj1 (X17_tokens_spell_the_text CheckVocab.demo_vocab [97; 98; 99]%N
                   _ _ Hrun)).
  intros c Hc.
  repeat (apply elem_of_cons in Hc as [->|Hc]; [vm_compute; eauto|]).
  by apply elem_of_nil in Hc.
Defined.

Lemma greedy_empty_vocab s toks :
  CheckVocab.greedy ∅ s toks →
  toks = replicate (length s) (CheckVocab.unk, 3%Z).
Proof.
  induction 1 as [|s k id rest (_ & _ & Hin & _) _ _|s rest Hne _ _ IH].
  - done.
  - by rewrite lookup_empty in Hin.
  - destruct s as [|c s]; [done|]. cbn [length replicate]. f_equal.
    rewrite IH. by rewrite length_drop; cbn; rewrite Nat.sub_0_r.
Qed.

(** X18. With an empty vocabulary every character of the marked text,
    the marker included, becomes the unknown token with id 3: the
    result has one more token than the text has characters. *)
Theorem X18_tokenize_without_vocabulary text :
  CheckVocab.tokenize ∅ text
  = Some (replicate (S (length text)) (CheckVocab.unk, 3%Z)).
Proof.
  destruct (tokenize_greedy ∅ text) as (tokens & -> & Hg & _).
  by rewrite (greedy_empty_vocab _ _ Hg).
Qed.

(** ** What every reachable store satisfies *)

(** X19. In every store the server can reach: users and sockets are
    registered together; a member list is never empty, names no user
    twice and belongs to an existing room; every user it names is
    connected and has that room as current room, so that no user is in
    two member lists; and a user whose current room still exists is in
    its member list. *)
Theorem X19_membership_in_reachable_stores env w :
  good_env env → reachable env w →
  let m := manager w in
  (∀ u, is_Some (users m !! u) ↔ is_Some (active_connections m !! u))
  ∧ (∀ rid l, room_members m !! rid = Some l →
       l ≠ [] ∧ NoDup l ∧ is_Some (rooms m !! rid)
       ∧ ∀ u, u ∈ l →
           is_Some (active_connections m !! u)
           ∧ ∃ usr, users m !! u = Some usr ∧ User.room_id usr = Some rid)
  ∧ in_one_room_at_most m
  ∧ ∀ u usr rid,
      users m !! u = Some usr → User.room_id usr = Some rid →
      is_Some (rooms m !! rid) →
      ∃ l, room_members m !! rid = Some l ∧ u ∈ l.
Proof.
  intros Hgood Hreach. cbn zeta.
  pose proof (Inv_reachable _ _ Hgood Hreach) as HI.
  split_and!.
  - apply (inv_conn _ _ _ HI).
  - intros rid l Hl. destruct (inv_members _ _ _ HI _ _ Hl) as (Hne & Hnd & Hall).
    split_and!; try done.
    + apply (inv_members_dom _ _ _ HI). eauto.
    + intros u Hin. split; [by eapply members_connected|by apply Hall].
  - intros u r1 r2 l1 l2 Hl1 Hl2 Hin1 Hin2.
    destruct (inv_members _ _ _ HI _ _ Hl1) as (_ & _ & Hall1).
    destruct (inv_members _ _ _ HI _ _ Hl2) as (_ & _ & Hall2).
    destruct (Hall1 _ Hin1) as (usr1 & Hu1 & Hr1).
    destruct (Hall2 _ Hin2) as (usr2 & Hu2 & Hr2). congruence.
  - intros u usr rid Hu Hr Hroom.
    apply (inv_members_dom _ _ _ HI) in Hroom as [l Hl].
    exists l. split; [done|]. by eapply (inv_current _ _ _ HI).
Qed.

Lemma X19_membership_in_reachable_stores_witness :
  room_members (manager world_two_in_room) !! "u1" = Some ["u0"; "u2"]
  ∧ in_one_room_at_most (manager world_two_in_room).
Proof.
  split; [vm_compute; reflexivity|].
  pose proof (X19_membership_in_reachable_stores env_same_code world_two_in_room
                (demo_uuid4_good _ _ _ _) (reachable_run _ two_in_room)) as H.
  cbn zeta in H. destruct H as (_ & _ & H & _). exact H.
Defined.

(** ** The message history *)

Lemma send_message_keeps_history env w uid data :
  good_env env → reachable env w →
  (users (manager w) !! uid = None
   ∨ (∃ usr, users (manager w) !! uid = Some usr
             ∧ (User.room_id usr = None
                ∨ ∃ rid, User.room_id usr = Some rid
                         ∧ room_messages (manager w) !! rid = None))
   ∨ str_strip env (Py.dict_get data "text" "") = "") →
  room_messages (manager (world_of (_handle_send_message env uid data w)))
  = room_messages (manager w).
Proof.
  intros Hgood Hreach Hcase.
  pose proof (Inv_reachable _ _ Hgood Hreach) as HI.
  destruct (users (manager w) !! uid) as [usr|] eqn:Hu;
    [|by rewrite send_message_unregistered].
  destruct (current_room (manager w) uid) as [rid|] eqn:Hc;
    [|by erewrite send_message_not_in_room].
  destruct (decide (str_strip env (Py.dict_get data "text" "") = ""))
    as [Hb|Hb]; [by erewrite send_message_blank|].
  erewrite send_message_run by done. unfold world_of. cbn [fst manager].
  apply current_room_inv in Hc as (usr' & Hu' & Hr & _).
  assert (usr' = usr) as -> by congruence.
  destruct Hcase as [?|[(usr0 & Hu0 & Hroom)|?]]; [done| |done].
  assert (usr0 = usr) as -> by congruence.
  destruct Hroom as [?|(rid' & Hr' & Hnone)]; [congruence|].
  assert (rid' = rid) as -> by congruence.
  unfold store_message. by rewrite Hnone.
Qed.

(** X21. In every reachable store a room's history holds at most 100
    messages. A message with text sent by a member of a room is put at
    the end of that room's history, from which the oldest entries
    beyond 100 are dropped: a history of fewer than 100 grows by the
    message, a history of 100 loses its first entry; no other history
    changes. A SEND_MESSAGE of an unregistered user, of a user without
    a room or whose room has no history, or with blank text changes no
    history. A JOIN_ROOM that resolves to a room the user is not alone
    in leaves the room's history as it is and sends exactly one
    ROOM_JOINED, to the joiner, carrying the last min(50, size)
    messages of the history in the order of the history. *)
Theorem X21_history_bounded_fifo env w :
  good_env env → reachable env w →
  (∀ rid h, room_messages (manager w) !! rid = Some h → length h ≤ 100)
  ∧ (∀ uid usr rid h data,
       users (manager w) !! uid = Some usr → User.room_id usr = Some rid →
       room_messages (manager w) !! rid = Some h →
       str_strip env (Py.dict_get data "text" "") ≠ "" →
       let m' := manager (world_of (_handle_send_message env uid data w)) in
       let message :=
         Message.mk (uuid4 env (uuid_calls w)) rid uid (User.name usr)
           (str_strip env (Py.dict_get data "text" "")) (User.language usr)
           (now env (clock_calls w)) in
       room_messages m'
       = <[rid := drop (length h + 1 - 100) (h ++ [message])]>
           (room_messages (manager w))
       ∧ (length h < 100 → room_messages m' !! rid = Some (h ++ [message]))
       ∧ (length h = 100 →
          room_messages m' !! rid = Some (drop 1 h ++ [message])))
  ∧ (∀ uid data,
       (users (manager w) !! uid = None
        ∨ (∃ usr, users (manager w) !! uid = Some usr
                  ∧ (User.room_id usr = None
                     ∨ ∃ rid, User.room_id usr = Some rid
                              ∧ room_messages (manager w) !! rid = None))
        ∨ str_strip env (Py.dict_get data "text" "") = "") →
       room_messages (manager (world_of (_handle_send_message env uid data w)))
       = room_messages (manager w))
  ∧ (∀ uid usr data rid room l h,
       users (manager w) !! uid = Some usr →
       join_target env (manager w) data = Some (rid, room) →
       room_members (manager w) !! rid = Some l → l ≠ [uid] →
       room_messages (manager w) !! rid = Some h →
       let r := _handle_join_room env uid data w in
       let replay := drop (length h - 50) h in
       length replay = Nat.min 50 (length h)
       ∧ room_messages (manager (world_of r)) !! rid = Some h
       ∧ (∃ members, (uid, RoomJoined room members replay) ∈ sent_of r)
       ∧ ∀ to room' members messages,
           (to, RoomJoined room' members messages) ∈ sent_of r →
           to = uid ∧ room' = room ∧ messages = replay).
Proof.
  intros Hgood Hreach. pose proof (Inv_reachable _ _ Hgood Hreach) as HI.
  split_and!.
  - apply (inv_history _ _ _ HI).
  - intros uid usr rid h data Hu Hr Hh Htext. cbn zeta.
    assert (is_Some (room_members (manager w) !! rid)) as [l Hl].
    { apply (inv_members_dom _ _ _ HI), (inv_messages_dom _ _ _ HI). eauto. }
    destruct (send_message_in_live_room env w uid usr rid l h data
                Hgood Hreach Hu Hr Hl Hh Htext) as [Hrun _].
    cbn zeta in Hrun. rewrite Hrun. unfold world_of. cbn [fst]. mgr_simpl.
    rewrite push_message_drop. split_and!; [done| |].
    + intros Hlt. rewrite lookup_insert_eq.
      by replace (length h + 1 - 100) with 0 by lia.
    + intros Hfull. rewrite lookup_insert_eq.
      replace (length h + 1 - 100) with 1 by lia.
      rewrite drop_app_le by lia. done.
  - intros uid data. by apply send_message_keeps_history.
  - intros uid usr data rid room l h Hu Ht Hl Hne Hh. cbn zeta.
    destruct (leave_mgr_keeps_room env _ _ uid rid l Hgood HI Hl Hne)
      as ([l1 Hl1] & _ & Hh1).
    assert (room_members (join_mgr0 uid data rid (manager w)) !! rid
            = Some l1) as Hl0 by done.
    assert (room_messages (join_mgr uid data rid (manager w)) !! rid
            = Some h) as Hh2.
    { rewrite <- Hh, <- Hh1. unfold join_mgr. rewrite Hl0.
      by case_bool_decide. }
    destruct (join_room_run env uid data w usr rid room l1 Hu Ht Hl0)
      as (members & member & c & ->).
    unfold world_of, sent_of. cbn [fst snd manager].
    unfold Py.dict_get, Py.last_n. rewrite Hh2. cbn [default from_option id].
    assert (unicast (join_mgr uid data rid (manager w)) uid
              (RoomJoined room members (drop (length h - 50) h))
            = [(uid, RoomJoined room members (drop (length h - 50) h))])
      as Hsend.
    { eapply unicast_registered; [exact HI|by eauto|].
      apply session_kept_join. }
    rewrite Hsend. split_and!.
    + rewrite length_drop. lia.
    + done.
    + exists members. apply elem_of_app. right. by left.
    + intros to room' members' messages Hin.
      apply elem_of_app in Hin as [Hin|Hin];
        [by apply leave_sends_user_left in Hin as [? ?]|].
      apply elem_of_cons in Hin as [Hin|Hin].
      * by injection Hin as -> -> _ ->.
      * unfold to_all in Hin.
        by apply list_elem_of_fmap in Hin as (? & ? & _).
Qed.

Lemma X21_history_bounded_fifo_witness :
  room_messages (manager world_two_messages) !! "u1"
  = Some [Message.mk "u3" "u1" "u0" "Ann" "hi" "en" 5%Z;
          Message.mk "u4" "u1" "u2" "Bo" "hi" "en" 6%Z]
  ∧ room_messages
      (manager (world_of (_handle_send_message env_same_code "u0" say_hi
                            world_two_messages))) !! "u1"
    = Some [Message.mk "u3" "u1" "u0" "Ann" "hi" "en" 5%Z;
            Message.mk "u4" "u1" "u2" "Bo" "hi" "en" 6%Z;
            Message.mk "u5" "u1" "u0" "Ann" "hi" "en" 7%Z].
Proof.
  assert (room_messages (manager world_two_messages) !! "u1"
          = Some [Message.mk "u3" "u1" "u0" "Ann" "hi" "en" 5%Z;
                  Message.mk "u4" "u1" "u2" "Bo" "hi" "en" 6%Z]) as Hh
    by by_computation.
  split; [exact Hh|].
  destruct (X21_history_bounded_fifo env_same_code world_two_messages
              (demo_uuid4_good _ _ _ _) (reachable_run _ two_with_messages))
    as (_ & Hsend & _).
  assert (users (manager world_two_messages) !! "u0"
          = Some (User.mk "u0" "Ann" "en" (Some "u1"))) as Hu
    by by_computation.
  assert (str_strip env_same_code (Py.dict_get say_hi "text" "") ≠ "")
    as Htext by (vm_compute; discriminate).
  destruct (Hsend "u0" _ "u1" _ say_hi Hu eq_refl Hh Htext)
    as (_ & Happ & _).
  rewrite Happ by (cbn; lia). by_computation.
Defined.
